(** * EdgeRouter / GPTRouter: the routing decision engine

    A shallow embedding of the three router implementations of the
    repository and the properties of the design document that concern them:

    - [EdgeRouterV1]  : [index.js], the two-provider router;
    - [EdgeRouter]    : the multi-provider JavaScript router (strategies,
                        per-provider budget, failure-counting health checks);
    - [GPTRouter]     : [src/index.ts], the TypeScript router (budget filter,
                        [selectProvider], lazy budget reset, analytics).

    Conventions of the embedding.

    - JavaScript numbers that carry money, latency or reliability are
      exact rationals ([Q]); [Infinity] is a separate constructor where the
      code uses it.  Counters and lengths are [Z].
    - Strings are [string]; a character is a code unit below 256.
    - A [Map] or an object used as a dictionary is an association list in
      insertion order, because iteration order decides ties.
    - [Array.prototype.sort] is the stable sort of the language standard.
    - Clock reads ([Date.now()], [new Date()]) and the simulated health
      probe ([Math.random() > 0.1]) are inputs of the functions that use
      them.
    - A thrown [Error] is a value of type [error]; an [async] function that
      throws is a rejected call.
    - Each router is given twice: on requests of the declared types, and,
      in its submodule [Any], on any run-time value ([null] requests,
      missing fields, [null] array elements), with the middleware that
      passes [req.body] to it.  [AnyProps] relates the two. *)

From Stdlib Require Import List String Ascii Bool ZArith QArith Lia.
From Stdlib Require Import Qround Lqa Permutation Sorted.
Import ListNotations.

Local Open Scope string_scope.
Local Open Scope Z_scope.

(** ** Regular expressions of the sensitivity patterns *)

Module Regex.

Definition cclass := ascii -> bool.

(** The fragment of the pattern language the detectors use.  Repetition
    ([*], [+]) only ever applies to a single character class. *)
Inductive regex : Type :=
| Eps
| Lit (c : ascii)
| Cls (k : cclass)
| Seq (r1 r2 : regex)
| Alt (r1 r2 : regex)
| Opt (r : regex)
| Star (k : cclass)
| Bnd.                                  (* \b *)

Definition code (c : ascii) : nat := nat_of_ascii c.

Definition in_range (lo hi : nat) (c : ascii) : bool :=
  (Nat.leb lo (code c) && Nat.leb (code c) hi)%bool.

Definition is_digit : cclass := in_range 48 57.          (* \d *)
Definition is_upper : cclass := in_range 65 90.
Definition is_lower : cclass := in_range 97 122.
Definition is_char (c : ascii) : cclass := Ascii.eqb c.

(* \w *)
Definition is_word : cclass :=
  fun c => (is_digit c || is_upper c || is_lower c || is_char "_" c)%bool.

(* \s, restricted to code units below 256:
   TAB, LF, VT, FF, CR, SPACE, NBSP *)
Definition is_space : cclass :=
  fun c => (in_range 9 13 c || Nat.eqb (code c) 32 || Nat.eqb (code c) 160)%bool.

(* \S *)
Definition not_space : cclass := fun c => negb (is_space c).

(* .  : anything but a line terminator *)
Definition is_dot : cclass :=
  fun c => negb (Nat.eqb (code c) 10 || Nat.eqb (code c) 13)%bool.

Definition one_of (s : string) : cclass :=
  fun c => existsb (Ascii.eqb c) (list_ascii_of_string s).

Definition union (k1 k2 : cclass) : cclass := fun c => (k1 c || k2 c)%bool.

Definition to_upper (c : ascii) : ascii :=
  if is_lower c then ascii_of_nat (code c - 32) else c.

Definition to_lower (c : ascii) : ascii :=
  if is_upper c then ascii_of_nat (code c + 32) else c.

(** With the [i] flag two characters match when their canonical (upper
    case) forms agree; for a class this is membership of the character
    or of its other-case form. *)
Definition lit_match (icase : bool) (c x : ascii) : bool :=
  if icase then Ascii.eqb (to_upper c) (to_upper x) else Ascii.eqb c x.

Definition cls_match (icase : bool) (k : cclass) (x : ascii) : bool :=
  if icase then (k x || k (to_upper x) || k (to_lower x))%bool else k x.

(** A position in the subject: the character before it, and the rest. *)
Definition pos : Type := option ascii * list ascii.

Definition word_before (p : option ascii) : bool :=
  match p with Some c => is_word c | None => false end.

Definition word_after (s : list ascii) : bool :=
  match s with c :: _ => is_word c | [] => false end.

Fixpoint star_ends (icase : bool) (k : cclass) (prev : option ascii)
         (s : list ascii) : list pos :=
  (prev, s) ::
  match s with
  | c :: s' => if cls_match icase k c then star_ends icase k (Some c) s' else []
  | [] => []
  end.

(** [ends icase r prev s]: every position at which a match of [r]
    starting at [(prev, s)] can end. *)
Fixpoint ends (icase : bool) (r : regex) (prev : option ascii)
         (s : list ascii) : list pos :=
  match r with
  | Eps => [(prev, s)]
  | Lit c =>
      match s with
      | x :: s' => if lit_match icase c x then [(Some x, s')] else []
      | [] => []
      end
  | Cls k =>
      match s with
      | x :: s' => if cls_match icase k x then [(Some x, s')] else []
      | [] => []
      end
  | Seq r1 r2 =>
      flat_map (fun p => ends icase r2 (fst p) (snd p)) (ends icase r1 prev s)
  | Alt r1 r2 => ends icase r1 prev s ++ ends icase r2 prev s
  | Opt r1 => ends icase r1 prev s ++ [(prev, s)]
  | Star k => star_ends icase k prev s
  | Bnd => if xorb (word_before prev) (word_after s) then [(prev, s)] else []
  end.

Definition matches_here (icase : bool) (r : regex) (prev : option ascii)
           (s : list ascii) : bool :=
  match ends icase r prev s with [] => false | _ :: _ => true end.

(** Unanchored search: try every start position, left to right. *)
Fixpoint search (icase : bool) (r : regex) (prev : option ascii)
         (s : list ascii) : bool :=
  if matches_here icase r prev s then true
  else match s with
       | [] => false
       | c :: s' => search icase r (Some c) s'
       end.

(** A pattern literal [/r/] or [/r/i]. *)
Record pattern : Type := mkPattern { body : regex; icase : bool }.

(** [RegExp.prototype.test] for a pattern without the [g] flag. *)
Definition test (p : pattern) (s : string) : bool :=
  search (icase p) (body p) None (list_ascii_of_string s).

(** Builders. *)
Fixpoint lit_list (l : list ascii) : regex :=
  match l with
  | [] => Eps
  | [c] => Lit c
  | c :: l' => Seq (Lit c) (lit_list l')
  end.

Definition lit (s : string) : regex := lit_list (list_ascii_of_string s).

Fixpoint seqs (l : list regex) : regex :=
  match l with
  | [] => Eps
  | [r] => r
  | r :: l' => Seq r (seqs l')
  end.

Fixpoint alts (l : list regex) : regex :=
  match l with
  | [] => Eps
  | [r] => r
  | r :: l' => Alt r (alts l')
  end.

Definition plus (k : cclass) : regex := Seq (Cls k) (Star k).

Fixpoint rep (n : nat) (r : regex) : regex :=
  match n with
  | O => Eps
  | S O => r
  | S n' => Seq r (rep n' r)
  end.

Definition digits (n : nat) : regex := rep n (Cls is_digit).

(* /\b\d{3}-\d{2}-\d{4}\b/ *)
Definition ssn : pattern :=
  mkPattern (seqs [Bnd; digits 3; Lit "-"; digits 2; Lit "-"; digits 4; Bnd])
            false.

(* /\b\d{4}[\s-]?\d{4}[\s-]?\d{4}[\s-]?\d{4}\b/ *)
Definition credit_card : pattern :=
  let sep := Opt (Cls (union is_space (is_char "-"))) in
  mkPattern (seqs [Bnd; digits 4; sep; digits 4; sep; digits 4; sep;
                   digits 4; Bnd])
            false.

(* /api[_-]?key/i *)
Definition api_key : pattern :=
  mkPattern (seqs [lit "api"; Opt (Cls (one_of "_-")); lit "key"]) true.

(** [Array.prototype.some] over the pattern table. *)
Definition any_match (ps : list pattern) (s : string) : bool :=
  existsb (fun p => test p s) ps.

End Regex.

Import Regex.


(** ** Values shared by the routers *)

(** A thrown exception: [new Error(message)], or the [TypeError] of a
    property access on [undefined]. *)
Inductive error : Type :=
| JsError (message : string)
| JsTypeError.

Inductive result (A : Type) : Type :=
| Ok (a : A)
| Err (e : error).
Arguments Ok {A} a.
Arguments Err {A} e.

Definition is_ok {A : Type} (r : result A) : bool :=
  match r with Ok _ => true | Err _ => false end.

Inductive Privacy : Type := Cloud | Local.

Definition Privacy_eqb (a b : Privacy) : bool :=
  match a, b with
  | Cloud, Cloud | Local, Local => true
  | _, _ => false
  end.

(** *** Dictionaries in insertion order *)

Section Dict.
Context {V : Type}.

Definition dict : Type := list (string * V).

Fixpoint lookup (k : string) (d : dict) : option V :=
  match d with
  | [] => None
  | (k', v) :: d' => if String.eqb k k' then Some v else lookup k d'
  end.

(** [Map.prototype.set] and property assignment: an existing key keeps
    its place, a new key goes last. *)
Fixpoint set (k : string) (v : V) (d : dict) : dict :=
  match d with
  | [] => [(k, v)]
  | (k', v') :: d' =>
      if String.eqb k k' then (k', v) :: d' else (k', v') :: set k v d'
  end.

Definition has (k : string) (d : dict) : bool :=
  match lookup k d with Some _ => true | None => false end.

Definition keys (d : dict) : list string := map fst d.
Definition values (d : dict) : list V := map snd d.
End Dict.
Arguments dict V : clear implicits.

(** *** [Array.prototype.sort] with a comparator

    [cmp a b < 0] puts [a] first, [cmp a b > 0] puts [b] first, and equal
    elements keep their order.  For a comparator that is a consistent
    ordering this list is the result of every conforming stable sort. *)

Section Sort.
Context {A : Type}.
Variable cmp : A -> A -> Q.

Definition goes_after (x y : A) : bool := negb (Qle_bool (cmp x y) 0).

Fixpoint insert (x : A) (l : list A) : list A :=
  match l with
  | [] => [x]
  | y :: l' => if goes_after x y then y :: insert x l' else x :: y :: l'
  end.

Fixpoint sort (l : list A) : list A :=
  match l with
  | [] => []
  | x :: l' => insert x (sort l')
  end.
End Sort.

(** *** Numbers *)

(** A budget limit: a finite amount or [Infinity]. *)
Inductive limit : Type :=
| Fin (q : Q)
| Infinity.

(** [x <= b] for a finite [x]. *)
Definition le_limit (x : Q) (b : limit) : bool :=
  match b with
  | Fin q => Qle_bool x q
  | Infinity => true
  end.

(** [Math.ceil (n / 4)] for an integer [n]. *)
Definition ceil_div4 (n : Z) : Z := (n + 3) / 4.

(** [Math.round x]: the nearest integer, ties upwards. *)
Definition round (x : Q) : Z := Qfloor (x + (1 # 2))%Q.

(** [Number (x.toFixed (4))]: the nearest multiple of 1/10000, ties away
    from zero. *)
Definition toFixed4 (x : Q) : Q :=
  if Qle_bool 0 x
  then (Qfloor (x * 10000 + (1 # 2)) # 10000)%Q
  else (- (Qfloor ((- x) * 10000 + (1 # 2)) # 10000))%Q.

(** [reduce ((a, b) => a + b, 0)].  The sum is exact here; the code adds
    doubles, so two sums of the same numbers taken in different orders
    can differ in the last place there.  No statement below compares two
    such sums. *)
Definition sumQ (l : list Q) : Q := fold_left Qplus l 0%Q.
Definition sumZ (l : list Z) : Z := fold_left Z.add l 0.

(** A chat message as the TypeScript interface has it. *)
Record Message : Type := mkMessage { role : string; content : string }.

Definition strlen (s : string) : Z := Z.of_nat (String.length s).

(** ** Requests of the JavaScript routers

    A request object of the JavaScript routers.  The [messages] field is
    absent ([undefined] or [null]), some value that is not an array, or an
    array of message objects, as the type declarations have them; the
    [content] of a message is absent or a string.  The functions on these
    requests are the routers restricted to arrays of message objects;
    the section on requests at run time has the routers on any value, and
    [AnyProps] shows that the two agree on these requests. *)

Inductive JsContent : Type :=
| CUndefined
| CNull
| CString (s : string).

Record JsMessage : Type := mkJsMessage { js_role : string; js_content : JsContent }.

Inductive JsMessages : Type :=
| MissingMessages
| NotAnArray
| MessageArray (msgs : list JsMessage).

Record JsRequest : Type := mkJsRequest { js_messages : JsMessages }.

(* String (msg.content || '') *)
Definition content_string (c : JsContent) : string :=
  match c with
  | CString s => s
  | CUndefined | CNull => ""
  end.

Definition lacks_content (m : JsMessage) : Prop :=
  js_content m = CUndefined \/ js_content m = CNull.

Definition InvalidRequest : error :=
  JsError "Invalid request: messages array required".

(** ** Requests at run time

    Nothing checks a request at run time: [route] is called with whatever
    its caller passes, and the middlewares pass [req.body], any JSON
    value.  A value is modelled by what the routers read of it.  The
    request is [undefined] or [null], a falsy primitive (which has no
    properties), or a value with a [messages] and a [model] property.
    [messages] is absent, a value that is no array, or an array; an
    element of the array is [null] or [undefined], on which reading
    [content] throws a [TypeError], or any other value, with the
    [content] read from it: absent or a string.  (A content that is
    neither is outside this model.) *)

Inductive AnyElement : Type :=
| NullElement
| Element (msg : JsMessage).

Inductive AnyMessages : Type :=
| Absent                                 (* undefined or null *)
| Other                                  (* a value that is no array *)
| Elements (elements : list AnyElement).

Record Fields : Type := mkFields {
  f_messages : AnyMessages;
  f_model : option string                (* [None]: absent or falsy *)
}.

Inductive AnyValue : Type :=
| Nullish                                (* undefined or null *)
| Falsy                                  (* 0, '', false, NaN *)
| Truthy (fields : Fields).

(** [messages.some (msg => f (msg))] for an [f] that reads a property of
    [msg]: it stops at the first element for which [f] holds, and throws
    on a [null] element met before that. *)
Fixpoint some_message (f : JsMessage -> bool) (messages : list AnyElement)
  : result bool :=
  match messages with
  | [] => Ok false
  | NullElement :: _ => Err JsTypeError
  | Element msg :: rest => if f msg then Ok true else some_message f rest
  end.

(** The requests of the declared types, as run-time values. *)
Definition elements_of (msgs : list JsMessage) : list AnyElement :=
  map Element msgs.

Definition of_js (request : JsRequest) : AnyValue :=
  Truthy (mkFields (match js_messages request with
                    | MissingMessages => Absent
                    | NotAnArray => Other
                    | MessageArray msgs => Elements (elements_of msgs)
                    end)
                   None).

Definition js_of (m : Message) : JsMessage :=
  mkJsMessage (role m) (CString (content m)).

(** ** What the middlewares read and write

    An HTTP request is what the middlewares read of it: [path], [url]
    and [method], each a string or something else, and [body].  A
    response is the call made on [res] or [next].  The dashboard page is
    a rendering of the analytics summary; the response [Html] carries the
    summary the page is rendered from, not its text. *)

Record HttpRequest : Type := mkHttp {
  path : option string;
  url : option string;
  method : option string;
  body : AnyValue
}.

Inductive HttpResponse (Page Decision : Type) : Type :=
| Html (page : Page)                        (* res.send (html) *)
| Json (decision : Decision)                (* res.json (response) *)
| ErrorJson (status : Z) (e : error)        (* res.status (500).json ({error: error.message}) *)
| NotFound                                  (* res.status (404).json ({error: 'Not found'}) *)
| Next.                                     (* next () *)
Arguments Html {Page Decision} _.
Arguments Json {Page Decision} _.
Arguments ErrorJson {Page Decision} _ _.
Arguments NotFound {Page Decision}.
Arguments Next {Page Decision}.

(* x === '/dashboard' *)
Definition is_str (expected : string) (x : option string) : bool :=
  match x with
  | Some s => String.eqb s expected
  | None => false
  end.

(** ** [index.js]: the two-provider EdgeRouter *)

Module EdgeRouterV1.

Record Router : Type := mkRouter { preferLocal : bool }.

Record Routing : Type := mkRouting { provider : string; reason : string }.

Definition patterns : list pattern :=
  [ api_key;
    mkPattern (lit "sk_live_") false;
    mkPattern (lit "pk_live_") false;
    mkPattern (Seq (lit "bearer") (plus is_space)) true;   (* /bearer\s+/i *)
    mkPattern (lit "password") true;
    mkPattern (lit "secret") true;
    mkPattern (lit "token") true;
    ssn;
    mkPattern (lit "private") true;
    mkPattern (lit "confidential") true ].

Definition containsSensitive (msgs : list JsMessage) : bool :=
  existsb (fun msg => any_match patterns (content_string (js_content msg))) msgs.

Definition routeToLocal : Routing := mkRouting "local" "sensitive_content".
Definition routeToCloudflare : Routing := mkRouting "cloudflare" "cost_optimized".

(** The mock responses are constant but for their [routing] field, which
    stands for the response here. *)
Definition route (r : Router) (request : JsRequest) : result Routing :=
  match js_messages request with
  | MissingMessages | NotAnArray => Err InvalidRequest
  | MessageArray messages =>
      let hasSensitive := containsSensitive messages in
      let provider :=
        if (hasSensitive || preferLocal r)%bool
        then "local"
        else "cloudflare" (* default to cheapest *) in
      if String.eqb provider "local" then Ok routeToLocal
      else if String.eqb provider "cloudflare" then Ok routeToCloudflare
      else if String.eqb provider "openai"
           then Err (JsError "OpenAI routing not yet implemented")
           else Err (JsError ("Unknown provider: " ++ provider))
  end.

(** *** The router on any value *)

Module Any.

Definition containsSensitive (messages : list AnyElement) : result bool :=
  some_message
    (fun msg => any_match patterns (content_string (js_content msg)))
    messages.

Definition route (r : Router) (request : AnyValue) : result Routing :=
  match request with
  | Nullish => Err JsTypeError              (* const { messages } = request *)
  | Falsy => Err InvalidRequest
  | Truthy fields =>
      match f_messages fields with
      | Absent | Other => Err InvalidRequest
      | Elements messages =>
          match containsSensitive messages with
          | Err e => Err e
          | Ok hasSensitive =>
              let provider :=
                if (hasSensitive || preferLocal r)%bool
                then "local"
                else "cloudflare" (* default to cheapest *) in
              if String.eqb provider "local" then Ok routeToLocal
              else if String.eqb provider "cloudflare" then Ok routeToCloudflare
              else if String.eqb provider "openai"
                   then Err (JsError "OpenAI routing not yet implemented")
                   else Err (JsError ("Unknown provider: " ++ provider))
          end
      end
  end.

(** The body is routed; a thrown error becomes a 500. *)
Definition middleware (r : Router) (req : HttpRequest)
  : HttpResponse unit Routing :=
  match route r (body req) with
  | Ok result => Json result
  | Err e => ErrorJson 500 e
  end.

End Any.

End EdgeRouterV1.

(** ** The multi-provider EdgeRouter *)

Module EdgeRouter.

Inductive Status : Type := Healthy | Unhealthy.

Definition is_healthy (s : Status) : bool :=
  match s with Healthy => true | Unhealthy => false end.

Record ProviderConfig : Type := mkProvider {
  cost : Q;
  latency : Q;
  reliability : Q;
  privacy : Privacy;
  status : Status
}.

Record Overrides : Type := mkOverrides {
  o_cost : option Q;
  o_latency : option Q;
  o_reliability : option Q;
  o_privacy : option Privacy;
  o_status : option Status
}.

Record Config : Type := mkConfig {
  cfg_strategy : option string;
  cfg_dailyBudget : option Q;
  cfg_monthlyBudget : option Q;
  cfg_providers : dict Overrides
}.

Record HealthCheck : Type := mkHealthCheck {
  failureThreshold : Z;
  failures : dict Z;
  lastCheck : dict Z
}.

Record Alert : Type := mkAlert {
  alert_type : string;
  alert_provider : string;
  timestamp : Z
}.

Record BudgetManager : Type := mkBudget {
  daily : Q;
  monthly : Q;
  spent : dict Q;
  alerts : list Alert
}.

Record Analytics : Type := mkAnalytics {
  requests : dict Z;
  costs : dict Q;
  startTime : Z
}.

Record Router : Type := mkRouter {
  providers : dict ProviderConfig;
  strategy : string;
  healthCheck : HealthCheck;
  budgetManager : BudgetManager;
  analytics : Analytics
}.

Record Routing : Type := mkRouting {
  provider : string;
  reason : string;
  r_cost : Q;
  r_latency : Q
}.

(** *** Construction *)

Definition defaults : dict ProviderConfig :=
  [ ("cloudflare", mkProvider 0.001  50  0.99  Cloud Healthy);
    ("openai",     mkProvider 0.015  200 0.995 Cloud Healthy);
    ("anthropic",  mkProvider 0.012  180 0.99  Cloud Healthy);
    ("local",      mkProvider 0      100 1.0   Local Healthy);
    ("groq",       mkProvider 0.0001 30  0.95  Cloud Healthy);
    ("together",   mkProvider 0.002  60  0.97  Cloud Healthy) ]%Q.

Definition or_else {A : Type} (o : option A) (dflt : A) : A :=
  match o with Some a => a | None => dflt end.

(* Object.assign (this.providers[name], config.providers[name]) *)
Definition assign (p : ProviderConfig) (o : Overrides) : ProviderConfig :=
  mkProvider (or_else (o_cost o) (cost p))
             (or_else (o_latency o) (latency p))
             (or_else (o_reliability o) (reliability p))
             (or_else (o_privacy o) (privacy p))
             (or_else (o_status o) (status p)).

Fixpoint merge_configs (cs : dict Overrides) (ps : dict ProviderConfig)
  : dict ProviderConfig :=
  match cs with
  | [] => ps
  | (n, o) :: cs' =>
      match lookup n ps with
      | Some p => merge_configs cs' (set n (assign p o) ps)
      | None => merge_configs cs' ps
      end
  end.

(* config.dailyBudget || 10.00 *)
Definition number_or (o : option Q) (dflt : Q) : Q :=
  match o with
  | Some q => if Qeq_bool q 0 then dflt else q
  | None => dflt
  end.

(* config.strategy || 'balanced' *)
Definition string_or (o : option string) (dflt : string) : string :=
  match o with
  | Some s => if String.eqb s "" then dflt else s
  | None => dflt
  end.

Definition initializeSpentTracking (ps : dict ProviderConfig) : dict Q :=
  map (fun e => (fst e, 0%Q)) ps.

Definition new (config : Config) (now : Z) : Router :=
  let ps := merge_configs (cfg_providers config) defaults in
  mkRouter ps
           (string_or (cfg_strategy config) "balanced")
           (mkHealthCheck 3 [] [])
           (mkBudget (number_or (cfg_dailyBudget config) 10)
                     (number_or (cfg_monthlyBudget config) 200)
                     (initializeSpentTracking ps)
                     [])
           (mkAnalytics [] [] now).

(** *** Sensitivity detection and token estimate *)

Definition patterns : list pattern :=
  [ api_key;
    mkPattern (lit "sk_live_") false;
    mkPattern (lit "pk_live_") false;
    mkPattern (lit "sk_test_") false;
    mkPattern (Seq (lit "bearer") (plus is_space)) true;   (* /bearer\s+/i *)
    mkPattern (lit "password") true;
    mkPattern (lit "secret") true;
    mkPattern (lit "token") true;
    ssn;
    credit_card;
    mkPattern (lit "private") true;
    mkPattern (lit "confidential") true;
    mkPattern (lit "medical") true;
    (* /health\s+record/i *)
    mkPattern (seqs [lit "health"; plus is_space; lit "record"]) true;
    mkPattern (lit "patient") true ].

Definition containsSensitive (msgs : list JsMessage) : bool :=
  existsb (fun msg => any_match patterns (content_string (js_content msg))) msgs.

(* Array.prototype.join (' '): an absent element prints as nothing *)
Fixpoint join_space (l : list JsContent) : string :=
  match l with
  | [] => ""
  | [c] => content_string c
  | c :: l' => content_string c ++ " " ++ join_space l'
  end.

Definition estimateTokens (msgs : list JsMessage) : Z :=
  let text := join_space (map js_content msgs) in
  ceil_div4 (strlen text).                           (* Rough estimate *)

(** *** Strategies; a provider is referred to by its name *)

Definition getHealthyProviders (r : Router) : list string :=
  map fst (filter (fun e => is_healthy (status (snd e))) (providers r)).

(** [this.providers[a].f] for a name taken from the providers' keys. *)
Definition field (f : ProviderConfig -> Q) (r : Router) (a : string) : Q :=
  match lookup a (providers r) with Some p => f p | None => 0%Q end.

Definition routeToCheapest (r : Router) : option string :=
  let available := getHealthyProviders r in
  hd_error (sort (fun a b => field cost r a - field cost r b)%Q available).

Definition routeToFastest (r : Router) : option string :=
  let available := getHealthyProviders r in
  hd_error (sort (fun a b => field latency r a - field latency r b)%Q available).

Definition routeBalanced (r : Router) : option string :=
  let available := getHealthyProviders r in
  hd_error (sort (fun a b =>
                    let scoreA := field cost r a * 100 + field latency r a in
                    let scoreB := field cost r b * 100 + field latency r b in
                    scoreA - scoreB)%Q
                 available).

Definition privacy_is_local (r : Router) (a : string) : bool :=
  match lookup a (providers r) with
  | Some p => Privacy_eqb (privacy p) Local
  | None => false
  end.

Definition routePrivacyFirst (r : Router) : option string :=
  let available := getHealthyProviders r in
  match filter (privacy_is_local r) available with
  | l :: _ => Some l
  | [] => routeToCheapest r
  end.

Definition routeReliability (r : Router) : option string :=
  let available := getHealthyProviders r in
  hd_error (sort (fun a b => field reliability r b - field reliability r a)%Q
                 available).

(** The own properties of [this.strategies]. *)
Definition strategies (s : string) : option (Router -> option string) :=
  if String.eqb s "cheapest" then Some routeToCheapest
  else if String.eqb s "fastest" then Some routeToFastest
  else if String.eqb s "balanced" then Some routeBalanced
  else if String.eqb s "privacy-first" then Some routePrivacyFirst
  else if String.eqb s "reliability" then Some routeReliability
  else None.

(** [this.strategies] is a plain object: [this.strategies[name]] for a
    name that is none of its own keys is read from [Object.prototype].
    What [strategyFn.call (this)] gives for each inherited member: the
    value returned, as the property key under which [routeToProvider]
    looks it up ([None] for [undefined]), or a [TypeError]. *)
Inductive Inherited : Type :=
| Returns (provider : option string)
| Throws.

Definition among (names : list string) (s : string) : bool :=
  existsb (String.eqb s) names.

Definition object_prototype (s : string) : option Inherited :=
  (* the router itself, or a string or fresh object that prints alike *)
  if among ["toString"; "toLocaleString"; "valueOf"; "constructor"] s
  then Some (Returns (Some "[object Object]"))
  (* false: the argument is undefined *)
  else if among ["hasOwnProperty"; "isPrototypeOf"; "propertyIsEnumerable"] s
  then Some (Returns (Some "false"))
  (* no accessor under the key 'undefined' *)
  else if among ["__lookupGetter__"; "__lookupSetter__"] s
  then Some (Returns None)
  (* no function to define; Object.prototype itself is no function *)
  else if among ["__defineGetter__"; "__defineSetter__"; "__proto__"] s
  then Some Throws
  else None.

(** *** Budget *)

Definition with_budget (b : BudgetManager) (r : Router) : Router :=
  mkRouter (providers r) (strategy r) (healthCheck r) b (analytics r).

Definition checkBudget (now : Z) (r : Router) (name : string) (c : Q)
  : Router * bool :=
  let b := budgetManager r in
  let dailySpent := or_else (lookup name (spent b)) 0%Q in
  if negb (Qle_bool (dailySpent + c) (daily b))
  then (with_budget (mkBudget (daily b) (monthly b) (spent b)
                              (alerts b ++ [mkAlert "daily_budget_exceeded" name now]))
                    r,
        false)
  else (r, true).

Definition findCheaperAlternative (r : Router) (currentProvider : string)
  : string :=
  let current := field cost r currentProvider in
  let alternatives :=
    sort (fun a b => field cost r a - field cost r b)%Q
         (filter (fun p => negb (Qle_bool current (field cost r p)))
                 (getHealthyProviders r)) in
  match alternatives with
  | a :: _ => a
  | [] => currentProvider
  end.

Definition trackRequest (r : Router) (name : string) (c : Q) : Router :=
  let a := analytics r in
  let b := budgetManager r in
  let count := or_else (lookup name (requests a)) 0 in
  let totalCost := or_else (lookup name (costs a)) 0%Q in
  mkRouter (providers r) (strategy r) (healthCheck r)
           (mkBudget (daily b) (monthly b)
                     (set name (or_else (lookup name (spent b)) 0 + c)%Q (spent b))
                     (alerts b))
           (mkAnalytics (set name (count + 1) (requests a))
                        (set name (totalCost + c)%Q (costs a))
                        (startTime a)).

Definition unknown_provider (name : option string) : error :=
  JsError ("Unknown provider: " ++ or_else name "undefined").

(** [routeToProvider] calls itself on a strictly cheaper provider; [fuel]
    bounds the number of such calls, [None] is fuel run out. *)
Fixpoint routeToProvider (fuel : nat) (now : Z) (r : Router)
         (providerName : option string) (msgs : list JsMessage)
         (reason : string) : option (Router * result Routing) :=
  match fuel with
  | O => None
  | S fuel' =>
      match providerName with
      | None => Some (r, Err (unknown_provider None))
      | Some name =>
          match lookup name (providers r) with
          | None => Some (r, Err (unknown_provider providerName))
          | Some p =>
              (* Check budget *)
              let tokens := estimateTokens msgs in
              let estimatedCost := (inject_Z tokens * cost p / 1000)%Q in
              let (r1, fits) := checkBudget now r name estimatedCost in
              (* Over budget, find cheaper alternative *)
              let alternative :=
                if fits then name else findCheaperAlternative r1 name in
              if negb (String.eqb alternative name)
              then routeToProvider fuel' now r1 (Some alternative) msgs
                                   "budget_exceeded"
              else
                (* Track analytics *)
                let r2 := trackRequest r1 name estimatedCost in
                Some (r2, Ok (mkRouting name reason estimatedCost (latency p)))
          end
      end
  end.

(** One call per provider at most: the alternative is strictly cheaper. *)
Definition enough_fuel (r : Router) : nat := S (List.length (providers r)).

Definition route (now : Z) (r : Router) (request : JsRequest)
  : option (Router * result Routing) :=
  match js_messages request with
  | MissingMessages | NotAnArray => Some (r, Err InvalidRequest)
  | MessageArray messages =>
      (* Check for sensitive content *)
      let hasSensitive := containsSensitive messages in
      (* Force local for sensitive content *)
      if hasSensitive
      then routeToProvider (enough_fuel r) now r (Some "local") messages
                           "sensitive_content"
      else
        (* Use selected strategy *)
        match strategies (strategy r) with
        | Some strategyFn =>
            let provider := strategyFn r in
            routeToProvider (enough_fuel r) now r provider messages (strategy r)
        | None =>
            match object_prototype (strategy r) with
            | Some (Returns provider) =>
                routeToProvider (enough_fuel r) now r provider messages
                                (strategy r)
            | Some Throws => Some (r, Err JsTypeError)
            | None =>
                Some (r, Err (JsError ("Unknown strategy: " ++ strategy r)))
            end
        end
  end.

(** *** Health checks *)

Definition set_status (name : string) (s : Status) (ps : dict ProviderConfig)
  : dict ProviderConfig :=
  match lookup name ps with
  | Some p => set name (mkProvider (cost p) (latency p) (reliability p)
                                   (privacy p) s) ps
  | None => ps
  end.

(** [isHealthy] is the outcome of the probe. *)
Definition checkProviderHealth (isHealthy : bool) (now : Z) (r : Router)
           (name : string) : Router :=
  let h := healthCheck r in
  let (fs, ps) :=
    if negb isHealthy then
      let count := or_else (lookup name (failures h)) 0 in
      let fs := set name (count + 1) (failures h) in
      if failureThreshold h <=? count
      then (fs, set_status name Unhealthy (providers r))
      else (fs, providers r)
    else (set name 0 (failures h), set_status name Healthy (providers r)) in
  mkRouter ps (strategy r)
           (mkHealthCheck (failureThreshold h) fs (set name now (lastCheck h)))
           (budgetManager r) (analytics r).

(** *** Analytics *)

Record Summary : Type := mkSummary {
  totalRequests : Z;
  totalCost : Q;
  uptime : Z;
  requestsByProvider : dict Z;
  costsByProvider : dict Q;
  healthStatus : dict Status;
  budget_limit : Q;
  budget_spent : Q;
  budget_alerts : list Alert
}.

Definition getAnalytics (now : Z) (r : Router) : Summary :=
  let totalRequests := sumZ (values (requests (analytics r))) in
  let totalCost := sumQ (values (costs (analytics r))) in
  let uptime := now - startTime (analytics r) in
  mkSummary totalRequests totalCost uptime
            (requests (analytics r))
            (costs (analytics r))
            (map (fun e => (fst e, status (snd e))) (providers r))
            (daily (budgetManager r))
            (sumQ (values (spent (budgetManager r))))
            (alerts (budgetManager r)).

(** *** The router on any value *)

Module Any.

Definition containsSensitive (messages : list AnyElement) : result bool :=
  some_message
    (fun msg => any_match patterns (content_string (js_content msg)))
    messages.

(* messages.map (m => m.content) *)
Fixpoint contents (messages : list AnyElement) : result (list JsContent) :=
  match messages with
  | [] => Ok []
  | NullElement :: _ => Err JsTypeError
  | Element m :: rest =>
      match contents rest with
      | Ok cs => Ok (js_content m :: cs)
      | Err e => Err e
      end
  end.

Definition estimateTokens (messages : list AnyElement) : result Z :=
  match contents messages with
  | Ok cs => let text := join_space cs in Ok (ceil_div4 (strlen text))
  | Err e => Err e
  end.

Fixpoint routeToProvider (fuel : nat) (now : Z) (r : Router)
         (providerName : option string) (messages : list AnyElement)
         (reason : string) : option (Router * result Routing) :=
  match fuel with
  | O => None
  | S fuel' =>
      match providerName with
      | None => Some (r, Err (unknown_provider None))
      | Some name =>
          match lookup name (providers r) with
          | None => Some (r, Err (unknown_provider providerName))
          | Some p =>
              (* Check budget *)
              match estimateTokens messages with
              | Err e => Some (r, Err e)
              | Ok tokens =>
                  let estimatedCost := (inject_Z tokens * cost p / 1000)%Q in
                  let (r1, fits) := checkBudget now r name estimatedCost in
                  (* Over budget, find cheaper alternative *)
                  let alternative :=
                    if fits then name else findCheaperAlternative r1 name in
                  if negb (String.eqb alternative name)
                  then routeToProvider fuel' now r1 (Some alternative)
                                       messages "budget_exceeded"
                  else
                    (* Track analytics *)
                    let r2 := trackRequest r1 name estimatedCost in
                    Some (r2, Ok (mkRouting name reason estimatedCost
                                            (latency p)))
              end
          end
      end
  end.

Definition route (now : Z) (r : Router) (request : AnyValue)
  : option (Router * result Routing) :=
  match request with
  | Nullish => Some (r, Err JsTypeError)    (* const { messages } = request *)
  | Falsy => Some (r, Err InvalidRequest)
  | Truthy fields =>
      match f_messages fields with
      | Absent | Other => Some (r, Err InvalidRequest)
      | Elements messages =>
          (* Check for sensitive content *)
          match containsSensitive messages with
          | Err e => Some (r, Err e)
          | Ok hasSensitive =>
              (* Force local for sensitive content *)
              if hasSensitive
              then routeToProvider (enough_fuel r) now r (Some "local")
                                   messages "sensitive_content"
              else
                (* Use selected strategy *)
                match strategies (strategy r) with
                | Some strategyFn =>
                    let provider := strategyFn r in
                    routeToProvider (enough_fuel r) now r provider messages
                                    (strategy r)
                | None =>
                    match object_prototype (strategy r) with
                    | Some (Returns provider) =>
                        routeToProvider (enough_fuel r) now r provider
                                        messages (strategy r)
                    | Some Throws => Some (r, Err JsTypeError)
                    | None =>
                        Some (r, Err (JsError ("Unknown strategy: "
                                               ++ strategy r)))
                    end
                end
          end
      end
  end.

(** The dashboard on [GET /dashboard]; the body is routed otherwise, and
    a thrown error becomes a 500. *)
Definition middleware (now : Z) (r : Router) (req : HttpRequest)
  : option (Router * HttpResponse Summary Routing) :=
  if (is_str "/dashboard" (path req) && is_str "GET" (method req))%bool
  then Some (r, Html (getAnalytics now r))
  else
    match route now r (body req) with
    | Some (r', Ok result) => Some (r', Json result)
    | Some (r', Err e) => Some (r', ErrorJson 500 e)
    | None => None
    end.

End Any.

End EdgeRouter.

(** ** [src/index.ts]: GPTRouter *)

Module GPTRouter.

Record Provider : Type := mkProvider {
  name : string;
  cost : Q;                       (* per 1K tokens *)
  latency : Q;                    (* ms average *)
  available : bool;
  reliability : option Q;
  privacy : option Privacy
}.

(** [Partial<Provider>] of the configuration. *)
Record PartialProvider : Type := mkPartial {
  p_name : option string;
  p_cost : option Q;
  p_latency : option Q;
  p_available : option bool;
  p_reliability : option Q;
  p_privacy : option Privacy
}.

Definition no_override : PartialProvider :=
  mkPartial None None None None None None.

Record RouterConfig : Type := mkConfig {
  cfg_strategy : string;
  cfg_dailyBudget : option Q;
  cfg_monthlyBudget : option Q;
  cfg_providers : option (dict PartialProvider)
}.

(** What the router reads of a [Date]. *)
Record Date : Type := mkDate {
  year : Z;
  month : Z;                      (* getMonth (), 0 .. 11 *)
  date : Z;                       (* getDate (), 1 .. 31 *)
  time_of_day : Z                 (* ms since midnight *)
}.

Record Router : Type := mkRouter {
  providers : dict Provider;
  strategy : string;
  dailyBudget : limit;
  monthlyBudget : limit;
  spending : dict Q;
  requestCount : Z;
  totalTokens : Z;
  requestsByProvider : dict Z;
  latencies : list Z;
  dailySpent : Q;
  monthlySpent : Q;
  lastResetDate : Date
}.

Record ChatRequest : Type := mkRequest {
  messages : list Message;
  model : option string
}.

Record RoutingInfo : Type := mkRouting {
  r_provider : string;
  r_cost : Q;
  r_latency : Z;
  r_reason : string
}.

Record ChatResponse : Type := mkResponse {
  resp_model : string;
  total_tokens : Z;
  routing : RoutingInfo
}.

(** *** Construction *)

Definition defaults : dict Provider :=
  [ ("openai",     mkProvider "openai"     0.015  200 true (Some 0.99) (Some Cloud));
    ("anthropic",  mkProvider "anthropic"  0.012  180 true (Some 0.98) (Some Cloud));
    ("cloudflare", mkProvider "cloudflare" 0.001  50  true (Some 0.95) (Some Cloud));
    ("groq",       mkProvider "groq"       0.0001 30  true (Some 0.93) (Some Cloud));
    ("together",   mkProvider "together"   0.002  60  true (Some 0.94) (Some Cloud));
    ("local",      mkProvider "local"      0      100 true (Some 1.0)  (Some Local)) ]%Q.

Definition over {A : Type} (o : option A) (dflt : A) : A :=
  match o with Some a => a | None => dflt end.

Definition over_opt {A : Type} (o : option A) (dflt : option A) : option A :=
  match o with Some a => Some a | None => dflt end.

(* { ...config, ...customConfig } *)
Definition merge (base : Provider) (c : PartialProvider) : Provider :=
  mkProvider (over (p_name c) (name base))
             (over (p_cost c) (cost base))
             (over (p_latency c) (latency base))
             (over (p_available c) (available base))
             (over_opt (p_reliability c) (reliability base))
             (over_opt (p_privacy c) (privacy base)).

Definition custom_of (custom : option (dict PartialProvider)) (n : string)
  : PartialProvider :=
  match custom with
  | Some d => over (lookup n d) no_override
  | None => no_override
  end.

(* the loop over Object.entries (custom) *)
Fixpoint add_custom (cs : dict PartialProvider) (ps : dict Provider)
  : dict Provider :=
  match cs with
  | [] => ps
  | (n, c) :: cs' =>
      match has n ps, p_cost c, p_latency c with
      | false, Some _, Some _ =>
          add_custom cs'
            (set n (merge (mkProvider n 0 0 true (Some 0.95%Q) (Some Cloud)) c) ps)
      | _, _, _ => add_custom cs' ps
      end
  end.

Definition initializeProviders (custom : option (dict PartialProvider))
  : dict Provider :=
  let merged := map (fun e => (fst e, merge (snd e) (custom_of custom (fst e))))
                    defaults in
  match custom with
  | Some cs => add_custom cs merged
  | None => merged
  end.

(* config.dailyBudget || Infinity *)
Definition budget_or_infinity (o : option Q) : limit :=
  match o with
  | Some q => if Qeq_bool q 0 then Infinity else Fin q
  | None => Infinity
  end.

Definition new (config : RouterConfig) (now : Date) : Router :=
  let ps := initializeProviders (cfg_providers config) in
  mkRouter ps
           (cfg_strategy config)
           (budget_or_infinity (cfg_dailyBudget config))
           (budget_or_infinity (cfg_monthlyBudget config))
           (map (fun e => (fst e, 0%Q)) ps)
           0 0
           (map (fun e => (fst e, 0)) ps)
           []
           0 0
           now.

(** *** Sensitivity detection *)

Definition patterns : list pattern :=
  [ api_key;
    (* /secret[_-]?key/i *)
    mkPattern (seqs [lit "secret"; Opt (Cls (one_of "_-")); lit "key"]) true;
    (* /bearer\s+[A-Za-z0-9-._~+/]+=*/i *)
    mkPattern (seqs [lit "bearer"; plus is_space;
                     plus (union is_upper (union is_lower
                            (union is_digit (one_of "-._~+/"))));
                     Star (is_char "=")]) true;
    (* /password[:=]\s*\S+/i *)
    mkPattern (seqs [lit "password"; Cls (one_of ":="); Star is_space;
                     plus not_space]) true;
    ssn;
    credit_card;
    (* /patient|medical|diagnosis|prescription/i *)
    mkPattern (alts [lit "patient"; lit "medical"; lit "diagnosis";
                     lit "prescription"]) true;
    (* /salary|income|ssn|social.?security/i *)
    mkPattern (alts [lit "salary"; lit "income"; lit "ssn";
                     seqs [lit "social"; Opt (Cls is_dot); lit "security"]])
              true ].

Definition detectSensitive (msgs : list Message) : bool :=
  existsb (fun m => any_match patterns (content m)) msgs.

(** *** Health and budget filters *)

Definition getHealthyProviders (r : Router) : list Provider :=
  filter available (values (providers r)).

(* Estimate cost for average request (500 tokens) *)
Definition estimatedTokens : Q := 500.

Definition filterByBudget (r : Router) (ps : list Provider) : list Provider :=
  filter (fun p =>
            let estimatedCost := (cost p * estimatedTokens / 1000)%Q in
            le_limit (dailySpent r + estimatedCost)%Q (dailyBudget r))
         ps.

(** *** Strategy selection *)

Definition is_local (p : Provider) : bool :=
  match privacy p with Some Local => true | _ => false end.

(* b.reliability || 0.95 *)
Definition reliability_or_default (p : Provider) : Q :=
  match reliability p with
  | Some q => if Qeq_bool q 0 then 0.95%Q else q
  | None => 0.95%Q
  end.

Definition by_cost (a b : Provider) : Q := (cost a - cost b)%Q.
Definition by_latency (a b : Provider) : Q := (latency a - latency b)%Q.

Definition by_balance (a b : Provider) : Q :=
  let maxCost := 0.015%Q in
  let maxLatency := 200%Q in
  let scoreA := ((cost a / maxCost) * 0.5 + (latency a / maxLatency) * 0.5)%Q in
  let scoreB := ((cost b / maxCost) * 0.5 + (latency b / maxLatency) * 0.5)%Q in
  (scoreA - scoreB)%Q.

Definition by_privacy (a b : Provider) : Q :=
  if (is_local a && negb (is_local b))%bool then (-1)%Q
  else if (negb (is_local a) && is_local b)%bool then 1%Q
  else (cost a - cost b)%Q.

Definition by_reliability (a b : Provider) : Q :=
  (reliability_or_default b - reliability_or_default a)%Q.

(* localProvider && localProvider.available *)
Definition local_if_available (r : Router) : option Provider :=
  match lookup "local" (providers r) with
  | Some localProvider =>
      if available localProvider then Some localProvider else None
  | None => None
  end.

(** [None] is the [undefined] that indexing an empty array yields. *)
Definition selectProvider (r : Router) (ps : list Provider)
           (isSensitive : bool) : option Provider :=
  let by_strategy :=
    if String.eqb (strategy r) "cheapest" then hd_error (sort by_cost ps)
    else if String.eqb (strategy r) "fastest" then hd_error (sort by_latency ps)
    else if String.eqb (strategy r) "balanced" then hd_error (sort by_balance ps)
    else if String.eqb (strategy r) "privacy-first" then hd_error (sort by_privacy ps)
    else if String.eqb (strategy r) "reliability" then hd_error (sort by_reliability ps)
    else hd_error ps in
  let early :=
    if isSensitive then
      match local_if_available r with
      | Some localProvider => Some localProvider
      | None =>
          (* Fallback to most private available provider *)
          hd_error (filter is_local ps)
      end
    else None in
  match early with
  | Some p => Some p
  | None => by_strategy
  end.

(** *** Making the request *)

(* Simple estimation: ~4 characters per token *)
Definition estimateTokens (msgs : list Message) : Z :=
  let totalChars := fold_left (fun sum msg => sum + strlen (content msg)) msgs 0 in
  ceil_div4 totalChars.

Definition bump (k : string) (d : dict Z) : dict Z :=
  set k (over (lookup k d) 0 + 1) d.

Definition add_to (k : string) (x : Q) (d : dict Q) : dict Q :=
  set k (over (lookup k d) 0 + x)%Q d.

(* request.model || provider.name *)
Definition model_or_name (req : ChatRequest) (p : Provider) : string :=
  match model req with
  | Some m => if String.eqb m "" then name p else m
  | None => name p
  end.

(** [actualLatency] is the wall-clock time the simulated call took. *)
Definition makeRequest (actualLatency : Z) (r : Router) (p : Provider)
           (req : ChatRequest) : Router * ChatResponse :=
  let estimatedTokens := estimateTokens (messages req) in
  let cost := (cost p * inject_Z estimatedTokens / 1000)%Q in
  let r' :=
    mkRouter (providers r) (strategy r) (dailyBudget r) (monthlyBudget r)
             (add_to (name p) cost (spending r))
             (requestCount r + 1)
             (totalTokens r + estimatedTokens)
             (bump (name p) (requestsByProvider r))
             (latencies r ++ [actualLatency])
             (dailySpent r + cost)%Q
             (monthlySpent r + cost)%Q
             (lastResetDate r) in
  (r', mkResponse (model_or_name req p) estimatedTokens
                  (mkRouting (name p) cost actualLatency (strategy r))).

(** *** Lazy budget reset *)

Definition set_dailySpent (x : Q) (d : Date) (r : Router) : Router :=
  mkRouter (providers r) (strategy r) (dailyBudget r) (monthlyBudget r)
           (spending r) (requestCount r) (totalTokens r)
           (requestsByProvider r) (latencies r) x (monthlySpent r) d.

Definition set_monthlySpent (x : Q) (r : Router) : Router :=
  mkRouter (providers r) (strategy r) (dailyBudget r) (monthlyBudget r)
           (spending r) (requestCount r) (totalTokens r)
           (requestsByProvider r) (latencies r) (dailySpent r) x
           (lastResetDate r).

Definition checkBudgetReset (now : Date) (r : Router) : Router :=
  (* Reset daily budget *)
  let r1 := if negb (date now =? date (lastResetDate r))
            then set_dailySpent 0 now r
            else r in
  (* Reset monthly budget *)
  if negb (month now =? month (lastResetDate r1))
  then set_monthlySpent 0 r1
  else r1.

(** *** The orchestrator *)

Definition route (now : Date) (actualLatency : Z) (r : Router)
           (request : ChatRequest) : Router * result ChatResponse :=
  let r := checkBudgetReset now r in
  let isSensitive := detectSensitive (messages request) in
  let available := getHealthyProviders r in
  match available with
  | [] => (r, Err (JsError "No available providers"))
  | _ :: _ =>
      let withinBudget := filterByBudget r available in
      let pool := match withinBudget with
                  | _ :: _ => withinBudget
                  | [] => available
                  end in
      match selectProvider r pool isSensitive with
      | Some provider =>
          let (r', resp) := makeRequest actualLatency r provider request in
          (r', Ok resp)
      | None => (r, Err JsTypeError)
      end
  end.

(** *** Health checks *)

(** One simulated probe per provider, in map order; [probes] are the
    outcomes of [Math.random () > 0.1], missing ones read as healthy. *)
Fixpoint probe_all (ps : dict Provider) (probes : list bool) : dict Provider :=
  match ps with
  | [] => []
  | (k, p) :: ps' =>
      let outcome := match probes with b :: _ => b | [] => true end in
      (k, mkProvider (name p) (cost p) (latency p) outcome
                     (reliability p) (privacy p))
        :: probe_all ps' (tl probes)
  end.

Definition performHealthCheck (probes : list bool) (r : Router) : Router :=
  mkRouter (probe_all (providers r) probes) (strategy r) (dailyBudget r)
           (monthlyBudget r) (spending r) (requestCount r) (totalTokens r)
           (requestsByProvider r) (latencies r) (dailySpent r)
           (monthlySpent r) (lastResetDate r).

(** *** Analytics *)

Record Spend : Type := mkSpend { spent : Q; lim : Q; remaining : Q }.

Record Analytics : Type := mkAnalytics {
  a_totalRequests : Z;
  a_totalCost : Q;
  a_totalTokens : Z;
  a_requestsByProvider : dict Z;
  a_costsByProvider : dict Q;
  a_averageLatency : Z;
  a_daily : Spend;
  a_monthly : option Spend
}.

Definition getAnalytics (r : Router) : Analytics :=
  let avgLatency :=
    match latencies r with
    | [] => 0%Q
    | _ :: _ => (inject_Z (sumZ (latencies r))
                 / inject_Z (Z.of_nat (List.length (latencies r))))%Q
    end in
  mkAnalytics
    (requestCount r)
    (toFixed4 (sumQ (values (spending r))))
    (totalTokens r)
    (requestsByProvider r)
    (map (fun e => (fst e, toFixed4 (snd e))) (spending r))
    (round avgLatency)
    (match dailyBudget r with
     | Infinity => mkSpend (toFixed4 (dailySpent r)) 0 0
     | Fin b => mkSpend (toFixed4 (dailySpent r)) b
                        (toFixed4 (b - dailySpent r))
     end)
    (match monthlyBudget r with
     | Infinity => None
     | Fin b => Some (mkSpend (toFixed4 (monthlySpent r)) b
                              (toFixed4 (b - monthlySpent r)))
     end).

(** *** The router on any value

    The declared types are gone at run time; the middleware passes
    [req.body] as it is. *)

Module Any.

(** [p.test (m.content)] turns its argument into a string. *)
Definition tested_text (c : JsContent) : string :=
  match c with
  | CString s => s
  | CUndefined => "undefined"
  | CNull => "null"
  end.

Definition detectSensitive (messages : list AnyElement) : result bool :=
  some_message (fun m => any_match patterns (tested_text (js_content m)))
               messages.

(** [messages.reduce ((sum, msg) => sum + msg.content.length, 0)]:
    reading [length] throws on an absent content. *)
Fixpoint totalChars (sum : Z) (messages : list AnyElement) : result Z :=
  match messages with
  | [] => Ok sum
  | Element m :: rest =>
      match js_content m with
      | CString s => totalChars (sum + strlen s) rest
      | CUndefined | CNull => Err JsTypeError
      end
  | NullElement :: _ => Err JsTypeError
  end.

Definition estimateTokens (messages : list AnyElement) : result Z :=
  match totalChars 0 messages with
  | Ok totalChars => Ok (ceil_div4 totalChars)
  | Err e => Err e
  end.

(* request.model || provider.name *)
Definition model_or_name (model : option string) (p : Provider) : string :=
  match model with
  | Some m => if String.eqb m "" then name p else m
  | None => name p
  end.

Definition makeRequest (actualLatency : Z) (r : Router) (p : Provider)
           (messages : list AnyElement) (model : option string)
  : Router * result ChatResponse :=
  match estimateTokens messages with
  | Err e => (r, Err e)
  | Ok estimatedTokens =>
      let cost := (cost p * inject_Z estimatedTokens / 1000)%Q in
      let r' :=
        mkRouter (providers r) (strategy r) (dailyBudget r) (monthlyBudget r)
                 (add_to (name p) cost (spending r))
                 (requestCount r + 1)
                 (totalTokens r + estimatedTokens)
                 (bump (name p) (requestsByProvider r))
                 (latencies r ++ [actualLatency])
                 (dailySpent r + cost)%Q
                 (monthlySpent r + cost)%Q
                 (lastResetDate r) in
      (r', Ok (mkResponse (model_or_name model p) estimatedTokens
                          (mkRouting (name p) cost actualLatency (strategy r))))
  end.

Definition route (now : Date) (actualLatency : Z) (r : Router)
           (request : AnyValue) : Router * result ChatResponse :=
  let r := checkBudgetReset now r in
  match request with
  | Nullish | Falsy => (r, Err JsTypeError)      (* request.messages.some *)
  | Truthy fields =>
      match f_messages fields with
      | Absent | Other => (r, Err JsTypeError)   (* messages.some *)
      | Elements messages =>
          match detectSensitive messages with
          | Err e => (r, Err e)
          | Ok isSensitive =>
              let available := getHealthyProviders r in
              match available with
              | [] => (r, Err (JsError "No available providers"))
              | _ :: _ =>
                  let withinBudget := filterByBudget r available in
                  let pool := match withinBudget with
                              | _ :: _ => withinBudget
                              | [] => available
                              end in
                  match selectProvider r pool isSensitive with
                  | Some provider =>
                      makeRequest actualLatency r provider messages
                                  (f_model fields)
                  | None => (r, Err JsTypeError)
                  end
              end
          end
      end
  end.

(* req.body, as a condition *)
Definition truthy (v : AnyValue) : bool :=
  match v with
  | Truthy _ => true
  | Nullish | Falsy => false
  end.

(** The dashboard when [path] or [url] is [/dashboard]; a [POST] with a
    body is routed; anything else goes to [next], or is a 404 when there
    is no [next]. *)
Definition middleware (now : Date) (actualLatency : Z) (hasNext : bool)
           (r : Router) (req : HttpRequest)
  : Router * HttpResponse Analytics ChatResponse :=
  if (is_str "/dashboard" (path req) || is_str "/dashboard" (url req))%bool
  then (r, Html (getAnalytics r))
  else if (is_str "POST" (method req) && truthy (body req))%bool
  then
    match route now actualLatency r (body req) with
    | (r', Ok response) => (r', Json response)
    | (r', Err e) => (r', ErrorJson 500 e)
    end
  else if hasNext then (r, Next) else (r, NotFound).

(** A request of the declared type, as a run-time value. *)
Definition of_chat (request : ChatRequest) : AnyValue :=
  Truthy (mkFields (Elements (elements_of (map js_of (messages request))))
                   (model request)).

End Any.

End GPTRouter.


(** * Properties *)

(** ** Dictionaries *)

Section DictFacts.
Context {V : Type}.

Lemma lookup_In (k : string) (d : dict V) (v : V) :
  lookup k d = Some v -> In v (values d).
Proof.
  induction d as [|[k' v'] d IH]; simpl; [discriminate|].
  destruct (String.eqb k k').
  - intros [= ->]. now left.
  - intros H. right. now apply IH.
Qed.


Lemma lookup_set_same (k : string) (v : V) (d : dict V) :
  lookup k (set k v d) = Some v.
Proof.
  induction d as [|[k' v'] d IH]; simpl.
  - now rewrite String.eqb_refl.
  - destruct (String.eqb k k') eqn:E; simpl; rewrite E; auto.
Qed.


End DictFacts.

(** ** The sort *)

Section SortFacts.
Context {A : Type}.
Variable cmp : A -> A -> Q.

Lemma insert_perm (x : A) (l : list A) : Permutation (insert cmp x l) (x :: l).
Proof.
  induction l as [|y l IH]; simpl; [reflexivity|].
  destruct (goes_after cmp x y); [|reflexivity].
  rewrite IH. apply perm_swap.
Qed.

Lemma sort_perm (l : list A) : Permutation (sort cmp l) l.
Proof.
  induction l as [|x l IH]; simpl; [reflexivity|].
  rewrite insert_perm. now constructor.
Qed.

Lemma sort_In (l : list A) (x : A) : In x (sort cmp l) <-> In x l.
Proof.
  split; apply Permutation_in; [|symmetry]; apply sort_perm.
Qed.

Lemma sort_length (l : list A) : List.length (sort cmp l) = List.length l.
Proof. apply Permutation_length, sort_perm. Qed.

Lemma sort_nonempty (l : list A) :
  l <> [] -> exists x, hd_error (sort cmp l) = Some x /\ In x l.
Proof.
  intros Hne.
  destruct (sort cmp l) as [|x t] eqn:E.
  - apply (f_equal (@List.length A)) in E. rewrite sort_length in E.
    destruct l; [congruence|discriminate].
  - exists x. split; [reflexivity|].
    apply sort_In. rewrite E. now left.
Qed.

(** A comparator that subtracts a numeric key. *)
Variable key : A -> Q.
Hypothesis cmp_key : forall a b, (cmp a b == key a - key b)%Q.

Lemma goes_after_gt (x y : A) :
  goes_after cmp x y = true <-> (key y < key x)%Q.
Proof.
  unfold goes_after. rewrite negb_true_iff.
  destruct (Qle_bool (cmp x y) 0) eqn:E.
  - apply Qle_bool_iff in E. rewrite cmp_key in E.
    split; [discriminate|]. intros H. lra.
  - split; [|reflexivity]. intros _.
    destruct (Qlt_le_dec (key y) (key x)) as [H|H]; [exact H|].
    assert (Hle : (cmp x y <= 0)%Q) by (rewrite cmp_key; lra).
    apply Qle_bool_iff in Hle. congruence.
Qed.

Lemma goes_after_le (x y : A) :
  goes_after cmp x y = false <-> (key x <= key y)%Q.
Proof.
  destruct (goes_after cmp x y) eqn:E.
  - apply goes_after_gt in E. split; [discriminate|]. intros H. lra.
  - split; [|reflexivity]. intros _.
    destruct (Qlt_le_dec (key y) (key x)) as [H|H]; [|exact H].
    apply goes_after_gt in H. congruence.
Qed.

Definition key_le (a b : A) : Prop := (key a <= key b)%Q.

Lemma insert_sorted (x : A) (l : list A) :
  StronglySorted key_le l -> StronglySorted key_le (insert cmp x l).
Proof.
  induction 1 as [|y l Hs IH Hall]; simpl.
  - repeat constructor.
  - destruct (goes_after cmp x y) eqn:E.
    + constructor; [exact IH|].
      apply goes_after_gt in E.
      rewrite Forall_forall in *. intros z Hz.
      apply (Permutation_in _ (insert_perm x l)) in Hz.
      destruct Hz as [<-|Hz]; [unfold key_le; lra|now apply Hall].
    + apply goes_after_le in E.
      constructor; [now constructor|].
      constructor; [exact E|].
      rewrite Forall_forall in *. intros z Hz.
      specialize (Hall z Hz). unfold key_le in *. lra.
Qed.

Lemma sort_sorted (l : list A) : StronglySorted key_le (sort cmp l).
Proof.
  induction l as [|x l IH]; simpl; [constructor|].
  now apply insert_sorted.
Qed.

(** The first element of the sorted array has the least key. *)
Lemma sort_hd_least (l : list A) (x : A) :
  hd_error (sort cmp l) = Some x ->
  forall y, In y l -> (key x <= key y)%Q.
Proof.
  intros Hhd y Hy.
  pose proof (sort_sorted l) as Hs.
  apply sort_In in Hy.
  destruct (sort cmp l) as [|h t]; [discriminate|].
  injection Hhd as ->.
  inversion Hs as [|? ? _ Hall]; subst.
  destruct Hy as [<-|Hy]; [lra|].
  rewrite Forall_forall in Hall. now apply Hall.
Qed.
End SortFacts.

(** ** GPTRouter *)

Module GPTRouterProps.
Import GPTRouter.

(** The [pool] of [route]: the healthy providers that pass the budget
    filter, or every healthy provider when none passes. *)
Definition pool (r : Router) : list Provider :=
  let available := getHealthyProviders r in
  let withinBudget := filterByBudget r available in
  match withinBudget with
  | _ :: _ => withinBudget
  | [] => available
  end.

Lemma checkBudgetReset_providers now r :
  providers (checkBudgetReset now r) = providers r.
Proof.
  unfold checkBudgetReset.
  destruct (negb (date now =? date (lastResetDate r)));
    match goal with |- context [if ?c then _ else _] => destruct c end;
    reflexivity.
Qed.


Lemma filterByBudget_incl r ps p : In p (filterByBudget r ps) -> In p ps.
Proof. unfold filterByBudget. intros H. now apply filter_In in H. Qed.

Lemma pool_incl r p : In p (pool r) -> In p (getHealthyProviders r).
Proof.
  unfold pool. cbv zeta.
  destruct (filterByBudget r (getHealthyProviders r)) eqn:E; [auto|].
  rewrite <- E. apply filterByBudget_incl.
Qed.

Lemma pool_nonempty r : getHealthyProviders r <> [] -> pool r <> [].
Proof.
  unfold pool. cbv zeta. intros H.
  destruct (filterByBudget r (getHealthyProviders r)); [exact H|discriminate].
Qed.

Lemma local_if_available_healthy r lp :
  local_if_available r = Some lp -> In lp (getHealthyProviders r).
Proof.
  unfold local_if_available, getHealthyProviders.
  destruct (lookup "local" (providers r)) as [p|] eqn:E; [|discriminate].
  destruct (available p) eqn:Ea; [|discriminate].
  intros [= <-]. apply filter_In. split; [|exact Ea].
  now apply lookup_In with (k := "local").
Qed.

(** What the strategy alone picks from a non-empty array. *)
Definition by_strategy (r : Router) (ps : list Provider) : option Provider :=
  selectProvider r ps false.

Lemma by_strategy_In r ps :
  ps <> [] -> exists p, by_strategy r ps = Some p /\ In p ps.
Proof.
  intros Hne. unfold by_strategy, selectProvider. cbv zeta.
  repeat match goal with
         | |- context [if String.eqb ?a ?b then _ else _] =>
             destruct (String.eqb a b)
         end.
  1-5: now apply sort_nonempty.
  destruct ps as [|p ps]; [congruence|].
  exists p. split; [reflexivity|now left].
Qed.

Lemma selectProvider_sensitive r ps :
  selectProvider r ps true =
    match local_if_available r with
    | Some lp => Some lp
    | None => match filter is_local ps with
              | p :: _ => Some p
              | [] => by_strategy r ps
              end
    end.
Proof.
  unfold by_strategy, selectProvider. cbv zeta.
  destruct (local_if_available r); [reflexivity|].
  destruct (filter is_local ps); reflexivity.
Qed.

Lemma selectProvider_chosen r ps s :
  ps <> [] ->
  exists p, selectProvider r ps s = Some p /\
            (In p ps \/ local_if_available r = Some p).
Proof.
  intros Hne. destruct s.
  - rewrite selectProvider_sensitive.
    destruct (local_if_available r) as [lp|] eqn:El.
    + exists lp. auto.
    + destruct (filter is_local ps) as [|p t] eqn:Ef.
      * destruct (by_strategy_In r ps Hne) as (p & Hp & Hin). eauto.
      * exists p. split; [reflexivity|]. left.
        assert (H : In p (filter is_local ps)) by (rewrite Ef; now left).
        now apply filter_In in H.
  - destruct (by_strategy_In r ps Hne) as (p & Hp & Hin). eauto.
Qed.

(** [route] in terms of the pool and the selection. *)
Lemma route_unfold now lat r req :
  let r1 := checkBudgetReset now r in
  route now lat r req =
    match getHealthyProviders r1 with
    | [] => (r1, Err (JsError "No available providers"))
    | _ :: _ =>
        match selectProvider r1 (pool r1) (detectSensitive (messages req)) with
        | Some p => (fst (makeRequest lat r1 p req),
                     Ok (snd (makeRequest lat r1 p req)))
        | None => (r1, Err JsTypeError)
        end
    end.
Proof.
  cbv zeta. unfold route, pool. cbv zeta.
  destruct (getHealthyProviders (checkBudgetReset now r)) as [|a l] eqn:Ea;
    [reflexivity|].
  destruct (filterByBudget (checkBudgetReset now r) (a :: l));
    match goal with
    | |- context [selectProvider ?x ?y ?z] => destruct (selectProvider x y z)
    end; reflexivity.
Qed.

(** Whenever some provider is healthy, [route] answers with a decision
    for a healthy provider: the one the selection picks from the pool. *)
Lemma route_decides now lat r req :
  let r1 := checkBudgetReset now r in
  getHealthyProviders r1 <> [] ->
  exists p,
    selectProvider r1 (pool r1) (detectSensitive (messages req)) = Some p /\
    In p (getHealthyProviders r1) /\
    route now lat r req =
      (fst (makeRequest lat r1 p req), Ok (snd (makeRequest lat r1 p req))).
Proof.
  cbv zeta. intros Hne.
  destruct (selectProvider_chosen (checkBudgetReset now r)
              (pool (checkBudgetReset now r))
              (detectSensitive (messages req))
              (pool_nonempty _ Hne)) as (p & Hsel & Hin).
  exists p. split; [exact Hsel|]. split.
  - destruct Hin as [Hin|Hin];
      [now apply pool_incl|now apply local_if_available_healthy].
  - pose proof (route_unfold now lat r req) as Hr. cbv zeta in Hr.
    rewrite Hr, Hsel.
    destruct (getHealthyProviders (checkBudgetReset now r)); congruence.
Qed.

(** *** Cheapest strategy *)

(** With strategy [cheapest] and a request that is not sensitive,
    selection from a non-empty candidate array returns one of the
    candidates, and its cost per thousand tokens is at most the cost of
    every candidate. *)
Lemma selectProvider_cheapest (r : Router) (ps : list Provider) :
  strategy r = "cheapest" ->
  ps <> [] ->
  exists p, selectProvider r ps false = Some p /\
            In p ps /\
            forall q, In q ps -> (cost p <= cost q)%Q.
Proof.
  intros Hs Hne.
  assert (Hsel : selectProvider r ps false = hd_error (sort by_cost ps)).
  { unfold selectProvider. cbv zeta. now rewrite Hs. }
  destruct (sort_nonempty by_cost ps Hne) as (p & Hp & Hin).
  exists p. rewrite Hsel. split; [exact Hp|]. split; [exact Hin|].
  apply (sort_hd_least by_cost cost); [|exact Hp].
  intros a b. reflexivity.
Qed.

Definition jan31 : Date := mkDate 2026 0 31 0.
Definition feb01 : Date := mkDate 2026 1 1 0.

Definition say (text : string) : ChatRequest :=
  mkRequest [mkMessage "user" text] None.

Definition cheapest_router : Router :=
  new (mkConfig "cheapest" None None None) jan31.


(** *** Sensitive requests *)

(** The property as the design document words it: a sensitive request is
    served by a provider of privacy class [local] whenever one is
    healthy. *)
Definition sensitive_served_locally_when_some_local_healthy : Prop :=
  forall now lat r req,
    detectSensitive (messages req) = true ->
    (exists p, In p (getHealthyProviders (checkBudgetReset now r)) /\
               privacy p = Some Local) ->
    exists r' resp p,
      route now lat r req = (r', Ok resp) /\
      In p (values (providers r)) /\
      r_provider (routing resp) = name p /\
      privacy p = Some Local.

(** A router whose [local] provider is down, with a second, costly
    provider of privacy class [local] and a daily budget of 0.1. *)
Definition vault_router : Router :=
  new (mkConfig "cheapest" (Some 0.1%Q) None
         (Some [("local", mkPartial None None None (Some false) None None);
                ("vault", mkPartial None (Some 1%Q) (Some 10%Q) None None
                                    (Some Local))]))
      jan31.

Example vault_router_decision :
  snd (route jan31 30 vault_router (say "password: hunter2")) =
    Ok (mkResponse "groq" 5 (mkRouting "groq" 0.0000005 30 "cheapest")).
Proof. reflexivity. Qed.

(** The property fails.  The budget filter runs before the selection:
    the healthy [vault] provider (privacy [local]) is over budget, the
    pool holds cloud providers only, and the sensitive request goes to
    [groq]. *)
Lemma sensitive_served_locally_counterexample :
  ~ sensitive_served_locally_when_some_local_healthy.
Proof.
  intros H.
  destruct (H jan31 30 vault_router (say "password: hunter2") eq_refl)
    as (r' & resp & p & Hroute & Hin & Hname & Hpriv).
  - exists (mkProvider "vault" 1 10 true (Some 0.95%Q) (Some Local)).
    split; [|reflexivity].
    vm_compute. do 5 right. left. reflexivity.
  - vm_compute in Hroute. injection Hroute as _ <-.
    simpl in Hname.
    vm_compute in Hin.
    repeat (destruct Hin as [<-|Hin]; [discriminate|]).
    exact Hin.
Qed.

(** For a sensitive request, whatever the strategy: if the provider
    registered as [local] is available it is chosen; otherwise the first
    provider of privacy class [local] in the pool (the healthy providers
    left by the budget filter) is chosen.  So the chosen provider has
    privacy class [local] as soon as the [local] entry is up, or the pool
    holds a provider of that class. *)
Lemma route_sensitive_pool
        (now : Date) (lat : Z) (r : Router) (req : ChatRequest) :
  let r1 := checkBudgetReset now r in
  detectSensitive (messages req) = true ->
  (forall lp, local_if_available r1 = Some lp -> privacy lp = Some Local) ->
  (local_if_available r1 <> None \/
   exists p, In p (pool r1) /\ privacy p = Some Local) ->
  exists r' resp p,
    route now lat r req = (r', Ok resp) /\
    In p (getHealthyProviders r1) /\
    r_provider (routing resp) = name p /\
    privacy p = Some Local.
Proof.
  cbv zeta. intros Hsens Hlocal Hsome.
  set (r1 := checkBudgetReset now r) in *.
  assert (Hne : getHealthyProviders r1 <> []).
  { destruct Hsome as [Hl|(p & Hp & _)].
    - destruct (local_if_available r1) as [lp|] eqn:El; [|congruence].
      apply local_if_available_healthy in El. intros E. now rewrite E in El.
    - apply pool_incl in Hp. intros E. now rewrite E in Hp. }
  destruct (route_decides now lat r req Hne) as (p & Hsel & Hin & Hroute).
  fold r1 in Hsel, Hin, Hroute.
  exists (fst (makeRequest lat r1 p req)), (snd (makeRequest lat r1 p req)), p.
  repeat split; try assumption.
  rewrite Hsens, selectProvider_sensitive in Hsel.
  destruct (local_if_available r1) as [lp|] eqn:El.
  - injection Hsel as <-. now apply Hlocal.
  - destruct Hsome as [Hl|(q & Hq & Hpriv)]; [congruence|].
    assert (Hf : In q (filter is_local (pool r1))).
    { apply filter_In. split; [exact Hq|]. unfold is_local. now rewrite Hpriv. }
    destruct (filter is_local (pool r1)) as [|p' t] eqn:Ef; [contradiction|].
    injection Hsel as <-.
    assert (Hp' : In p' (filter is_local (pool r1))) by (rewrite Ef; now left).
    apply filter_In in Hp'. destruct Hp' as [_ Hp'].
    unfold is_local in Hp'.
    destruct (privacy p') as [[|]|]; congruence.
Qed.


(** Which provider a sensitive request gets: the [local] entry when it
    is available; otherwise the first provider of privacy class [local] in
    the pool; otherwise what the strategy picks from the pool. *)
Lemma route_sensitive_choice
        (now : Date) (lat : Z) (r : Router) (req : ChatRequest) :
  let r1 := checkBudgetReset now r in
  detectSensitive (messages req) = true ->
  getHealthyProviders r1 <> [] ->
  exists p,
    route now lat r req
    = (fst (makeRequest lat r1 p req), Ok (snd (makeRequest lat r1 p req))) /\
    Some p = match local_if_available r1 with
             | Some lp => Some lp
             | None => match filter is_local (pool r1) with
                       | q :: _ => Some q
                       | [] => by_strategy r1 (pool r1)
                       end
             end.
Proof.
  cbv zeta. intros Hs Hne.
  destruct (route_decides now lat r req Hne) as (p & Hsel & _ & Hr).
  exists p. split; [exact Hr|].
  rewrite Hs, selectProvider_sensitive in Hsel. now rewrite Hsel.
Qed.


(** *** Requests over budget *)


(** A router without its [local] provider and with a daily budget below
    the estimate of every cloud provider. *)
Definition broke_router : Router :=
  new (mkConfig "cheapest" (Some 0.00001%Q) None
         (Some [("local", mkPartial None None None (Some false) None None)]))
      jan31.

Example broke_router_decision :
  filterByBudget broke_router (getHealthyProviders broke_router) = [] /\
  snd (route jan31 30 broke_router (say "hello")) =
    Ok (mkResponse "groq" 2 (mkRouting "groq" 0.0000002 30 "cheapest")).
Proof. split; reflexivity. Qed.




(** [route] fails exactly when no provider is healthy: the budget never
    turns a request down. *)
Lemma route_ok_iff_some_healthy now lat r req :
  is_ok (snd (route now lat r req)) = true <->
  getHealthyProviders (checkBudgetReset now r) <> [].
Proof.
  split.
  - intros Hok Hnone.
    pose proof (route_unfold now lat r req) as Hr. cbv zeta in Hr.
    rewrite Hr, Hnone in Hok. discriminate Hok.
  - intros Hne.
    destruct (route_decides now lat r req Hne) as (p & _ & _ & Hroute).
    now rewrite Hroute.
Qed.

(** *** Cost estimates *)

Definition totalChars (msgs : list Message) : Z :=
  sumZ (map (fun m => strlen (content m)) msgs).

Lemma fold_left_add_map {A : Type} (f : A -> Z) (l : list A) (acc : Z) :
  fold_left (fun sum x => sum + f x) l acc = fold_left Z.add (map f l) acc.
Proof.
  revert acc. induction l as [|x l IH]; intros acc; simpl; [reflexivity|].
  apply IH.
Qed.

Lemma estimateTokens_totalChars msgs :
  estimateTokens msgs = ceil_div4 (totalChars msgs).
Proof.
  unfold estimateTokens, totalChars, sumZ. cbv zeta.
  now rewrite fold_left_add_map.
Qed.

Lemma ceil_div4_bounds (n : Z) : 4 * (ceil_div4 n - 1) < n <= 4 * ceil_div4 n.
Proof.
  unfold ceil_div4.
  pose proof (Z.div_mod (n + 3) 4 ltac:(lia)).
  pose proof (Z.mod_pos_bound (n + 3) 4 ltac:(lia)).
  lia.
Qed.

(** The property as the design document words it: the budget filter
    judges a candidate by the estimate for the request at hand. *)
Definition budget_filter_uses_request_estimate : Prop :=
  forall r req ps p,
    In p (filterByBudget r ps) <->
    In p ps /\
    le_limit (dailySpent r
              + cost p * inject_Z (estimateTokens (messages req)) / 1000)%Q
             (dailyBudget r) = true.

(** C7, counterexample.  A two-character request on the [vault] provider
    (cost 1 per thousand tokens) is estimated at 0.001, within the daily
    budget of 0.1; the filter rejects the provider on the fixed estimate
    of 0.5. *)
Lemma budget_filter_request_estimate_counterexample :
  ~ budget_filter_uses_request_estimate.
Proof.
  intros H.
  set (vault := mkProvider "vault" 1 10 true (Some 0.95%Q) (Some Local)).
  destruct (H vault_router (say "hi") [vault] vault) as [_ Hback].
  assert (Hin : In vault (filterByBudget vault_router [vault])).
  { apply Hback. split; [now left|reflexivity]. }
  vm_compute in Hin. exact Hin.
Qed.

(** C7, as the code has it.  The cost charged for a request is
    [cost * tokens / 1000] with [tokens] the total content length divided
    by four, rounded up.  The budget filter does not use that figure: it
    keeps a provider exactly when the spend of the day plus the estimate
    for an average request of 500 tokens stays within the daily budget. *)
Theorem cost_estimates
        (lat : Z) (r : Router) (p : Provider) (req : ChatRequest)
        (ps : list Provider) :
  let tokens := estimateTokens (messages req) in
  r_cost (routing (snd (makeRequest lat r p req)))
    = (cost p * inject_Z tokens / 1000)%Q /\
  tokens = ceil_div4 (totalChars (messages req)) /\
  4 * (tokens - 1) < totalChars (messages req) <= 4 * tokens /\
  (In p (filterByBudget r ps) <->
   In p ps /\
   le_limit (dailySpent r + cost p * 500 / 1000)%Q (dailyBudget r) = true).
Proof.
  cbv zeta. split; [reflexivity|]. split; [apply estimateTokens_totalChars|].
  split.
  - rewrite estimateTokens_totalChars. apply ceil_div4_bounds.
  - unfold filterByBudget. rewrite filter_In. reflexivity.
Qed.

(** *** Budget reset *)

Lemma checkBudgetReset_new_day now r :
  date now <> date (lastResetDate r) ->
  checkBudgetReset now r = set_dailySpent 0 now r.
Proof.
  intros Hd. unfold checkBudgetReset.
  apply Z.eqb_neq in Hd. rewrite Hd. simpl.
  now rewrite Z.eqb_refl.
Qed.

(** When the day of the month changes, the monthly total is kept,
    whatever the month. *)
Lemma checkBudgetReset_new_day_monthly now r :
  date now <> date (lastResetDate r) ->
  dailySpent (checkBudgetReset now r) = 0%Q /\
  monthlySpent (checkBudgetReset now r) = monthlySpent r /\
  lastResetDate (checkBudgetReset now r) = now.
Proof.
  intros Hd. rewrite (checkBudgetReset_new_day now r Hd). now repeat split.
Qed.

(** On the same day of the month, a different month clears the monthly
    total but neither the daily total nor the remembered date. *)
Lemma checkBudgetReset_same_day now r :
  date now = date (lastResetDate r) ->
  month now <> month (lastResetDate r) ->
  dailySpent (checkBudgetReset now r) = dailySpent r /\
  monthlySpent (checkBudgetReset now r) = 0%Q /\
  lastResetDate (checkBudgetReset now r) = lastResetDate r.
Proof.
  intros Hd Hm. unfold checkBudgetReset.
  rewrite Hd, Z.eqb_refl. simpl.
  apply Z.eqb_neq in Hm. rewrite Hm. now repeat split.
Qed.

(** A router that served one request on 31 January. *)
Definition january_router : Router :=
  fst (route jan31 30 (new (mkConfig "fastest" None None None) jan31)
             (say "weather today")).

(** C8.  The router spent on 31 January; the first call of 1 February
    clears the daily total and keeps the monthly one: the month is
    compared with the date the daily reset has just stored. *)
Theorem month_rollover_keeps_monthly_spend :
  let r := checkBudgetReset feb01 january_router in
  (0 < monthlySpent january_router)%Q /\
  dailySpent r = 0%Q /\
  monthlySpent r = monthlySpent january_router /\
  lastResetDate r = feb01.
Proof. cbv zeta. repeat split; reflexivity. Qed.

End GPTRouterProps.

(** ** The multi-provider EdgeRouter *)

Module EdgeRouterProps.
Import EdgeRouter.

(** *** [routeToProvider] returns *)

Definition cheaper_than (r : Router) (current p : string) : bool :=
  negb (Qle_bool (field cost r current) (field cost r p)).

Definition cheaper (r : Router) (current : string) : list string :=
  filter (cheaper_than r current) (getHealthyProviders r).

Lemma cheaper_than_lt r current p :
  cheaper_than r current p = true <->
  (field cost r p < field cost r current)%Q.
Proof.
  unfold cheaper_than. rewrite negb_true_iff.
  destruct (Qle_bool (field cost r current) (field cost r p)) eqn:E.
  - apply Qle_bool_iff in E. split; [discriminate|]. intros H. lra.
  - split; [|reflexivity]. intros _.
    destruct (Qlt_le_dec (field cost r p) (field cost r current)) as [H|H];
      [exact H|].
    apply Qle_bool_iff in H. congruence.
Qed.

Lemma filter_length_le {A : Type} (f g : A -> bool) (l : list A) :
  (forall x, f x = true -> g x = true) ->
  (List.length (filter f l) <= List.length (filter g l))%nat.
Proof.
  intros Hfg. induction l as [|x l IH]; simpl; [lia|].
  destruct (f x) eqn:Ef.
  - rewrite (Hfg x Ef). simpl. lia.
  - destruct (g x); simpl; lia.
Qed.

Lemma filter_length_lt {A : Type} (f g : A -> bool) (l : list A) (a : A) :
  (forall x, f x = true -> g x = true) ->
  In a l -> f a = false -> g a = true ->
  (List.length (filter f l) < List.length (filter g l))%nat.
Proof.
  intros Hfg Hin Hf Hg. induction l as [|x l IH]; simpl; [contradiction|].
  destruct Hin as [->|Hin].
  - rewrite Hf, Hg. simpl.
    pose proof (filter_length_le f g l Hfg). lia.
  - specialize (IH Hin). destruct (f x) eqn:Ef.
    + rewrite (Hfg x Ef). simpl. lia.
    + destruct (g x); simpl; lia.
Qed.

Lemma cheaper_shrinks r current a :
  In a (cheaper r current) ->
  (List.length (cheaper r a) < List.length (cheaper r current))%nat.
Proof.
  unfold cheaper. intros Hin.
  apply filter_In in Hin. destruct Hin as [Hin Hlt].
  apply cheaper_than_lt in Hlt.
  apply (filter_length_lt _ _ _ a); [|exact Hin| |].
  - intros x Hx. apply cheaper_than_lt in Hx. apply cheaper_than_lt. lra.
  - destruct (cheaper_than r a a) eqn:E; [|reflexivity].
    apply cheaper_than_lt in E. lra.
  - now apply cheaper_than_lt.
Qed.

Lemma findCheaperAlternative_spec r current :
  findCheaperAlternative r current = current \/
  In (findCheaperAlternative r current) (cheaper r current).
Proof.
  unfold findCheaperAlternative. cbv zeta.
  fold (cheaper_than r current). fold (cheaper r current).
  destruct (sort _ (cheaper r current)) as [|a t] eqn:E; [now left|].
  right. apply (sort_In (fun a b => field cost r a - field cost r b)%Q).
  rewrite E. now left.
Qed.

Lemma cheaper_same_providers r r' current :
  providers r' = providers r -> cheaper r' current = cheaper r current.
Proof.
  intros H. unfold cheaper, cheaper_than, getHealthyProviders, field.
  now rewrite H.
Qed.

Lemma checkBudget_providers now r name c :
  providers (fst (checkBudget now r name c)) = providers r.
Proof.
  unfold checkBudget. cbv zeta.
  match goal with |- context [if ?b then _ else _] => destruct b end;
    reflexivity.
Qed.

Lemma routeToProvider_returns fuel :
  forall now r name msgs reason,
    (List.length (cheaper r name) < fuel)%nat ->
    exists r' res,
      routeToProvider fuel now r (Some name) msgs reason = Some (r', res).
Proof.
  induction fuel as [|fuel IH]; intros now r name msgs reason Hlt; [lia|].
  simpl.
  destruct (lookup name (providers r)) as [p|]; [|eauto].
  match goal with
  | |- context [checkBudget ?a ?b ?c ?d] =>
      pose proof (checkBudget_providers a b c d) as Hp;
      destruct (checkBudget a b c d) as [r1 fits]
  end.
  simpl in Hp.
  destruct fits.
  - rewrite String.eqb_refl. simpl. eauto.
  - destruct (String.eqb (findCheaperAlternative r1 name) name) eqn:E;
      simpl; [eauto|].
    apply IH.
    destruct (findCheaperAlternative_spec r1 name) as [Heq|Hin].
    + apply String.eqb_neq in E. congruence.
    + apply cheaper_shrinks in Hin.
      rewrite (cheaper_same_providers r r1 name Hp) in Hin. lia.
Qed.

Lemma cheaper_bound r name :
  (List.length (cheaper r name) < enough_fuel r)%nat.
Proof.
  unfold cheaper, enough_fuel, getHealthyProviders.
  pose proof (filter_length_le (cheaper_than r name) (fun _ => true)
                (map fst (filter (fun e => is_healthy (status (snd e)))
                                 (providers r)))
                (fun _ _ => eq_refl)) as H1.
  pose proof (filter_length_le (fun e : string * ProviderConfig =>
                                  is_healthy (status (snd e)))
                (fun _ => true) (providers r) (fun _ _ => eq_refl)) as H2.
  assert (Hall : forall (A : Type) (l : list A), filter (fun _ => true) l = l).
  { intros A l. induction l; simpl; congruence. }
  rewrite Hall in H1, H2. rewrite length_map in H1. lia.
Qed.

(** [route] always comes back: with a decision or with an error. *)
Lemma route_returns now r request :
  exists r' res, route now r request = Some (r', res).
Proof.
  unfold route.
  destruct (js_messages request) as [| |messages]; [eauto|eauto|].
  destruct (containsSensitive messages).
  - apply routeToProvider_returns, cheaper_bound.
  - assert (Hcall : forall provider why,
               exists r' res,
                 routeToProvider (enough_fuel r) now r provider messages why
                 = Some (r', res)).
    { intros [name|] why.
      - apply routeToProvider_returns, cheaper_bound.
      - simpl. eauto. }
    destruct (strategies (strategy r)) as [strategyFn|]; [apply Hcall|].
    destruct (object_prototype (strategy r)) as [[provider|]|];
      [apply Hcall|eauto|eauto].
Qed.

(** *** [routeToProvider] decides *)

Lemma lookup_key {V : Type} (k : string) (d : dict V) :
  In k (map fst d) -> exists v, lookup k d = Some v.
Proof.
  induction d as [|[k' v'] d IH]; simpl; [contradiction|].
  intros Hin. destruct (String.eqb k k') eqn:E; [eauto|].
  destruct Hin as [->|Hin]; [now rewrite String.eqb_refl in E|auto].
Qed.

Lemma healthy_is_provider r a :
  In a (getHealthyProviders r) -> exists p, lookup a (providers r) = Some p.
Proof.
  unfold getHealthyProviders. intros Hin. apply lookup_key.
  apply in_map_iff in Hin. destruct Hin as (e & <- & He).
  apply filter_In in He. apply in_map. tauto.
Qed.

Lemma cheaper_healthy r current a :
  In a (cheaper r current) ->
  In a (getHealthyProviders r) /\
  (field cost r a < field cost r current)%Q.
Proof.
  unfold cheaper. intros H. apply filter_In in H.
  destruct H as [H1 H2]. now apply cheaper_than_lt in H2.
Qed.

Lemma cheaper_trans r current a b :
  In a (cheaper r current) -> In b (cheaper r a) -> In b (cheaper r current).
Proof.
  intros Ha Hb.
  apply cheaper_healthy in Ha. apply cheaper_healthy in Hb.
  unfold cheaper. apply filter_In. split; [tauto|].
  apply cheaper_than_lt. lra.
Qed.

(** A provider that exists gets a decision: for itself, under the reason
    it was called with, or for a strictly cheaper healthy provider, under
    the reason [budget_exceeded]. *)
Lemma routeToProvider_decides fuel :
  forall now r name p msgs why,
    lookup name (providers r) = Some p ->
    (List.length (cheaper r name) < fuel)%nat ->
    exists r' d,
      routeToProvider fuel now r (Some name) msgs why = Some (r', Ok d) /\
      ((provider d = name /\ reason d = why) \/
       (In (provider d) (cheaper r name) /\ reason d = "budget_exceeded")).
Proof.
  induction fuel as [|fuel IH]; intros now r name p msgs why Hp Hlt; [lia|].
  simpl. rewrite Hp.
  match goal with
  | |- context [checkBudget ?a ?b ?c ?d] =>
      pose proof (checkBudget_providers a b c d) as Hps;
      destruct (checkBudget a b c d) as [r1 fits]
  end.
  simpl in Hps.
  assert (Hstay : forall (r2 : Router) (d0 : Routing),
             provider d0 = name -> reason d0 = why ->
             exists r' d,
               Some (r2, Ok d0) = Some (r', Ok d) /\
               ((provider d = name /\ reason d = why) \/
                (In (provider d) (cheaper r name) /\
                 reason d = "budget_exceeded"))).
  { intros r2 d0 H1 H2. exists r2, d0. auto. }
  destruct fits.
  - rewrite String.eqb_refl. simpl. now apply Hstay.
  - destruct (String.eqb (findCheaperAlternative r1 name) name) eqn:E;
      simpl; [now apply Hstay|].
    destruct (findCheaperAlternative_spec r1 name) as [Heq|Hin];
      [apply String.eqb_neq in E; congruence|].
    rewrite (cheaper_same_providers r r1 name Hps) in Hin.
    set (alt := findCheaperAlternative r1 name) in *.
    destruct (healthy_is_provider r alt (proj1 (cheaper_healthy _ _ _ Hin)))
      as (q & Hq).
    rewrite <- Hps in Hq.
    destruct (IH now r1 alt q msgs "budget_exceeded" Hq) as (r' & d & Hr & Hd).
    + rewrite (cheaper_same_providers r r1 alt Hps).
      pose proof (cheaper_shrinks r name alt Hin). lia.
    + exists r', d. split; [exact Hr|]. right.
      destruct Hd as [[Hd1 Hd2]|[Hd1 Hd2]]; split; try assumption.
      * now rewrite Hd1.
      * rewrite (cheaper_same_providers r r1 alt Hps) in Hd1.
        now apply cheaper_trans with (a := alt).
Qed.

(** Each strategy picks a healthy provider when there is one. *)
Lemma strategy_picks_healthy r s strategyFn :
  strategies s = Some strategyFn ->
  getHealthyProviders r <> [] ->
  exists a, strategyFn r = Some a /\ In a (getHealthyProviders r).
Proof.
  unfold strategies. intros Hs Hne.
  assert (Hsort : forall cmp, exists a,
             hd_error (sort cmp (getHealthyProviders r)) = Some a /\
             In a (getHealthyProviders r))
    by (intros cmp; now apply sort_nonempty).
  repeat match type of Hs with
         | (if ?b then _ else _) = _ => destruct b
         end;
    try discriminate; injection Hs as <-.
  - apply Hsort.
  - apply Hsort.
  - apply Hsort.
  - unfold routePrivacyFirst. cbv zeta.
    destruct (filter (privacy_is_local r) (getHealthyProviders r))
      as [|l t] eqn:Ef; [apply Hsort|].
    exists l. split; [reflexivity|].
    assert (H : In l (filter (privacy_is_local r) (getHealthyProviders r)))
      by (rewrite Ef; now left).
    now apply filter_In in H.
  - apply Hsort.
Qed.

(** A request that is not sensitive, under a known strategy and with a
    healthy provider, is decided for a healthy provider whatever the
    budget; the reason is the strategy, or [budget_exceeded] when a
    strictly cheaper provider than the strategy's choice serves it. *)
Lemma route_plain_decides now r msgs strategyFn :
  containsSensitive msgs = false ->
  strategies (strategy r) = Some strategyFn ->
  getHealthyProviders r <> [] ->
  exists r' d first,
    strategyFn r = Some first /\
    route now r (mkJsRequest (MessageArray msgs)) = Some (r', Ok d) /\
    In (provider d) (getHealthyProviders r) /\
    ((provider d = first /\ reason d = strategy r) \/
     ((field cost r (provider d) < field cost r first)%Q /\
      reason d = "budget_exceeded")).
Proof.
  intros Hs Hf Hne.
  destruct (strategy_picks_healthy r _ _ Hf Hne) as (a & Ha & Hin).
  destruct (healthy_is_provider r a Hin) as (p & Hp).
  destruct (routeToProvider_decides (enough_fuel r) now r a p msgs (strategy r)
              Hp (cheaper_bound r a)) as (r' & d & Hr & Hd).
  exists r', d, a. split; [exact Ha|]. split.
  - unfold route. simpl. now rewrite Hs, Hf, Ha.
  - destruct Hd as [[Hd1 Hd2]|[Hd1 Hd2]].
    + split; [now rewrite Hd1|]. left. now split.
    + apply cheaper_healthy in Hd1. split; [tauto|]. right. tauto.
Qed.

(** *** Cheapest strategy *)

Lemma routeToCheapest_least_cost r a :
  routeToCheapest r = Some a ->
  In a (getHealthyProviders r) /\
  forall b, In b (getHealthyProviders r) ->
            (field cost r a <= field cost r b)%Q.
Proof.
  unfold routeToCheapest. cbv zeta. intros H. split.
  - apply (sort_In (fun a b => field cost r a - field cost r b)%Q).
    destruct (sort _ (getHealthyProviders r)); [discriminate|].
    injection H as ->. now left.
  - apply (sort_hd_least (fun a b => field cost r a - field cost r b)%Q
                         (field cost r)); [|exact H].
    intros x y. reflexivity.
Qed.

(** *** The budget and the move to a cheaper provider *)

(** [findCheaperAlternative] returns the provider it was given, or the
    cheapest healthy provider when that one is strictly cheaper. *)
Lemma alternative_cases (r : Router) (current : string) :
  let alt := findCheaperAlternative r current in
  ((alt = current /\
    forall b, In b (getHealthyProviders r) ->
              (field cost r current <= field cost r b)%Q) \/
   (In alt (getHealthyProviders r) /\
    (field cost r alt < field cost r current)%Q /\
    forall b, In b (getHealthyProviders r) ->
              (field cost r alt <= field cost r b)%Q)).
Proof.
  cbv zeta. unfold findCheaperAlternative. cbv zeta.
  fold (cheaper_than r current).
  fold (cheaper r current).
  destruct (sort (fun a b => field cost r a - field cost r b)%Q
                 (cheaper r current)) as [|a t] eqn:E.
  - left. split; [reflexivity|]. intros b Hb.
    destruct (Qlt_le_dec (field cost r b) (field cost r current)) as [Hlt|Hle];
      [|exact Hle].
    assert (Hin : In b (cheaper r current)).
    { unfold cheaper. apply filter_In. split; [exact Hb|].
      now apply cheaper_than_lt. }
    apply (sort_In (fun a b => field cost r a - field cost r b)%Q) in Hin.
    rewrite E in Hin. contradiction.
  - right.
    assert (Hhd : hd_error (sort (fun a b => field cost r a - field cost r b)%Q
                                 (cheaper r current)) = Some a)
      by now rewrite E.
    assert (Ha : In a (cheaper r current)).
    { apply (sort_In (fun a b => field cost r a - field cost r b)%Q).
      rewrite E. now left. }
    destruct (cheaper_healthy r current a Ha) as [Hin Hlt].
    split; [exact Hin|]. split; [exact Hlt|].
    intros b Hb.
    destruct (Qlt_le_dec (field cost r b) (field cost r current)) as [Hb1|Hb1].
    + apply (sort_hd_least (fun a b => field cost r a - field cost r b)%Q
                           (field cost r)
                           ltac:(intros x y; reflexivity)
                           (cheaper r current) a Hhd).
      unfold cheaper. apply filter_In. split; [exact Hb|].
      now apply cheaper_than_lt.
    + lra.
Qed.







(** *** Sensitive requests and the budget

    A sensitive request is sent to [local] without a look at its health,
    and leaves it only for a strictly cheaper healthy provider when
    [local] is over budget. *)

Definition ask (text : string) : JsRequest :=
  mkJsRequest (MessageArray [mkJsMessage "user" (CString text)]).

Definition cheapest_router : Router :=
  new (mkConfig (Some "cheapest") None None []) 1000.

(** A router whose [local] provider costs 0.02 per thousand tokens, with
    a daily budget of a billionth. *)
Definition costly_local_router : Router :=
  new (mkConfig (Some "cheapest") (Some (1 # 1000000000)%Q) None
                [("local", mkOverrides (Some 0.02%Q) None None None None)])
      1000.

Example costly_local_sensitive_request :
  option_map snd (route 1005 costly_local_router (ask "My password is Secret123"))
  = Some (Ok (mkRouting "groq" "budget_exceeded" 0.0000006 30)).
Proof. reflexivity. Qed.

(** The cheapest provider has no cheaper alternative: over budget, it
    serves the request under the name of the strategy. *)
Example costly_local_plain_request :
  option_map snd (route 1005 costly_local_router (ask "hello there"))
  = Some (Ok (mkRouting "groq" "cheapest" 0.0000003 30)).
Proof. reflexivity. Qed.

(** Within budget, a sensitive request is decided for [local]. *)
Lemma route_sensitive_local now r msgs p :
  containsSensitive msgs = true ->
  lookup "local" (providers r) = Some p ->
  let estimatedCost := (inject_Z (estimateTokens msgs) * cost p / 1000)%Q in
  snd (checkBudget now r "local" estimatedCost) = true ->
  route now r (mkJsRequest (MessageArray msgs)) =
    Some (trackRequest r "local" estimatedCost,
          Ok (mkRouting "local" "sensitive_content" estimatedCost (latency p))).
Proof.
  intros Hs Hp. cbv zeta. intros Hfits.
  unfold route. simpl. rewrite Hs. rewrite Hp.
  unfold checkBudget in *. cbv zeta in *.
  match goal with
  | H : snd (if ?b then _ else _) = true |- _ => destruct b; [discriminate|]
  end.
  reflexivity.
Qed.


(** *** Health checks *)

Definition count_of (r : Router) (name : string) : Z :=
  or_else (lookup name (failures (healthCheck r))) 0.

Definition status_of (r : Router) (name : string) : option Status :=
  option_map status (lookup name (providers r)).

Lemma status_of_set_status name s ps p :
  lookup name ps = Some p ->
  option_map status (lookup name (set_status name s ps)) = Some s.
Proof.
  intros H. unfold set_status. rewrite H.
  now rewrite lookup_set_same.
Qed.

(** A successful probe clears the counter and makes the provider
    healthy. *)
Lemma successful_probe_recovers now r name p :
  lookup name (providers r) = Some p ->
  let r' := checkProviderHealth true now r name in
  count_of r' name = 0 /\ status_of r' name = Some Healthy.
Proof.
  intros Hp. cbv zeta. unfold count_of, status_of, checkProviderHealth.
  simpl. rewrite lookup_set_same. split; [reflexivity|].
  now apply status_of_set_status with (p := p).
Qed.

(** A failed probe adds one to the counter; the provider turns unhealthy
    when the counter was already at the threshold before this probe. *)
Lemma failed_probe_step now r name p :
  lookup name (providers r) = Some p ->
  let r' := checkProviderHealth false now r name in
  count_of r' name = count_of r name + 1 /\
  status_of r' name =
    if failureThreshold (healthCheck r) <=? count_of r name
    then Some Unhealthy
    else Some (status p).
Proof.
  intros Hp. cbv zeta. unfold count_of, status_of, checkProviderHealth.
  simpl.
  destruct (failureThreshold (healthCheck r)
            <=? or_else (lookup name (failures (healthCheck r))) 0);
    simpl; rewrite lookup_set_same; split; try reflexivity.
  - now apply status_of_set_status with (p := p).
  - now rewrite Hp.
Qed.

Definition probe_sequence (outcomes : list bool) (r : Router) (name : string)
  : Router :=
  fold_left (fun r isHealthy => checkProviderHealth isHealthy 2000 r name)
            outcomes r.

Lemma probe_keeps_threshold isHealthy now r name :
  failureThreshold (healthCheck (checkProviderHealth isHealthy now r name))
  = failureThreshold (healthCheck r).
Proof.
  unfold checkProviderHealth. cbv zeta.
  destruct (negb isHealthy); [|reflexivity].
  match goal with |- context [if ?b then _ else _] => destruct b end;
    reflexivity.
Qed.

Lemma status_of_some r name s :
  status_of r name = Some s ->
  exists p, lookup name (providers r) = Some p /\ status p = s.
Proof.
  unfold status_of.
  destruct (lookup name (providers r)) as [p|]; [|discriminate].
  intros [= <-]. now exists p.
Qed.

(** With the threshold of 3, a healthy provider without recorded failures
    survives three failed probes and falls at the fourth. *)
Lemma fourth_failure_marks_unhealthy r name p :
  lookup name (providers r) = Some p ->
  status p = Healthy ->
  count_of r name = 0 ->
  failureThreshold (healthCheck r) = 3 ->
  status_of (probe_sequence [false; false; false] r name) name = Some Healthy /\
  status_of (probe_sequence [false; false; false; false] r name) name
    = Some Unhealthy.
Proof.
  intros Hp Hs Hc Ht. unfold probe_sequence. simpl.
  set (r1 := checkProviderHealth false 2000 r name).
  set (r2 := checkProviderHealth false 2000 r1 name).
  set (r3 := checkProviderHealth false 2000 r2 name).
  destruct (failed_probe_step 2000 r name p Hp) as [Hc1 Hs1].
  fold r1 in Hc1, Hs1. rewrite Ht, Hc, Hs in Hs1. simpl in Hs1.
  destruct (status_of_some _ _ _ Hs1) as (p1 & Hp1 & Hst1).
  destruct (failed_probe_step 2000 r1 name p1 Hp1) as [Hc2 Hs2].
  fold r2 in Hc2, Hs2.
  assert (Ht1 : failureThreshold (healthCheck r1) = 3)
    by (unfold r1; now rewrite probe_keeps_threshold).
  rewrite Ht1, Hc1, Hc, Hst1 in Hs2. simpl in Hs2.
  destruct (status_of_some _ _ _ Hs2) as (p2 & Hp2 & Hst2).
  destruct (failed_probe_step 2000 r2 name p2 Hp2) as [Hc3 Hs3].
  fold r3 in Hc3, Hs3.
  assert (Ht2 : failureThreshold (healthCheck r2) = 3)
    by (unfold r2; now rewrite probe_keeps_threshold).
  rewrite Ht2, Hc2, Hc1, Hc, Hst2 in Hs3. simpl in Hs3.
  split; [exact Hs3|].
  destruct (status_of_some _ _ _ Hs3) as (p3 & Hp3 & Hst3).
  destruct (failed_probe_step 2000 r3 name p3 Hp3) as [_ Hs4].
  assert (Ht3 : failureThreshold (healthCheck r3) = 3)
    by (unfold r3; now rewrite probe_keeps_threshold).
  rewrite Ht3, Hc3, Hc2, Hc1, Hc in Hs4. exact Hs4.
Qed.

(** C4.  On a fresh router three failed probes in a row leave [openai]
    healthy with a counter of 3: the threshold is compared with the
    counter read before the increment.  The fourth failure marks the
    provider unhealthy, and one success restores it. *)
Theorem three_failed_probes_leave_provider_healthy :
  let r3 := probe_sequence [false; false; false] cheapest_router "openai" in
  let r4 := probe_sequence [false; false; false; false] cheapest_router "openai" in
  let r5 := probe_sequence [false; false; false; false; true] cheapest_router "openai" in
  failureThreshold (healthCheck cheapest_router) = 3 /\
  count_of r3 "openai" = 3 /\ status_of r3 "openai" = Some Healthy /\
  count_of r4 "openai" = 4 /\ status_of r4 "openai" = Some Unhealthy /\
  count_of r5 "openai" = 0 /\ status_of r5 "openai" = Some Healthy.
Proof. cbv zeta. repeat split; reflexivity. Qed.

End EdgeRouterProps.

(** ** Requests of the declared types among all values

    On a request of the declared type the router on any value does what
    the router on typed requests does. *)

Module AnyProps.

(** A request that is a value without a message array: its [messages]
    property is absent, or is no array. *)
Definition no_messages (request : AnyValue) : Prop :=
  request = Falsy \/
  exists fields,
    request = Truthy fields /\
    (f_messages fields = Absent \/ f_messages fields = Other).

(** An array holds message objects only, or it has a first [null]
    element. *)
Lemma split_elements (messages : list AnyElement) :
  (exists msgs, messages = elements_of msgs) \/
  (exists pre post, messages = (elements_of pre ++ NullElement :: post)%list).
Proof.
  induction messages as [|e messages IH].
  - left. now exists [].
  - destruct e as [|m].
    + right. now exists [], messages.
    + destruct IH as [(msgs & ->)|(pre & post & ->)].
      * left. now exists (m :: msgs).
      * right. now exists (m :: pre), post.
Qed.

Lemma some_objects (f : JsMessage -> bool) (msgs : list JsMessage) :
  some_message f (elements_of msgs) = Ok (existsb f msgs).
Proof.
  unfold elements_of. induction msgs as [|m msgs IH]; [reflexivity|].
  cbn [map some_message existsb].
  destruct (f m); [reflexivity|exact IH].
Qed.

Lemma some_null (f : JsMessage -> bool) (pre : list JsMessage)
      (post : list AnyElement) :
  some_message f (elements_of pre ++ NullElement :: post)
  = if existsb f pre then Ok true else Err JsTypeError.
Proof.
  unfold elements_of. induction pre as [|m pre IH]; [reflexivity|].
  cbn [map app some_message existsb].
  destruct (f m); [reflexivity|exact IH].
Qed.


(** *** [index.js] *)

Lemma v1_route_agrees (r : EdgeRouterV1.Router) (request : JsRequest) :
  EdgeRouterV1.Any.route r (of_js request) = EdgeRouterV1.route r request.
Proof.
  unfold EdgeRouterV1.Any.route, EdgeRouterV1.route, of_js.
  cbn [f_messages].
  destruct (js_messages request) as [| |msgs]; try reflexivity.
  unfold EdgeRouterV1.Any.containsSensitive.
  rewrite some_objects. reflexivity.
Qed.

(** *** The multi-provider router *)

Lemma contents_objects (msgs : list JsMessage) :
  EdgeRouter.Any.contents (elements_of msgs) = Ok (map js_content msgs).
Proof.
  unfold elements_of. induction msgs as [|m msgs IH]; [reflexivity|].
  cbn [map EdgeRouter.Any.contents]. now rewrite IH.
Qed.

Lemma contents_null (pre : list JsMessage) (post : list AnyElement) :
  EdgeRouter.Any.contents (elements_of pre ++ NullElement :: post)
  = Err JsTypeError.
Proof.
  unfold elements_of. induction pre as [|m pre IH]; [reflexivity|].
  cbn [map app EdgeRouter.Any.contents]. now rewrite IH.
Qed.

Lemma estimateTokens_objects (msgs : list JsMessage) :
  EdgeRouter.Any.estimateTokens (elements_of msgs)
  = Ok (EdgeRouter.estimateTokens msgs).
Proof.
  unfold EdgeRouter.Any.estimateTokens. now rewrite contents_objects.
Qed.

Lemma routeToProvider_agrees (msgs : list JsMessage) (fuel : nat) :
  forall now r providerName reason,
    EdgeRouter.Any.routeToProvider fuel now r providerName
                                   (elements_of msgs) reason
    = EdgeRouter.routeToProvider fuel now r providerName msgs reason.
Proof.
  induction fuel as [|fuel IH]; intros now r providerName reason;
    [reflexivity|].
  cbn [EdgeRouter.Any.routeToProvider EdgeRouter.routeToProvider].
  destruct providerName as [name|]; [|reflexivity].
  destruct (lookup name (EdgeRouter.providers r)) as [p|]; [|reflexivity].
  rewrite estimateTokens_objects. cbv zeta.
  match goal with
  | |- context [EdgeRouter.checkBudget ?a ?b ?c ?d] =>
      destruct (EdgeRouter.checkBudget a b c d) as [r1 fits]
  end.
  destruct (negb _); [apply IH|reflexivity].
Qed.

Lemma edge_route_objects
      (now : Z) (r : EdgeRouter.Router) (msgs : list JsMessage)
      (model : option string) :
  EdgeRouter.Any.route now r
    (Truthy (mkFields (Elements (elements_of msgs)) model))
  = EdgeRouter.route now r (mkJsRequest (MessageArray msgs)).
Proof.
  unfold EdgeRouter.Any.route, EdgeRouter.route.
  cbn [f_messages js_messages].
  unfold EdgeRouter.Any.containsSensitive. rewrite some_objects.
  fold (EdgeRouter.containsSensitive msgs).
  destruct (EdgeRouter.containsSensitive msgs);
    [apply routeToProvider_agrees|].
  destruct (EdgeRouter.strategies (EdgeRouter.strategy r));
    [apply routeToProvider_agrees|].
  destruct (EdgeRouter.object_prototype (EdgeRouter.strategy r)) as [[?|]|];
    [apply routeToProvider_agrees|reflexivity|reflexivity].
Qed.

Lemma edge_route_agrees
      (now : Z) (r : EdgeRouter.Router) (request : JsRequest) :
  EdgeRouter.Any.route now r (of_js request) = EdgeRouter.route now r request.
Proof.
  destruct request as [[| |msgs]]; try reflexivity.
  apply edge_route_objects.
Qed.

(** An array with a [null] element is never decided by the multi-provider
    router, and nothing is written: the detector throws, or the token
    estimate does. *)
Lemma edge_route_null
      (now : Z) (r : EdgeRouter.Router) (pre : list JsMessage)
      (post : list AnyElement) (model : option string) :
  EdgeRouter.Any.route now r
    (Truthy (mkFields (Elements (elements_of pre ++ NullElement :: post))
                      model))
  = Some (r, Err (if EdgeRouter.containsSensitive pre
                  then match lookup "local" (EdgeRouter.providers r) with
                       | Some _ => JsTypeError
                       | None => EdgeRouter.unknown_provider (Some "local")
                       end
                  else JsTypeError)).
Proof.
  unfold EdgeRouter.Any.route. cbn [f_messages].
  unfold EdgeRouter.Any.containsSensitive. rewrite some_null.
  fold (EdgeRouter.containsSensitive pre).
  destruct (EdgeRouter.containsSensitive pre); [|reflexivity].
  cbn [EdgeRouter.enough_fuel EdgeRouter.Any.routeToProvider].
  destruct (lookup "local" (EdgeRouter.providers r)); [|reflexivity].
  unfold EdgeRouter.Any.estimateTokens. now rewrite contents_null.
Qed.

(** *** The TypeScript router *)

Definition chat_elements (msgs : list Message) : list AnyElement :=
  elements_of (map js_of msgs).

Lemma detectSensitive_chat (msgs : list Message) :
  GPTRouter.Any.detectSensitive (chat_elements msgs)
  = Ok (GPTRouter.detectSensitive msgs).
Proof.
  unfold GPTRouter.Any.detectSensitive, chat_elements.
  rewrite some_objects. unfold GPTRouter.detectSensitive.
  f_equal. induction msgs as [|m msgs IH]; [reflexivity|].
  cbn [map existsb]. now rewrite IH.
Qed.

Lemma totalChars_chat (msgs : list Message) :
  forall sum,
    GPTRouter.Any.totalChars sum (chat_elements msgs)
    = Ok (fold_left (fun sum msg => sum + strlen (content msg)) msgs sum).
Proof.
  unfold chat_elements, elements_of.
  induction msgs as [|m msgs IH]; intros sum; [reflexivity|].
  cbn [map GPTRouter.Any.totalChars js_of js_content fold_left]. apply IH.
Qed.

Lemma estimateTokens_chat (msgs : list Message) :
  GPTRouter.Any.estimateTokens (chat_elements msgs)
  = Ok (GPTRouter.estimateTokens msgs).
Proof.
  unfold GPTRouter.Any.estimateTokens. now rewrite totalChars_chat.
Qed.

Lemma gpt_route_agrees
      (now : GPTRouter.Date) (lat : Z) (r : GPTRouter.Router)
      (request : GPTRouter.ChatRequest) :
  GPTRouter.Any.route now lat r (GPTRouter.Any.of_chat request)
  = GPTRouter.route now lat r request.
Proof.
  unfold GPTRouter.Any.route, GPTRouter.route, GPTRouter.Any.of_chat.
  cbv zeta. cbn [f_messages f_model].
  fold (chat_elements (GPTRouter.messages request)).
  rewrite detectSensitive_chat.
  destruct (GPTRouter.getHealthyProviders (GPTRouter.checkBudgetReset now r))
    as [|a l]; [reflexivity|].
  match goal with
  | |- match ?sel with _ => _ end = _ => destruct sel as [provider|]
  end; [|reflexivity].
  unfold GPTRouter.Any.makeRequest, GPTRouter.makeRequest.
  rewrite estimateTokens_chat. reflexivity.
Qed.

End AnyProps.

(** ** Selection, across the routers *)

Module RoutingProps.

(** C5.  With strategy [cheapest] and a request that is not sensitive,
    selection from a non-empty candidate list returns one of the
    candidates, and its cost per thousand tokens is at most the cost of
    every candidate: in [selectProvider] of the TypeScript router, and in
    [routeToCheapest] of the multi-provider router, whose candidates are
    the healthy providers. *)
Theorem cheapest_selects_least_cost
        (g : GPTRouter.Router) (ps : list GPTRouter.Provider)
        (r : EdgeRouter.Router) :
  (GPTRouter.strategy g = "cheapest" ->
   ps <> [] ->
   exists p, GPTRouter.selectProvider g ps false = Some p /\
             In p ps /\
             forall q, In q ps -> (GPTRouter.cost p <= GPTRouter.cost q)%Q) /\
  (EdgeRouter.getHealthyProviders r <> [] ->
   exists a, EdgeRouter.routeToCheapest r = Some a /\
             In a (EdgeRouter.getHealthyProviders r) /\
             forall b, In b (EdgeRouter.getHealthyProviders r) ->
                       (EdgeRouter.field EdgeRouter.cost r a
                        <= EdgeRouter.field EdgeRouter.cost r b)%Q).
Proof.
  split.
  - apply GPTRouterProps.selectProvider_cheapest.
  - intros Hne.
    destruct (EdgeRouterProps.strategy_picks_healthy r "cheapest"
                EdgeRouter.routeToCheapest eq_refl Hne) as (a & Ha & Hin).
    exists a. split; [exact Ha|].
    now apply EdgeRouterProps.routeToCheapest_least_cost.
Qed.

Lemma cheapest_selects_least_cost_witness :
  (exists p,
     GPTRouter.selectProvider GPTRouterProps.cheapest_router
       (GPTRouter.getHealthyProviders GPTRouterProps.cheapest_router) false
       = Some p /\
     In p (GPTRouter.getHealthyProviders GPTRouterProps.cheapest_router) /\
     forall q,
       In q (GPTRouter.getHealthyProviders GPTRouterProps.cheapest_router) ->
       (GPTRouter.cost p <= GPTRouter.cost q)%Q) /\
  (exists a,
     EdgeRouter.routeToCheapest EdgeRouterProps.cheapest_router = Some a /\
     In a (EdgeRouter.getHealthyProviders EdgeRouterProps.cheapest_router) /\
     forall b,
       In b (EdgeRouter.getHealthyProviders EdgeRouterProps.cheapest_router) ->
       (EdgeRouter.field EdgeRouter.cost EdgeRouterProps.cheapest_router a
        <= EdgeRouter.field EdgeRouter.cost EdgeRouterProps.cheapest_router b)%Q).
Proof.
  destruct (cheapest_selects_least_cost
              GPTRouterProps.cheapest_router
              (GPTRouter.getHealthyProviders GPTRouterProps.cheapest_router)
              EdgeRouterProps.cheapest_router) as [Hg He].
  split.
  - apply Hg; [reflexivity|vm_compute; discriminate].
  - apply He. vm_compute. discriminate.
Defined.

(** C1.  Two sensitive requests that go to a cloud provider while a
    provider of privacy class [local] is healthy.  Multi-provider router,
    with [local] configured at a cost of 0.02 and a daily budget of a
    billionth: the request is meant for [local], [local] is over budget,
    and [routeToProvider] moves it to the cheapest healthy provider,
    [groq], under the reason [budget_exceeded].  TypeScript router, with
    the [local] entry down and a second provider of class [local],
    [vault], at a cost of 1 and a daily budget of 0.1: [vault] is healthy
    but fails the budget filter, the selection sees cloud providers only,
    and the strategy sends the request to [groq]. *)
Theorem sensitive_request_sent_to_cloud :
  (let r := EdgeRouterProps.costly_local_router in
   let msgs := [mkJsMessage "user" (CString "My password is Secret123")] in
   EdgeRouter.containsSensitive msgs = true /\
   (exists p,
      lookup "local" (EdgeRouter.providers r) = Some p /\
      In "local" (EdgeRouter.getHealthyProviders r) /\
      EdgeRouter.privacy p = Local) /\
   exists r' d q,
     EdgeRouter.route 1005 r (mkJsRequest (MessageArray msgs))
     = Some (r', Ok d) /\
     EdgeRouter.provider d = "groq" /\
     EdgeRouter.reason d = "budget_exceeded" /\
     lookup "groq" (EdgeRouter.providers r) = Some q /\
     EdgeRouter.privacy q = Cloud) /\
  (let g := GPTRouterProps.vault_router in
   let req := GPTRouterProps.say "password: hunter2" in
   GPTRouter.detectSensitive (GPTRouter.messages req) = true /\
   (exists p,
      In p (GPTRouter.getHealthyProviders
              (GPTRouter.checkBudgetReset GPTRouterProps.jan31 g)) /\
      GPTRouter.name p = "vault" /\
      GPTRouter.privacy p = Some Local) /\
   exists g' resp q,
     GPTRouter.route GPTRouterProps.jan31 30 g req = (g', Ok resp) /\
     GPTRouter.r_provider (GPTRouter.routing resp) = "groq" /\
     lookup "groq" (GPTRouter.providers g) = Some q /\
     GPTRouter.privacy q = Some Cloud).
Proof.
  cbv zeta. split.
  - split; [reflexivity|]. split.
    + eexists. split; [reflexivity|]. split; [|reflexivity].
      vm_compute. tauto.
    + eexists _, _, _. split; [vm_compute; reflexivity|].
      repeat split; reflexivity.
  - split; [reflexivity|]. split.
    + exists (GPTRouter.mkProvider "vault" 1 10 true (Some 0.95%Q) (Some Local)).
      split; [|split; reflexivity].
      vm_compute. do 5 right. left. reflexivity.
    + eexists _, _, _. split; [vm_compute; reflexivity|].
      repeat split; reflexivity.
Qed.




End RoutingProps.

(** ** Requests without messages *)

Module RequestProps.

(** The property as the design document words it, on the two-provider
    router: a request whose [messages] are missing or empty is
    rejected. *)
Definition missing_or_empty_messages_rejected : Prop :=
  forall r req,
    js_messages req = MissingMessages \/ js_messages req = MessageArray [] ->
    EdgeRouterV1.route r req = Err InvalidRequest.

Example empty_messages_routed :
  EdgeRouterV1.route (EdgeRouterV1.mkRouter false) (mkJsRequest (MessageArray []))
    = Ok (EdgeRouterV1.mkRouting "cloudflare" "cost_optimized") /\
  option_map snd (EdgeRouter.route 1005 EdgeRouterProps.cheapest_router
                                   (mkJsRequest (MessageArray [])))
    = Some (Ok (EdgeRouter.mkRouting "local" "cheapest" 0.000 100)) /\
  snd (GPTRouter.route GPTRouterProps.jan31 100 GPTRouterProps.cheapest_router
                       (GPTRouter.mkRequest [] None))
    = Ok (GPTRouter.mkResponse "local" 0
            (GPTRouter.mkRouting "local" 0.000 100 "cheapest")).
Proof. repeat split; reflexivity. Qed.

(** C3, counterexample.  The guard is [!messages || !Array.isArray
    (messages)]; the empty array passes it and is routed as content that
    is not sensitive. *)
Lemma empty_messages_counterexample : ~ missing_or_empty_messages_rejected.
Proof.
  intros H.
  specialize (H (EdgeRouterV1.mkRouter false) (mkJsRequest (MessageArray []))
                (or_intror eq_refl)).
  discriminate H.
Qed.

(** C3, as the code has it.  A request whose [messages] are missing, or
    are no array, gets no decision.  The two JavaScript routers reject it
    with the invalid-request error and are left as they were; the
    TypeScript router has no such guard and fails with a [TypeError] in
    the detector, after its lazy budget reset.  A request that is itself
    [null] or [undefined] ends in a [TypeError] in all three.  The empty
    array is not rejected: the two-provider router decides it like any
    content that is not sensitive, the multi-provider router sends it to
    a healthy provider under any of its strategies, and the TypeScript
    router to an available provider, at 0 tokens. *)
Theorem route_rejects_missing_messages
        (v1 : EdgeRouterV1.Router)
        (now : Z) (r : EdgeRouter.Router)
        (strategyFn : EdgeRouter.Router -> option string)
        (date : GPTRouter.Date) (lat : Z) (g : GPTRouter.Router)
        (request : AnyValue) (model : option string) :
  (AnyProps.no_messages request ->
   EdgeRouterV1.Any.route v1 request = Err InvalidRequest /\
   EdgeRouter.Any.route now r request = Some (r, Err InvalidRequest) /\
   GPTRouter.Any.route date lat g request
   = (GPTRouter.checkBudgetReset date g, Err JsTypeError)) /\
  (EdgeRouterV1.Any.route v1 Nullish = Err JsTypeError /\
   EdgeRouter.Any.route now r Nullish = Some (r, Err JsTypeError) /\
   GPTRouter.Any.route date lat g Nullish
   = (GPTRouter.checkBudgetReset date g, Err JsTypeError)) /\
  (let empty := Truthy (mkFields (Elements []) model) in
   EdgeRouterV1.Any.route v1 empty
   = Ok (if EdgeRouterV1.preferLocal v1
         then EdgeRouterV1.routeToLocal
         else EdgeRouterV1.routeToCloudflare) /\
   (EdgeRouter.strategies (EdgeRouter.strategy r) = Some strategyFn ->
    EdgeRouter.getHealthyProviders r <> [] ->
    exists r' d,
      EdgeRouter.Any.route now r empty = Some (r', Ok d) /\
      In (EdgeRouter.provider d) (EdgeRouter.getHealthyProviders r) /\
      (EdgeRouter.reason d = EdgeRouter.strategy r \/
       EdgeRouter.reason d = "budget_exceeded")) /\
   (GPTRouter.getHealthyProviders (GPTRouter.checkBudgetReset date g) <> [] ->
    exists g' resp p,
      GPTRouter.Any.route date lat g empty = (g', Ok resp) /\
      In p (GPTRouter.getHealthyProviders
              (GPTRouter.checkBudgetReset date g)) /\
      GPTRouter.r_provider (GPTRouter.routing resp) = GPTRouter.name p /\
      GPTRouter.total_tokens resp = 0)).
Proof.
  split; [|split; [repeat split|]].
  - intros [->|(fields & -> & [H|H])];
      unfold EdgeRouterV1.Any.route, EdgeRouter.Any.route, GPTRouter.Any.route;
      cbv zeta; try rewrite H; repeat split.
  - cbv zeta. split; [|split].
    + unfold EdgeRouterV1.Any.route. cbn.
      destruct (EdgeRouterV1.preferLocal v1); reflexivity.
    + intros Hf Hne.
      change (Elements []) with (Elements (elements_of [])).
      rewrite (AnyProps.edge_route_objects now r [] model).
      destruct (EdgeRouterProps.route_plain_decides now r [] strategyFn
                  eq_refl Hf Hne) as (r' & d & first & _ & Hr & Hin & Hwhy).
      exists r', d. split; [exact Hr|]. split; [exact Hin|]. tauto.
    + intros Hne.
      change (Truthy (mkFields (Elements []) model))
        with (GPTRouter.Any.of_chat (GPTRouter.mkRequest [] model)).
      rewrite AnyProps.gpt_route_agrees.
      destruct (GPTRouterProps.route_decides date lat g
                  (GPTRouter.mkRequest [] model) Hne) as (p & _ & Hin & Hr).
      eexists _, _, p. split; [exact Hr|]. split; [exact Hin|].
      split; reflexivity.
Qed.

Lemma route_rejects_missing_messages_witness :
  (EdgeRouterV1.Any.route (EdgeRouterV1.mkRouter false)
                          (Truthy (mkFields Absent None))
   = Err InvalidRequest /\
   EdgeRouter.Any.route 1005 EdgeRouterProps.cheapest_router
                        (Truthy (mkFields Absent None))
   = Some (EdgeRouterProps.cheapest_router, Err InvalidRequest) /\
   GPTRouter.Any.route GPTRouterProps.jan31 100 GPTRouterProps.cheapest_router
                       (Truthy (mkFields Absent None))
   = (GPTRouter.checkBudgetReset GPTRouterProps.jan31
                                 GPTRouterProps.cheapest_router,
      Err JsTypeError)) /\
  (exists r' d,
     EdgeRouter.Any.route 1005 EdgeRouterProps.cheapest_router
                          (Truthy (mkFields (Elements []) None))
     = Some (r', Ok d) /\
     In (EdgeRouter.provider d)
        (EdgeRouter.getHealthyProviders EdgeRouterProps.cheapest_router) /\
     (EdgeRouter.reason d = EdgeRouter.strategy EdgeRouterProps.cheapest_router \/
      EdgeRouter.reason d = "budget_exceeded")) /\
  (exists g' resp p,
     GPTRouter.Any.route GPTRouterProps.jan31 100 GPTRouterProps.cheapest_router
                         (Truthy (mkFields (Elements []) None))
     = (g', Ok resp) /\
     In p (GPTRouter.getHealthyProviders
             (GPTRouter.checkBudgetReset GPTRouterProps.jan31
                                         GPTRouterProps.cheapest_router)) /\
     GPTRouter.r_provider (GPTRouter.routing resp) = GPTRouter.name p /\
     GPTRouter.total_tokens resp = 0).
Proof.
  destruct (route_rejects_missing_messages
              (EdgeRouterV1.mkRouter false)
              1005 EdgeRouterProps.cheapest_router EdgeRouter.routeToCheapest
              GPTRouterProps.jan31 100 GPTRouterProps.cheapest_router
              (Truthy (mkFields Absent None)) None)
    as (Hmissing & _ & _ & Hedge & Hgpt).
  split; [|split].
  - apply Hmissing. right. exists (mkFields Absent None).
    split; [reflexivity|]. left. reflexivity.
  - apply Hedge; [reflexivity|vm_compute; discriminate].
  - apply Hgpt. vm_compute. discriminate.
Defined.

End RequestProps.

(** ** The sensitivity detectors and absent content *)

Module SensitivityProps.

Lemma existsb_skip {A : Type} (f : A -> bool) (pre post : list A) (m : A) :
  f m = false -> existsb f (pre ++ m :: post) = existsb f (pre ++ post).
Proof.
  intros Hm. rewrite !existsb_app. simpl. now rewrite Hm.
Qed.

Lemma lacks_content_string m :
  lacks_content m -> content_string (js_content m) = "".
Proof. intros [H|H]; now rewrite H. Qed.

(** No pattern of either table matches the empty string. *)
Lemma empty_string_matches_nothing :
  any_match EdgeRouterV1.patterns "" = false /\
  any_match EdgeRouter.patterns "" = false.
Proof. split; reflexivity. Qed.





Definition ssn_message : JsMessage :=
  mkJsMessage "user" (CString "Process this SSN: 123-45-6789").


(** A request all of whose messages lack content is not sensitive. *)
Lemma contentless_request_not_sensitive (msgs : list JsMessage) :
  Forall lacks_content msgs ->
  EdgeRouterV1.containsSensitive msgs = false /\
  EdgeRouter.containsSensitive msgs = false.
Proof.
  unfold EdgeRouterV1.containsSensitive, EdgeRouter.containsSensitive.
  induction 1 as [|m msgs Hm _ [IH1 IH2]]; [split; reflexivity|].
  cbn [existsb]. rewrite (lacks_content_string m Hm), IH1, IH2.
  split; reflexivity.
Qed.

(** The contents the repository's test scripts send. *)
Example test_script_contents :
  map (fun text => EdgeRouter.containsSensitive [mkJsMessage "user" (CString text)])
      [ "What is the capital of France?";
        "My API key is sk_live_abc123xyz";
        "My password is SuperSecret123!";
        "Process this SSN: 123-45-6789" ]
    = [false; true; true; true] /\
  map (fun text => GPTRouter.detectSensitive [mkMessage "user" text])
      [ "Normal conversation about weather";
        "Password: SuperSecret123!";
        "Process SSN 123-45-6789";
        "Patient record: blood pressure 120/80";
        "Card number 4532-1234-5678-9012 exp 12/25";
        "Bearer eyJhbGciOiJIUzI1NiIsInR5cCI6IkpXVCJ9.eyJzdWIiOiIxMjM0NTY3ODkwIn0" ]
    = [false; true; true; true; true; true].
Proof. split; reflexivity. Qed.

(** The TypeScript detector requires [content] to be a string; called
    from untyped code with absent content, [RegExp.prototype.test] reads
    the texts ["undefined"] and ["null"], which match nothing either. *)
Lemma typed_detector_on_absent_content :
  GPTRouter.detectSensitive [] = false /\
  any_match GPTRouter.patterns "undefined" = false /\
  any_match GPTRouter.patterns "null" = false.
Proof. repeat split; reflexivity. Qed.

End SensitivityProps.

(** ** Analytics summaries *)

Module AnalyticsProps.

(** Two calls in a row of an operation on a state. *)
Definition twice {S A : Type} (op : S -> A * S) (s : S) : A * A :=
  let (a1, s1) := op s in
  let (a2, _) := op s1 in
  (a1, a2).

(** [getAnalytics] of the TypeScript router reads the router and changes
    nothing. *)
Definition gpt_summary (r : GPTRouter.Router)
  : GPTRouter.Analytics * GPTRouter.Router :=
  (GPTRouter.getAnalytics r, r).

(** The property as the design document words it, on the multi-provider
    router: two summaries taken one after the other, at clock readings
    [t1] and [t2], are the same value. *)
Definition summaries_identical : Prop :=
  forall (r : EdgeRouter.Router) (t1 t2 : Z),
    t1 <= t2 ->
    EdgeRouter.getAnalytics t1 r = EdgeRouter.getAnalytics t2 r.

(** C9, counterexample.  The summary of the multi-provider router holds
    [uptime], the clock reading less the start time: a millisecond later
    the summary differs. *)
Lemma summaries_identical_counterexample : ~ summaries_identical.
Proof.
  intros H.
  specialize (H EdgeRouterProps.cheapest_router 5000 5001 ltac:(lia)).
  apply (f_equal EdgeRouter.uptime) in H.
  discriminate H.
Qed.

(** C9, as the code has it.  Two summaries in a row of the TypeScript
    router are equal.  Two summaries of the multi-provider router agree
    on every field but [uptime], which moves with the clock. *)
Theorem summary_twice
        (g : GPTRouter.Router) (r : EdgeRouter.Router) (t1 t2 : Z) :
  fst (twice gpt_summary g) = snd (twice gpt_summary g) /\
  (let s1 := EdgeRouter.getAnalytics t1 r in
   let s2 := EdgeRouter.getAnalytics t2 r in
   EdgeRouter.totalRequests s1 = EdgeRouter.totalRequests s2 /\
   EdgeRouter.totalCost s1 = EdgeRouter.totalCost s2 /\
   EdgeRouter.requestsByProvider s1 = EdgeRouter.requestsByProvider s2 /\
   EdgeRouter.costsByProvider s1 = EdgeRouter.costsByProvider s2 /\
   EdgeRouter.healthStatus s1 = EdgeRouter.healthStatus s2 /\
   EdgeRouter.budget_limit s1 = EdgeRouter.budget_limit s2 /\
   EdgeRouter.budget_spent s1 = EdgeRouter.budget_spent s2 /\
   EdgeRouter.budget_alerts s1 = EdgeRouter.budget_alerts s2 /\
   EdgeRouter.uptime s2 - EdgeRouter.uptime s1 = t2 - t1).
Proof.
  split; [reflexivity|].
  cbv zeta. repeat split. simpl. lia.
Qed.

End AnalyticsProps.

(** ** The password request, end to end *)

Module EndToEnd.

Definition text : string := "My password is Secret123".

(** The property as the design document words it, on the TypeScript
    router with strategy [cheapest] and its default providers, all
    healthy. *)
Definition password_request_sensitive_content : Prop :=
  exists r' resp,
    GPTRouter.route GPTRouterProps.jan31 100 GPTRouterProps.cheapest_router
                    (GPTRouterProps.say text) = (r', Ok resp) /\
    GPTRouter.r_provider (GPTRouter.routing resp) = "local" /\
    GPTRouter.r_reason (GPTRouter.routing resp) = "sensitive_content".

(** C6, counterexample.  The TypeScript router labels every decision with
    the strategy name. *)
Lemma password_request_counterexample : ~ password_request_sensitive_content.
Proof.
  intros (r' & resp & Hroute & _ & Hreason).
  vm_compute in Hroute. injection Hroute as _ <-.
  discriminate Hreason.
Qed.

(** C6, as the code has it.  The JavaScript routers find [password] in
    the request and send it to [local] with reason [sensitive_content].
    The TypeScript router wants [password] followed by [:] or [=]: it
    does not class the request as sensitive; [local], free of charge,
    wins as the cheapest provider, and the reason is [cheapest]. *)
Theorem password_request_decisions (now : GPTRouter.Date) (lat t : Z) :
  EdgeRouterV1.containsSensitive [mkJsMessage "user" (CString text)] = true /\
  EdgeRouterV1.route (EdgeRouterV1.mkRouter false) (EdgeRouterProps.ask text)
    = Ok (EdgeRouterV1.mkRouting "local" "sensitive_content") /\
  EdgeRouter.containsSensitive [mkJsMessage "user" (CString text)] = true /\
  option_map snd (EdgeRouter.route t EdgeRouterProps.cheapest_router
                                   (EdgeRouterProps.ask text))
    = Some (Ok (EdgeRouter.mkRouting "local" "sensitive_content" 0.000 100)) /\
  GPTRouter.detectSensitive [mkMessage "user" text] = false /\
  snd (GPTRouter.route now lat GPTRouterProps.cheapest_router
                       (GPTRouterProps.say text))
    = Ok (GPTRouter.mkResponse "local" 6
            (GPTRouter.mkRouting "local" 0.000 lat "cheapest")).
Proof.
  repeat split; try reflexivity.
  unfold GPTRouter.route, GPTRouter.checkBudgetReset.
  destruct (negb (GPTRouter.date now
                  =? GPTRouter.date
                       (GPTRouter.lastResetDate GPTRouterProps.cheapest_router)));
    match goal with
    | |- context [if negb (?a =? ?b) then _ else _] =>
        destruct (negb (a =? b))
    end; reflexivity.
Qed.

End EndToEnd.


(** * Further properties of the routers *)

(** ** More on dictionaries and the sort *)

Section DictMore.
Context {V : Type}.

Lemma lookup_set_other (k k' : string) (v : V) (d : dict V) :
  k <> k' -> lookup k' (set k v d) = lookup k' d.
Proof.
  intros Hne.
  induction d as [|[k0 v0] d IH]; simpl.
  - destruct (String.eqb k' k) eqn:E; [|reflexivity].
    apply String.eqb_eq in E. congruence.
  - destruct (String.eqb k k0) eqn:E; simpl.
    + apply String.eqb_eq in E. subst k0.
      destruct (String.eqb k' k) eqn:E'; [|reflexivity].
      apply String.eqb_eq in E'. congruence.
    + now rewrite IH.
Qed.

Lemma lookup_none_keys (k : string) (d : dict V) :
  lookup k d = None <-> ~ In k (keys d).
Proof.
  unfold keys. induction d as [|[k0 v0] d IH]; simpl; [tauto|].
  destruct (String.eqb k k0) eqn:E.
  - apply String.eqb_eq in E. subst. split; [discriminate|]. intros H.
    exfalso. apply H. now left.
  - apply String.eqb_neq in E. rewrite IH. split.
    + intros H [H1|H1]; [congruence|tauto].
    + intros H H1. apply H. now right.
Qed.

Lemma keys_set_present (k : string) (v : V) (d : dict V) :
  In k (keys d) -> keys (set k v d) = keys d.
Proof.
  unfold keys. induction d as [|[k0 v0] d IH]; simpl; [contradiction|].
  intros Hin. destruct (String.eqb k k0) eqn:E; simpl; [reflexivity|].
  apply String.eqb_neq in E. f_equal. apply IH.
  destruct Hin as [H|H]; [congruence|exact H].
Qed.

Lemma keys_set_absent (k : string) (v : V) (d : dict V) :
  ~ In k (keys d) -> keys (set k v d) = (keys d ++ [k])%list.
Proof.
  unfold keys. induction d as [|[k0 v0] d IH]; simpl; [reflexivity|].
  intros Hnin. destruct (String.eqb k k0) eqn:E; simpl.
  - apply String.eqb_eq in E. subst. exfalso. apply Hnin. now left.
  - f_equal. apply IH. intros H. apply Hnin. now right.
Qed.
End DictMore.

(** Sums over a dictionary that [set] updates. *)

Lemma fold_left_Zadd_acc (l : list Z) (a : Z) :
  fold_left Z.add l a = a + sumZ l.
Proof.
  unfold sumZ. revert a. induction l as [|x l IH]; intros a; cbn [fold_left];
    [lia|].
  rewrite IH, (IH (0 + x)). lia.
Qed.

Lemma sumZ_cons (x : Z) (l : list Z) : sumZ (x :: l) = x + sumZ l.
Proof. unfold sumZ. cbn [fold_left]. rewrite fold_left_Zadd_acc. reflexivity. Qed.

Lemma sumZ_app (l1 l2 : list Z) : sumZ (l1 ++ l2) = sumZ l1 + sumZ l2.
Proof.
  induction l1 as [|x l1 IH]; simpl; [reflexivity|].
  rewrite !sumZ_cons, IH. lia.
Qed.

(** Adding [x] to the entry of [k] (read as 0 when absent) adds [x] to the
    sum of the values. *)
Lemma sumZ_set_add (k : string) (x : Z) (d : dict Z) :
  sumZ (values (set k (match lookup k d with Some v => v | None => 0 end + x) d))
  = sumZ (values d) + x.
Proof.
  unfold values. induction d as [|[k0 v0] d IH]; simpl.
  - rewrite sumZ_cons. unfold sumZ. simpl. lia.
  - destruct (String.eqb k k0); simpl; rewrite !sumZ_cons; [lia|].
    rewrite IH. lia.
Qed.

Section SortMore.
Context {A : Type}.
Variable cmp : A -> A -> Q.
Variable R : A -> A -> Prop.
Hypothesis R_trans : forall a b c, R a b -> R b c -> R a c.
Hypothesis after_R : forall x y, goes_after cmp x y = true -> R y x.
Hypothesis before_R : forall x y, goes_after cmp x y = false -> R x y.

Lemma R_refl (x : A) : R x x.
Proof. destruct (goes_after cmp x x) eqn:E; auto. Qed.

Lemma insert_sorted_by (x : A) (l : list A) :
  StronglySorted R l -> StronglySorted R (insert cmp x l).
Proof.
  induction 1 as [|y l Hs IH Hall]; simpl.
  - repeat constructor.
  - destruct (goes_after cmp x y) eqn:E.
    + constructor; [exact IH|].
      rewrite Forall_forall in *. intros z Hz.
      apply (Permutation_in _ (insert_perm cmp x l)) in Hz.
      destruct Hz as [<-|Hz]; [now apply after_R|now apply Hall].
    + constructor; [now constructor|].
      constructor; [now apply before_R|].
      rewrite Forall_forall in *. intros z Hz.
      apply R_trans with (b := y); [now apply before_R|now apply Hall].
Qed.

Lemma sort_sorted_by (l : list A) : StronglySorted R (sort cmp l).
Proof.
  induction l as [|x l IH]; simpl; [constructor|].
  now apply insert_sorted_by.
Qed.

(** The first element of the sorted array is below every element. *)
Lemma sort_hd_least_by (l : list A) (x : A) :
  hd_error (sort cmp l) = Some x -> forall y, In y l -> R x y.
Proof.
  intros Hhd y Hy.
  pose proof (sort_sorted_by l) as Hs.
  apply (sort_In cmp) in Hy.
  destruct (sort cmp l) as [|h t]; [discriminate|].
  injection Hhd as ->.
  inversion Hs as [|? ? _ Hall]; subst.
  destruct Hy as [<-|Hy]; [apply R_refl|].
  rewrite Forall_forall in Hall. now apply Hall.
Qed.
End SortMore.

(** ** The other strategies *)

Module StrategyProps.

Definition gpt_router (s : string) : GPTRouter.Router :=
  GPTRouter.new (GPTRouter.mkConfig s None None None) GPTRouterProps.jan31.

Definition edge_router (s : string) : EdgeRouter.Router :=
  EdgeRouter.new (EdgeRouter.mkConfig (Some s) None None []) 1000.

Lemma edge_sorted_pick r cmp :
  EdgeRouter.getHealthyProviders r <> [] ->
  exists a, hd_error (sort cmp (EdgeRouter.getHealthyProviders r)) = Some a /\
            In a (EdgeRouter.getHealthyProviders r).
Proof. intros Hne. now apply sort_nonempty. Qed.

(** X1.  With strategy [fastest] and a request that is not sensitive, the
    selection returns a candidate whose latency is at most the latency of
    every candidate: in [selectProvider] of the TypeScript router, and in
    [routeToFastest] of the multi-provider router over the healthy
    providers. *)
Theorem fastest_selects_least_latency
        (g : GPTRouter.Router) (ps : list GPTRouter.Provider)
        (r : EdgeRouter.Router) :
  (GPTRouter.strategy g = "fastest" ->
   ps <> [] ->
   exists p, GPTRouter.selectProvider g ps false = Some p /\
             In p ps /\
             forall q, In q ps -> (GPTRouter.latency p <= GPTRouter.latency q)%Q) /\
  (EdgeRouter.getHealthyProviders r <> [] ->
   exists a, EdgeRouter.routeToFastest r = Some a /\
             In a (EdgeRouter.getHealthyProviders r) /\
             forall b, In b (EdgeRouter.getHealthyProviders r) ->
                       (EdgeRouter.field EdgeRouter.latency r a
                        <= EdgeRouter.field EdgeRouter.latency r b)%Q).
Proof.
  split.
  - intros Hs Hne.
    assert (Hsel : GPTRouter.selectProvider g ps false
                   = hd_error (sort GPTRouter.by_latency ps)).
    { unfold GPTRouter.selectProvider. cbv zeta. now rewrite Hs. }
    destruct (sort_nonempty GPTRouter.by_latency ps Hne) as (p & Hp & Hin).
    exists p. rewrite Hsel. split; [exact Hp|]. split; [exact Hin|].
    apply (sort_hd_least GPTRouter.by_latency GPTRouter.latency); [|exact Hp].
    intros a b. reflexivity.
  - intros Hne. unfold EdgeRouter.routeToFastest. cbv zeta.
    destruct (edge_sorted_pick r
                (fun a b => EdgeRouter.field EdgeRouter.latency r a
                            - EdgeRouter.field EdgeRouter.latency r b)%Q Hne)
      as (a & Ha & Hin).
    exists a. split; [exact Ha|]. split; [exact Hin|].
    apply (sort_hd_least
             (fun a b => EdgeRouter.field EdgeRouter.latency r a
                         - EdgeRouter.field EdgeRouter.latency r b)%Q
             (EdgeRouter.field EdgeRouter.latency r)); [|exact Ha].
    intros x y. reflexivity.
Qed.

Lemma fastest_selects_least_latency_witness :
  (exists p,
     GPTRouter.selectProvider (gpt_router "fastest")
       (GPTRouter.getHealthyProviders (gpt_router "fastest")) false = Some p /\
     In p (GPTRouter.getHealthyProviders (gpt_router "fastest")) /\
     forall q, In q (GPTRouter.getHealthyProviders (gpt_router "fastest")) ->
               (GPTRouter.latency p <= GPTRouter.latency q)%Q) /\
  (exists a,
     EdgeRouter.routeToFastest (edge_router "fastest") = Some a /\
     In a (EdgeRouter.getHealthyProviders (edge_router "fastest")) /\
     forall b, In b (EdgeRouter.getHealthyProviders (edge_router "fastest")) ->
               (EdgeRouter.field EdgeRouter.latency (edge_router "fastest") a
                <= EdgeRouter.field EdgeRouter.latency (edge_router "fastest") b)%Q).
Proof.
  destruct (fastest_selects_least_latency
              (gpt_router "fastest")
              (GPTRouter.getHealthyProviders (gpt_router "fastest"))
              (edge_router "fastest")) as [Hg He].
  split.
  - apply Hg; [reflexivity|vm_compute; discriminate].
  - apply He. vm_compute. discriminate.
Defined.

(** X2.  With strategy [reliability] and a request that is not
    sensitive, the selection returns a candidate of greatest reliability:
    in the TypeScript router with a missing or zero reliability read as
    0.95, in the multi-provider router over the healthy providers. *)
Theorem reliability_selects_most_reliable
        (g : GPTRouter.Router) (ps : list GPTRouter.Provider)
        (r : EdgeRouter.Router) :
  (GPTRouter.strategy g = "reliability" ->
   ps <> [] ->
   exists p, GPTRouter.selectProvider g ps false = Some p /\
             In p ps /\
             forall q, In q ps ->
                       (GPTRouter.reliability_or_default q
                        <= GPTRouter.reliability_or_default p)%Q) /\
  (EdgeRouter.getHealthyProviders r <> [] ->
   exists a, EdgeRouter.routeReliability r = Some a /\
             In a (EdgeRouter.getHealthyProviders r) /\
             forall b, In b (EdgeRouter.getHealthyProviders r) ->
                       (EdgeRouter.field EdgeRouter.reliability r b
                        <= EdgeRouter.field EdgeRouter.reliability r a)%Q).
Proof.
  split.
  - intros Hs Hne.
    assert (Hsel : GPTRouter.selectProvider g ps false
                   = hd_error (sort GPTRouter.by_reliability ps)).
    { unfold GPTRouter.selectProvider. cbv zeta. now rewrite Hs. }
    destruct (sort_nonempty GPTRouter.by_reliability ps Hne) as (p & Hp & Hin).
    exists p. rewrite Hsel. split; [exact Hp|]. split; [exact Hin|].
    intros q Hq.
    pose proof (sort_hd_least GPTRouter.by_reliability
                  (fun x => - GPTRouter.reliability_or_default x)%Q
                  ltac:(intros a b; unfold GPTRouter.by_reliability; cbv beta; lra)
                  ps p Hp q Hq) as H.
    simpl in H. lra.
  - intros Hne. unfold EdgeRouter.routeReliability. cbv zeta.
    destruct (edge_sorted_pick r
                (fun a b => EdgeRouter.field EdgeRouter.reliability r b
                            - EdgeRouter.field EdgeRouter.reliability r a)%Q Hne)
      as (a & Ha & Hin).
    exists a. split; [exact Ha|]. split; [exact Hin|].
    intros b Hb.
    pose proof (sort_hd_least
                  (fun a b => EdgeRouter.field EdgeRouter.reliability r b
                              - EdgeRouter.field EdgeRouter.reliability r a)%Q
                  (fun x => - EdgeRouter.field EdgeRouter.reliability r x)%Q
                  ltac:(intros x y; cbv beta; lra)
                  (EdgeRouter.getHealthyProviders r) a Ha b Hb) as H.
    simpl in H. lra.
Qed.

Lemma reliability_selects_most_reliable_witness :
  (exists p,
     GPTRouter.selectProvider (gpt_router "reliability")
       (GPTRouter.getHealthyProviders (gpt_router "reliability")) false = Some p /\
     In p (GPTRouter.getHealthyProviders (gpt_router "reliability")) /\
     forall q, In q (GPTRouter.getHealthyProviders (gpt_router "reliability")) ->
               (GPTRouter.reliability_or_default q
                <= GPTRouter.reliability_or_default p)%Q) /\
  (exists a,
     EdgeRouter.routeReliability (edge_router "reliability") = Some a /\
     In a (EdgeRouter.getHealthyProviders (edge_router "reliability")) /\
     forall b, In b (EdgeRouter.getHealthyProviders (edge_router "reliability")) ->
               (EdgeRouter.field EdgeRouter.reliability (edge_router "reliability") b
                <= EdgeRouter.field EdgeRouter.reliability
                     (edge_router "reliability") a)%Q).
Proof.
  destruct (reliability_selects_most_reliable
              (gpt_router "reliability")
              (GPTRouter.getHealthyProviders (gpt_router "reliability"))
              (edge_router "reliability")) as [Hg He].
  split.
  - apply Hg; [reflexivity|vm_compute; discriminate].
  - apply He. vm_compute. discriminate.
Defined.

(** The scores of the [balanced] strategies. *)
Definition gpt_score (p : GPTRouter.Provider) : Q :=
  ((GPTRouter.cost p / 0.015) * 0.5 + (GPTRouter.latency p / 200) * 0.5)%Q.

Definition edge_score (r : EdgeRouter.Router) (a : string) : Q :=
  (EdgeRouter.field EdgeRouter.cost r a * 100
   + EdgeRouter.field EdgeRouter.latency r a)%Q.

(** X3.  With strategy [balanced] and a request that is not sensitive,
    the selection returns a candidate of least score: half the cost over
    0.015 plus half the latency over 200 in the TypeScript router, a
    hundred times the cost plus the latency in the multi-provider
    router. *)
Theorem balanced_selects_least_score
        (g : GPTRouter.Router) (ps : list GPTRouter.Provider)
        (r : EdgeRouter.Router) :
  (GPTRouter.strategy g = "balanced" ->
   ps <> [] ->
   exists p, GPTRouter.selectProvider g ps false = Some p /\
             In p ps /\
             forall q, In q ps -> (gpt_score p <= gpt_score q)%Q) /\
  (EdgeRouter.getHealthyProviders r <> [] ->
   exists a, EdgeRouter.routeBalanced r = Some a /\
             In a (EdgeRouter.getHealthyProviders r) /\
             forall b, In b (EdgeRouter.getHealthyProviders r) ->
                       (edge_score r a <= edge_score r b)%Q).
Proof.
  split.
  - intros Hs Hne.
    assert (Hsel : GPTRouter.selectProvider g ps false
                   = hd_error (sort GPTRouter.by_balance ps)).
    { unfold GPTRouter.selectProvider. cbv zeta. now rewrite Hs. }
    destruct (sort_nonempty GPTRouter.by_balance ps Hne) as (p & Hp & Hin).
    exists p. rewrite Hsel. split; [exact Hp|]. split; [exact Hin|].
    apply (sort_hd_least GPTRouter.by_balance gpt_score); [|exact Hp].
    intros a b. reflexivity.
  - intros Hne. unfold EdgeRouter.routeBalanced.
    destruct (edge_sorted_pick r
                (fun a b => edge_score r a - edge_score r b)%Q Hne)
      as (a & Ha & Hin).
    exists a. split; [exact Ha|]. split; [exact Hin|].
    apply (sort_hd_least (fun a b => edge_score r a - edge_score r b)%Q
                         (edge_score r)); [|exact Ha].
    intros x y. reflexivity.
Qed.

Lemma balanced_selects_least_score_witness :
  (exists p,
     GPTRouter.selectProvider (gpt_router "balanced")
       (GPTRouter.getHealthyProviders (gpt_router "balanced")) false = Some p /\
     In p (GPTRouter.getHealthyProviders (gpt_router "balanced")) /\
     forall q, In q (GPTRouter.getHealthyProviders (gpt_router "balanced")) ->
               (gpt_score p <= gpt_score q)%Q) /\
  (exists a,
     EdgeRouter.routeBalanced (edge_router "balanced") = Some a /\
     In a (EdgeRouter.getHealthyProviders (edge_router "balanced")) /\
     forall b, In b (EdgeRouter.getHealthyProviders (edge_router "balanced")) ->
               (edge_score (edge_router "balanced") a
                <= edge_score (edge_router "balanced") b)%Q).
Proof.
  destruct (balanced_selects_least_score
              (gpt_router "balanced")
              (GPTRouter.getHealthyProviders (gpt_router "balanced"))
              (edge_router "balanced")) as [Hg He].
  split.
  - apply Hg; [reflexivity|vm_compute; discriminate].
  - apply He. vm_compute. discriminate.
Defined.

(** The order of [privacy-first]: a [local] provider before one that is
    not, and by cost among providers of the same kind. *)
Definition privacy_le (a b : GPTRouter.Provider) : Prop :=
  (GPTRouter.is_local a = true /\ GPTRouter.is_local b = false) \/
  (GPTRouter.is_local a = GPTRouter.is_local b /\
   (GPTRouter.cost a <= GPTRouter.cost b)%Q).

Lemma privacy_le_trans a b c : privacy_le a b -> privacy_le b c -> privacy_le a c.
Proof.
  unfold privacy_le.
  intros [[H1 H2]|[H1 H2]] [[H3 H4]|[H3 H4]]; try congruence.
  - left. split; congruence.
  - left. split; congruence.
  - right. split; [congruence|lra].
Qed.

Lemma by_privacy_after x y :
  goes_after GPTRouter.by_privacy x y = true -> privacy_le y x.
Proof.
  unfold goes_after, privacy_le, GPTRouter.by_privacy.
  rewrite negb_true_iff.
  destruct (GPTRouter.is_local x), (GPTRouter.is_local y); simpl;
    intros H; try discriminate.
  - right. split; [reflexivity|].
    destruct (Qlt_le_dec (GPTRouter.cost x) (GPTRouter.cost y)) as [Hc|Hc];
      [|exact Hc].
    assert (Hle : (GPTRouter.cost x - GPTRouter.cost y <= 0)%Q) by lra.
    apply Qle_bool_iff in Hle. congruence.
  - left. now split.
  - right. split; [reflexivity|].
    destruct (Qlt_le_dec (GPTRouter.cost x) (GPTRouter.cost y)) as [Hc|Hc];
      [|exact Hc].
    assert (Hle : (GPTRouter.cost x - GPTRouter.cost y <= 0)%Q) by lra.
    apply Qle_bool_iff in Hle. congruence.
Qed.

Lemma by_privacy_before x y :
  goes_after GPTRouter.by_privacy x y = false -> privacy_le x y.
Proof.
  unfold goes_after, privacy_le, GPTRouter.by_privacy.
  rewrite negb_false_iff.
  destruct (GPTRouter.is_local x), (GPTRouter.is_local y); simpl;
    intros H; try discriminate.
  - right. split; [reflexivity|]. apply Qle_bool_iff in H. lra.
  - left. now split.
  - right. split; [reflexivity|]. apply Qle_bool_iff in H. lra.
Qed.

(** X4.  With strategy [privacy-first] and a request that is not
    sensitive.  TypeScript router: the selection returns a [local]
    candidate whenever the candidates hold one, and the returned candidate
    is the cheapest of its kind.  Multi-provider router: the selection
    returns a healthy provider, of privacy class [local] whenever a healthy
    one has that class, and the cheapest healthy provider when none has. *)
Theorem privacy_first_selects_local
        (g : GPTRouter.Router) (ps : list GPTRouter.Provider)
        (r : EdgeRouter.Router) :
  (GPTRouter.strategy g = "privacy-first" ->
   ps <> [] ->
   exists p, GPTRouter.selectProvider g ps false = Some p /\
             In p ps /\
             ((exists q, In q ps /\ GPTRouter.is_local q = true) ->
              GPTRouter.is_local p = true) /\
             forall q, In q ps ->
                       GPTRouter.is_local q = GPTRouter.is_local p ->
                       (GPTRouter.cost p <= GPTRouter.cost q)%Q) /\
  (EdgeRouter.getHealthyProviders r <> [] ->
   exists a, EdgeRouter.routePrivacyFirst r = Some a /\
             In a (EdgeRouter.getHealthyProviders r) /\
             ((exists b, In b (EdgeRouter.getHealthyProviders r) /\
                         EdgeRouter.privacy_is_local r b = true) ->
              EdgeRouter.privacy_is_local r a = true) /\
             ((forall b, In b (EdgeRouter.getHealthyProviders r) ->
                         EdgeRouter.privacy_is_local r b = false) ->
              forall b, In b (EdgeRouter.getHealthyProviders r) ->
                        (EdgeRouter.field EdgeRouter.cost r a
                         <= EdgeRouter.field EdgeRouter.cost r b)%Q)).
Proof.
  split.
  - intros Hs Hne.
    assert (Hsel : GPTRouter.selectProvider g ps false
                   = hd_error (sort GPTRouter.by_privacy ps)).
    { unfold GPTRouter.selectProvider. cbv zeta. now rewrite Hs. }
    destruct (sort_nonempty GPTRouter.by_privacy ps Hne) as (p & Hp & Hin).
    exists p. rewrite Hsel. split; [exact Hp|]. split; [exact Hin|].
    pose proof (sort_hd_least_by GPTRouter.by_privacy privacy_le
                  privacy_le_trans by_privacy_after by_privacy_before
                  ps p Hp) as Hleast.
    split.
    + intros (q & Hq & Hlq).
      destruct (Hleast q Hq) as [[H1 _]|[H1 _]]; congruence.
    + intros q Hq Hsame.
      destruct (Hleast q Hq) as [[H1 H2]|[_ H2]]; [congruence|exact H2].
  - intros Hne. unfold EdgeRouter.routePrivacyFirst. cbv zeta.
    destruct (filter (EdgeRouter.privacy_is_local r)
                     (EdgeRouter.getHealthyProviders r)) as [|l t] eqn:Ef.
    + destruct (EdgeRouterProps.strategy_picks_healthy r "cheapest"
                  EdgeRouter.routeToCheapest eq_refl Hne) as (a & Ha & Hin).
      exists a. split; [exact Ha|]. split; [exact Hin|]. split.
      * intros (b & Hb & Hlb).
        assert (Hf : In b (filter (EdgeRouter.privacy_is_local r)
                                  (EdgeRouter.getHealthyProviders r)))
          by (apply filter_In; now split).
        rewrite Ef in Hf. contradiction.
      * intros _.
        now apply EdgeRouterProps.routeToCheapest_least_cost.
    + assert (Hf : In l (filter (EdgeRouter.privacy_is_local r)
                                (EdgeRouter.getHealthyProviders r)))
        by (rewrite Ef; now left).
      apply filter_In in Hf. destruct Hf as [Hin Hloc].
      exists l. split; [reflexivity|]. split; [exact Hin|]. split.
      * intros _. exact Hloc.
      * intros Hnone. rewrite (Hnone l Hin) in Hloc. discriminate.
Qed.

Lemma privacy_first_selects_local_witness :
  (exists p,
     GPTRouter.selectProvider (gpt_router "privacy-first")
       (GPTRouter.getHealthyProviders (gpt_router "privacy-first")) false
       = Some p /\
     In p (GPTRouter.getHealthyProviders (gpt_router "privacy-first")) /\
     ((exists q, In q (GPTRouter.getHealthyProviders (gpt_router "privacy-first"))
                 /\ GPTRouter.is_local q = true) ->
      GPTRouter.is_local p = true) /\
     forall q, In q (GPTRouter.getHealthyProviders (gpt_router "privacy-first")) ->
               GPTRouter.is_local q = GPTRouter.is_local p ->
               (GPTRouter.cost p <= GPTRouter.cost q)%Q) /\
  (exists a,
     EdgeRouter.routePrivacyFirst (edge_router "privacy-first") = Some a /\
     In a (EdgeRouter.getHealthyProviders (edge_router "privacy-first")) /\
     ((exists b, In b (EdgeRouter.getHealthyProviders (edge_router "privacy-first"))
                 /\ EdgeRouter.privacy_is_local (edge_router "privacy-first") b
                    = true) ->
      EdgeRouter.privacy_is_local (edge_router "privacy-first") a = true) /\
     ((forall b, In b (EdgeRouter.getHealthyProviders (edge_router "privacy-first"))
                 -> EdgeRouter.privacy_is_local (edge_router "privacy-first") b
                    = false) ->
      forall b, In b (EdgeRouter.getHealthyProviders (edge_router "privacy-first"))
                -> (EdgeRouter.field EdgeRouter.cost (edge_router "privacy-first") a
                    <= EdgeRouter.field EdgeRouter.cost
                         (edge_router "privacy-first") b)%Q)).
Proof.
  destruct (privacy_first_selects_local
              (gpt_router "privacy-first")
              (GPTRouter.getHealthyProviders (gpt_router "privacy-first"))
              (edge_router "privacy-first")) as [Hg He].
  split.
  - apply Hg; [reflexivity|vm_compute; discriminate].
  - apply He. vm_compute. discriminate.
Defined.

End StrategyProps.

(** ** More on GPTRouter *)

Module GPTRouterMore.
Import GPTRouter.

(** *** The provider table *)

Lemma lookup_map_values {V W : Type} (f : string -> V -> W) (n : string)
      (d : dict V) :
  lookup n (map (fun e => (fst e, f (fst e) (snd e))) d)
  = match lookup n d with Some v => Some (f n v) | None => None end.
Proof.
  induction d as [|[k v] d IH]; simpl; [reflexivity|].
  destruct (String.eqb n k) eqn:E; [|exact IH].
  apply String.eqb_eq in E. now subst.
Qed.

Lemma keys_map_values {V W : Type} (f : string -> V -> W) (d : dict V) :
  keys (map (fun e => (fst e, f (fst e) (snd e))) d) = keys d.
Proof. unfold keys. rewrite map_map. reflexivity. Qed.

Lemma has_false_keys {V : Type} (n : string) (d : dict V) :
  has n d = false -> ~ In n (keys d).
Proof.
  unfold has. destruct (lookup n d) eqn:E; [discriminate|].
  intros _. now apply lookup_none_keys.
Qed.

Lemma add_custom_keys (cs : dict PartialProvider) :
  forall ps,
    NoDup (keys ps) ->
    exists extra,
      keys (add_custom cs ps) = (keys ps ++ extra)%list /\
      NoDup (keys (add_custom cs ps)) /\
      forall n, In n extra ->
                exists c, In (n, c) cs /\ p_cost c <> None /\ p_latency c <> None.
Proof.
  induction cs as [|[n c] cs IH]; intros ps Hnd; simpl.
  - exists []. rewrite app_nil_r. repeat split; [exact Hnd|contradiction].
  - assert (Hskip : exists extra,
               keys (add_custom cs ps) = (keys ps ++ extra)%list /\
               NoDup (keys (add_custom cs ps)) /\
               forall n0, In n0 extra ->
                          exists c0, ((n, c) = (n0, c0) \/ In (n0, c0) cs) /\
                                     p_cost c0 <> None /\ p_latency c0 <> None).
    { destruct (IH ps Hnd) as (extra & Hk & Hn & He).
      exists extra. repeat split; try assumption.
      intros n0 Hn0. destruct (He n0 Hn0) as (c0 & H1 & H2). eauto. }
    destruct (has n ps) eqn:Hhas; [exact Hskip|].
    destruct (p_cost c) as [pc|] eqn:Hc; [|exact Hskip].
    destruct (p_latency c) as [pl|] eqn:Hl; [|exact Hskip].
    apply has_false_keys in Hhas.
    set (ps' := set n (merge (mkProvider n 0 0 true (Some 0.95%Q) (Some Cloud)) c) ps).
    assert (Hk' : keys ps' = (keys ps ++ [n])%list)
      by (unfold ps'; now apply keys_set_absent).
    assert (Hnd' : NoDup (keys ps')).
    { rewrite Hk'. apply NoDup_app; [exact Hnd|repeat constructor; auto|].
      intros x Hx [<-|[]]. contradiction. }
    destruct (IH ps' Hnd') as (extra & Hk & Hn & He).
    exists (n :: extra). split; [|split].
    + rewrite Hk, Hk', <- app_assoc. reflexivity.
    + exact Hn.
    + intros n0 [<-|Hn0].
      * exists c. split; [now left|]. rewrite Hc, Hl. split; discriminate.
      * destruct (He n0 Hn0) as (c0 & H1 & H2). eauto.
Qed.

Lemma add_custom_lookup (cs : dict PartialProvider) :
  forall ps n v, lookup n ps = Some v -> lookup n (add_custom cs ps) = Some v.
Proof.
  induction cs as [|[k c] cs IH]; intros ps n v Hn; simpl; [exact Hn|].
  destruct (has k ps) eqn:Hhas; [now apply IH|].
  destruct (p_cost c); [|now apply IH].
  destruct (p_latency c); [|now apply IH].
  apply IH. rewrite lookup_set_other; [exact Hn|].
  intros ->. unfold has in Hhas. now rewrite Hn in Hhas.
Qed.

(** X5.  Whatever the custom configuration, [initializeProviders]
    registers the six default providers first, in their order, each merged
    with the custom entry of its name; every further provider comes from a
    custom entry that gives both a cost and a latency; no name is
    registered twice. *)
Theorem initializeProviders_registry (custom : option (dict PartialProvider)) :
  exists extra,
    keys (initializeProviders custom)
      = (["openai"; "anthropic"; "cloudflare"; "groq"; "together"; "local"]
         ++ extra)%list /\
    NoDup (keys (initializeProviders custom)) /\
    (forall n d, lookup n defaults = Some d ->
                 lookup n (initializeProviders custom)
                 = Some (merge d (custom_of custom n))) /\
    (forall n, In n extra ->
               exists cs c, custom = Some cs /\ In (n, c) cs /\
                            p_cost c <> None /\ p_latency c <> None).
Proof.
  unfold initializeProviders. cbv zeta.
  set (merged := map (fun e => (fst e, merge (snd e) (custom_of custom (fst e))))
                     defaults).
  assert (Hkeys : keys merged
                  = ["openai"; "anthropic"; "cloudflare"; "groq"; "together";
                     "local"]).
  { unfold merged.
    rewrite (keys_map_values (fun n p => merge p (custom_of custom n))).
    reflexivity. }
  assert (Hnd : NoDup (keys merged)).
  { rewrite Hkeys.
    repeat constructor; simpl; intuition discriminate. }
  assert (Hlook : forall n d, lookup n defaults = Some d ->
                              lookup n merged = Some (merge d (custom_of custom n))).
  { intros n d Hd. unfold merged.
    rewrite (lookup_map_values (fun n p => merge p (custom_of custom n))).
    now rewrite Hd. }
  destruct custom as [cs|].
  - destruct (add_custom_keys cs merged Hnd) as (extra & Hk & Hn & He).
    exists extra. rewrite <- Hkeys. repeat split; try assumption.
    + intros n d Hd. apply add_custom_lookup. now apply Hlook.
    + intros n Hn0. destruct (He n Hn0) as (c & H1 & H2 & H3).
      exists cs, c. auto.
  - exists []. rewrite app_nil_r. repeat split; try assumption.
    contradiction.
Qed.

(** *** Lives of a router *)

(** What happens to a router: a request is routed, or the timer runs a
    health check. *)
Inductive Event : Type :=
| Routed (now : Date) (actualLatency : Z) (request : ChatRequest)
| HealthChecked (probes : list bool).

Definition step (r : Router) (ev : Event) : Router :=
  match ev with
  | Routed now lat req => fst (route now lat r req)
  | HealthChecked probes => performHealthCheck probes r
  end.

Definition run (events : list Event) (r : Router) : Router :=
  fold_left step events r.

(** The parts of the router only [makeRequest] writes. *)
Definition config_of (r : Router) : string * limit * limit :=
  (strategy r, dailyBudget r, monthlyBudget r).

Lemma checkBudgetReset_frame now r :
  let r1 := checkBudgetReset now r in
  providers r1 = providers r /\ config_of r1 = config_of r /\
  spending r1 = spending r /\ requestCount r1 = requestCount r /\
  totalTokens r1 = totalTokens r /\
  requestsByProvider r1 = requestsByProvider r /\
  latencies r1 = latencies r.
Proof.
  cbv zeta. unfold checkBudgetReset.
  destruct (negb (date now =? date (lastResetDate r)));
    match goal with |- context [if ?c then _ else _] => destruct c end;
    repeat split.
Qed.

(** The outcome of [route], in one of its two shapes. *)
Lemma route_cases now lat r req :
  let r1 := checkBudgetReset now r in
  (getHealthyProviders r1 = [] /\
   route now lat r req = (r1, Err (JsError "No available providers"))) \/
  (exists p,
     In p (getHealthyProviders r1) /\
     selectProvider r1 (GPTRouterProps.pool r1)
                    (detectSensitive (messages req)) = Some p /\
     route now lat r req
     = (fst (makeRequest lat r1 p req), Ok (snd (makeRequest lat r1 p req)))).
Proof.
  cbv zeta.
  destruct (getHealthyProviders (checkBudgetReset now r)) as [|a l] eqn:E.
  - left. split; [reflexivity|].
    pose proof (GPTRouterProps.route_unfold now lat r req) as H.
    cbv zeta in H. now rewrite H, E.
  - right.
    assert (Hne : getHealthyProviders (checkBudgetReset now r) <> [])
      by (rewrite E; discriminate).
    destruct (GPTRouterProps.route_decides now lat r req Hne)
      as (p & Hsel & Hin & Hr).
    exists p. rewrite <- E. auto.
Qed.

Lemma step_config r ev : config_of (step r ev) = config_of r.
Proof.
  destruct ev as [now lat req|probes]; simpl; [|reflexivity].
  destruct (checkBudgetReset_frame now r) as (_ & Hc & _).
  destruct (route_cases now lat r req) as [[_ Hr]|(p & _ & _ & Hr)];
    rewrite Hr; simpl; exact Hc.
Qed.

Lemma run_config events : forall r, config_of (run events r) = config_of r.
Proof.
  induction events as [|ev events IH]; intros r; simpl; [reflexivity|].
  unfold run in IH. rewrite IH. apply step_config.
Qed.

Lemma filter_all {A : Type} (f : A -> bool) (l : list A) :
  (forall x, In x l -> f x = true) -> filter f l = l.
Proof.
  induction l as [|x l IH]; intros H; simpl; [reflexivity|].
  rewrite (H x (or_introl eq_refl)). f_equal. apply IH.
  intros y Hy. apply H. now right.
Qed.

(** X6.  A daily budget that is absent from the configuration, or set to
    0, is no limit: through the whole life of the router the budget
    filter keeps every candidate. *)
Theorem zero_budget_is_unlimited
        (cfg : RouterConfig) (created : Date) (events : list Event)
        (ps : list Provider) :
  cfg_dailyBudget cfg = None \/
  (exists q, cfg_dailyBudget cfg = Some q /\ (q == 0)%Q) ->
  filterByBudget (run events (new cfg created)) ps = ps.
Proof.
  intros Hcfg.
  assert (Hb : dailyBudget (run events (new cfg created)) = Infinity).
  { pose proof (run_config events (new cfg created)) as Hc.
    unfold config_of in Hc. injection Hc as _ Hd _. rewrite Hd. simpl.
    destruct Hcfg as [->|(q & -> & Hq)]; [reflexivity|].
    simpl. apply Qeq_bool_iff in Hq. now rewrite Hq. }
  unfold filterByBudget. apply filter_all.
  intros x _. now rewrite Hb.
Qed.

Lemma zero_budget_is_unlimited_witness :
  filterByBudget
    (run [Routed GPTRouterProps.jan31 30 (GPTRouterProps.say "hello")]
         (new (mkConfig "fastest" (Some 0%Q) None None) GPTRouterProps.jan31))
    (values defaults)
  = values defaults.
Proof.
  apply (zero_budget_is_unlimited
           (mkConfig "fastest" (Some 0%Q) None None) GPTRouterProps.jan31
           [Routed GPTRouterProps.jan31 30 (GPTRouterProps.say "hello")]
           (values defaults)).
  right. exists 0%Q. split; reflexivity.
Defined.

(** X7.  The budget filter follows the cost: when a provider passes, so
    does every candidate that costs no more. *)
Theorem filterByBudget_keeps_cheaper
        (r : Router) (ps : list Provider) (p q : Provider) :
  In p (filterByBudget r ps) ->
  In q ps ->
  (cost q <= cost p)%Q ->
  In q (filterByBudget r ps).
Proof.
  unfold filterByBudget. rewrite !filter_In.
  intros [_ Hp] Hq Hle. split; [exact Hq|].
  unfold le_limit in *. destruct (dailyBudget r) as [b|]; [|reflexivity].
  apply Qle_bool_iff in Hp. apply Qle_bool_iff.
  unfold estimatedTokens in *.
  apply Qle_trans with (y := (dailySpent r + cost p * 500 / 1000)%Q);
    [|exact Hp].
  apply Qplus_le_r. unfold Qdiv.
  apply Qmult_le_compat_r; [|discriminate].
  apply Qmult_le_compat_r; [exact Hle|discriminate].
Qed.

Lemma filterByBudget_keeps_cheaper_witness :
  In (mkProvider "groq" 0.0001 30 true (Some 0.93%Q) (Some Cloud))
     (filterByBudget GPTRouterProps.vault_router
                     (values (providers GPTRouterProps.vault_router))).
Proof.
  apply (filterByBudget_keeps_cheaper
           GPTRouterProps.vault_router
           (values (providers GPTRouterProps.vault_router))
           (mkProvider "openai" 0.015 200 true (Some 0.99%Q) (Some Cloud))
           (mkProvider "groq" 0.0001 30 true (Some 0.93%Q) (Some Cloud))).
  - vm_compute. left. reflexivity.
  - vm_compute. do 3 right. left. reflexivity.
  - vm_compute. discriminate.
Defined.

(** *** What a call of [route] does *)

Lemma route_two_outcomes
        (now : Date) (lat : Z) (r : Router) (req : ChatRequest) :
  ((forall p, In p (values (providers r)) -> available p = false) /\
   route now lat r req
   = (checkBudgetReset now r, Err (JsError "No available providers"))) \/
  (exists r' resp p,
     route now lat r req = (r', Ok resp) /\
     In p (values (providers r)) /\
     available p = true /\
     r_provider (routing resp) = name p).
Proof.
  destruct (route_cases now lat r req) as [[He Hr]|(p & Hin & _ & Hr)].
  - left. split; [|exact Hr].
    unfold getHealthyProviders in He.
    rewrite GPTRouterProps.checkBudgetReset_providers in He.
    intros p Hp. destruct (available p) eqn:Ea; [|reflexivity].
    assert (H : In p (filter available (values (providers r))))
      by (apply filter_In; now split).
    rewrite He in H. contradiction.
  - right.
    unfold getHealthyProviders in Hin.
    rewrite GPTRouterProps.checkBudgetReset_providers in Hin.
    apply filter_In in Hin. destruct Hin as [Hin Ha].
    eexists _, _, p. split; [exact Hr|]. repeat split; assumption.
Qed.

(** X8.  [route] has two outcomes.  When no provider is available it
    fails with [No available providers], and the router is as the lazy
    budget reset left it.  Otherwise it returns a decision, and the
    provider decided for is a registered provider that is available. *)
Theorem route_outcomes
        (now : Date) (lat : Z) (r : Router) (req : ChatRequest) :
  ((forall p, In p (values (providers r)) -> available p = false) /\
   route now lat r req
   = (checkBudgetReset now r, Err (JsError "No available providers"))) \/
  (exists r' resp p,
     route now lat r req = (r', Ok resp) /\
     In p (values (providers r)) /\
     available p = true /\
     r_provider (routing resp) = name p).
Proof. apply route_two_outcomes. Qed.

(** X9.  A call of [route] that returns a decision counts one request and
    the estimated tokens, appends the measured latency, and adds the cost
    of the decision to the daily total, to the monthly total (both as the
    lazy reset left them) and to the spending of the chosen provider; the
    provider table, the strategy and the budgets are not changed. *)
Theorem route_accounting
        (now : Date) (lat : Z) (r r' : Router) (req : ChatRequest)
        (resp : ChatResponse) :
  route now lat r req = (r', Ok resp) ->
  let r1 := checkBudgetReset now r in
  let c := r_cost (routing resp) in
  requestCount r' = requestCount r + 1 /\
  totalTokens r' = totalTokens r + estimateTokens (messages req) /\
  total_tokens resp = estimateTokens (messages req) /\
  latencies r' = (latencies r ++ [lat])%list /\
  r_latency (routing resp) = lat /\
  dailySpent r' = (dailySpent r1 + c)%Q /\
  monthlySpent r' = (monthlySpent r1 + c)%Q /\
  lookup (r_provider (routing resp)) (spending r')
  = Some (over (lookup (r_provider (routing resp)) (spending r)) 0 + c)%Q /\
  lookup (r_provider (routing resp)) (requestsByProvider r')
  = Some (over (lookup (r_provider (routing resp)) (requestsByProvider r)) 0 + 1) /\
  providers r' = providers r /\
  config_of r' = config_of r.
Proof.
  intros Hroute. cbv zeta.
  destruct (checkBudgetReset_frame now r)
    as (Hp & Hc & Hs & Hn & Ht & Hrq & Hl).
  destruct (route_cases now lat r req) as [[_ Hr]|(p & _ & _ & Hr)];
    rewrite Hr in Hroute; [discriminate|].
  injection Hroute as <- <-. simpl.
  rewrite Hn, Ht, Hl, Hs, Hrq, Hp.
  unfold add_to, bump. rewrite !lookup_set_same.
  repeat split. exact Hc.
Qed.

Lemma route_accounting_witness :
  let r := GPTRouterProps.cheapest_router in
  let out := route GPTRouterProps.jan31 100 r (GPTRouterProps.say "hello") in
  requestCount (fst out) = requestCount r + 1 /\
  totalTokens (fst out)
  = totalTokens r + estimateTokens (messages (GPTRouterProps.say "hello")) /\
  latencies (fst out) = (latencies r ++ [100])%list.
Proof.
  cbv zeta.
  destruct (route_accounting
              GPTRouterProps.jan31 100 GPTRouterProps.cheapest_router
              (fst (route GPTRouterProps.jan31 100 GPTRouterProps.cheapest_router
                          (GPTRouterProps.say "hello")))
              (GPTRouterProps.say "hello")
              (mkResponse "local" 2 (mkRouting "local" 0.000 100 "cheapest")))
    as (H1 & H2 & _ & H4 & _).
  - reflexivity.
  - repeat split; assumption.
Defined.

(** *** Counters *)






(** The requests the router has decided, among the events of its life. *)
Fixpoint decided (events : list Event) (r : Router) : Z :=
  match events with
  | [] => 0
  | ev :: events' =>
      (match ev with
       | Routed now lat req => if is_ok (snd (route now lat r req)) then 1 else 0
       | HealthChecked _ => 0
       end) + decided events' (step r ev)
  end.



(** *** Spend within a day *)

(** Every request of the trace arrives on the day and month the router
    was created. *)
Definition same_day (created : Date) (events : list Event) : Prop :=
  Forall (fun ev => match ev with
                    | Routed now _ _ =>
                        date now = date created /\ month now = month created
                    | HealthChecked _ => True
                    end) events.

Definition spend_agrees (created : Date) (r : Router) : Prop :=
  lastResetDate r = created /\ dailySpent r = monthlySpent r.

Lemma checkBudgetReset_same_date now r :
  date now = date (lastResetDate r) ->
  month now = month (lastResetDate r) ->
  checkBudgetReset now r = r.
Proof.
  intros Hd Hm. unfold checkBudgetReset.
  rewrite Hd, Z.eqb_refl. simpl. rewrite Hm, Z.eqb_refl. reflexivity.
Qed.

Lemma step_spend created r ev :
  match ev with
  | Routed now _ _ => date now = date created /\ month now = month created
  | HealthChecked _ => True
  end ->
  spend_agrees created r -> spend_agrees created (step r ev).
Proof.
  intros Hev (Hl & Hd).
  destruct ev as [now lat req|probes]; cbn [step];
    [|unfold spend_agrees; simpl; auto].
  destruct Hev as [Hdate Hmonth].
  assert (Hreset : checkBudgetReset now r = r)
    by (apply checkBudgetReset_same_date; rewrite Hl; assumption).
  destruct (route_cases now lat r req) as [[_ Hr]|(p & _ & _ & Hr)];
    rewrite Hr, Hreset; cbn [fst]; [now split|].
  unfold spend_agrees, makeRequest. cbv zeta.
  cbn [fst lastResetDate dailySpent monthlySpent].
  split; [exact Hl|]. now rewrite Hd.
Qed.

Lemma run_spend created events :
  forall r, same_day created events ->
            spend_agrees created r -> spend_agrees created (run events r).
Proof.
  induction events as [|ev events IH]; intros r Hday H; simpl; [exact H|].
  inversion Hday as [|? ? Hev Hrest]; subst.
  apply IH; [exact Hrest|]. now apply step_spend.
Qed.

(** X11.  While every request arrives on the day the router was created,
    the daily total and the monthly total are the same number: both start
    at 0 and get the cost of each decision added, in the same order, and
    neither is reset. *)
Theorem spend_totals_agree_within_day
        (cfg : RouterConfig) (created : Date) (events : list Event) :
  same_day created events ->
  let r := run events (new cfg created) in
  dailySpent r = monthlySpent r /\
  lastResetDate r = created.
Proof.
  intros Hday. cbv zeta.
  assert (H0 : spend_agrees created (new cfg created))
    by (split; reflexivity).
  destruct (run_spend created events _ Hday H0) as (H1 & H2).
  auto.
Qed.

Definition two_requests : list Event :=
  [ Routed GPTRouterProps.jan31 30 (GPTRouterProps.say "weather today");
    HealthChecked [true; true; true; true; true; true];
    Routed GPTRouterProps.jan31 45 (GPTRouterProps.say "and tomorrow?") ].

Lemma spend_totals_agree_within_day_witness :
  let r := run two_requests
               (new (mkConfig "fastest" None None None) GPTRouterProps.jan31) in
  dailySpent r = monthlySpent r /\
  lastResetDate r = GPTRouterProps.jan31.
Proof.
  apply (spend_totals_agree_within_day
           (mkConfig "fastest" None None None) GPTRouterProps.jan31
           two_requests).
  repeat constructor.
Defined.

(** *** The lazy reset *)

(** X12.  The lazy budget reset is idempotent: a second reset at the same
    clock reading changes nothing.  It writes the daily total, the monthly
    total and the remembered date only. *)
Theorem checkBudgetReset_idempotent (now : Date) (r : Router) :
  checkBudgetReset now (checkBudgetReset now r) = checkBudgetReset now r /\
  providers (checkBudgetReset now r) = providers r /\
  spending (checkBudgetReset now r) = spending r /\
  requestsByProvider (checkBudgetReset now r) = requestsByProvider r /\
  requestCount (checkBudgetReset now r) = requestCount r /\
  totalTokens (checkBudgetReset now r) = totalTokens r /\
  latencies (checkBudgetReset now r) = latencies r /\
  config_of (checkBudgetReset now r) = config_of r.
Proof.
  split.
  - destruct (Z.eq_dec (date now) (date (lastResetDate r))) as [Hd|Hd].
    + destruct (Z.eq_dec (month now) (month (lastResetDate r))) as [Hm|Hm].
      * now rewrite !(checkBudgetReset_same_date now r Hd Hm).
      * assert (H : checkBudgetReset now r = set_monthlySpent 0 r).
        { unfold checkBudgetReset. rewrite Hd, Z.eqb_refl. simpl.
          apply Z.eqb_neq in Hm. now rewrite Hm. }
        rewrite H. unfold checkBudgetReset. simpl.
        rewrite Hd, Z.eqb_refl. simpl.
        apply Z.eqb_neq in Hm. now rewrite Hm.
    + rewrite (GPTRouterProps.checkBudgetReset_new_day now r Hd).
      now apply checkBudgetReset_same_date.
  - destruct (checkBudgetReset_frame now r) as (H1 & H2 & H3 & H4 & H5 & H6 & H7).
    repeat split; assumption.
Qed.

(** *** Health checks *)

Definition identity_of (p : Provider)
  : string * Q * Q * option Q * option Privacy :=
  (name p, cost p, latency p, reliability p, privacy p).

Lemma probe_all_spec (ps : dict Provider) :
  forall probes,
    List.length probes = List.length ps ->
    keys (probe_all ps probes) = keys ps /\
    map available (values (probe_all ps probes)) = probes /\
    map identity_of (values (probe_all ps probes))
    = map identity_of (values ps).
Proof.
  unfold keys, values.
  induction ps as [|[k p] ps IH]; intros probes Hlen.
  - destruct probes; [now repeat split|discriminate].
  - destruct probes as [|b probes]; [discriminate|].
    injection Hlen as Hlen. destruct (IH probes Hlen) as (H1 & H2 & H3).
    simpl. rewrite H1, H2, H3. repeat split.
Qed.

(** X13.  A health check with one probe per provider leaves the names,
    costs, latencies, reliabilities and privacy classes as they were and
    makes each provider available exactly when its probe succeeded; when
    every probe fails, the next request is rejected with
    [No available providers]. *)
Theorem health_check_sets_availability
        (r : Router) (probes : list bool)
        (now : Date) (lat : Z) (req : ChatRequest) :
  List.length probes = List.length (providers r) ->
  let r' := performHealthCheck probes r in
  keys (providers r') = keys (providers r) /\
  map available (values (providers r')) = probes /\
  map identity_of (values (providers r'))
  = map identity_of (values (providers r)) /\
  ((forall b, In b probes -> b = false) ->
   snd (route now lat r' req) = Err (JsError "No available providers")).
Proof.
  intros Hlen. cbv zeta.
  destruct (probe_all_spec (providers r) probes Hlen) as (H1 & H2 & H3).
  split; [exact H1|]. split; [exact H2|]. split; [exact H3|].
  intros Hall.
  destruct (route_two_outcomes now lat (performHealthCheck probes r) req)
    as [[_ Hr]|(r' & resp & p & _ & Hin & Ha & _)].
  - now rewrite Hr.
  - exfalso.
    assert (Hb : In (available p) probes).
    { rewrite <- H2. now apply in_map. }
    apply Hall in Hb. simpl in Ha. congruence.
Qed.

Lemma health_check_sets_availability_witness :
  let r' := performHealthCheck [false; false; false; false; false; false]
                               GPTRouterProps.cheapest_router in
  keys (providers r') = keys (providers GPTRouterProps.cheapest_router) /\
  map available (values (providers r'))
  = [false; false; false; false; false; false] /\
  map identity_of (values (providers r'))
  = map identity_of (values (providers GPTRouterProps.cheapest_router)) /\
  ((forall b, In b [false; false; false; false; false; false] -> b = false) ->
   snd (route GPTRouterProps.jan31 30 r' (GPTRouterProps.say "hello"))
   = Err (JsError "No available providers")).
Proof.
  apply (health_check_sets_availability
           GPTRouterProps.cheapest_router
           [false; false; false; false; false; false]
           GPTRouterProps.jan31 30 (GPTRouterProps.say "hello")).
  reflexivity.
Defined.

(** *** The token estimate *)

Lemma totalChars_app a b :
  GPTRouterProps.totalChars (a ++ b)
  = GPTRouterProps.totalChars a + GPTRouterProps.totalChars b.
Proof. unfold GPTRouterProps.totalChars. now rewrite map_app, sumZ_app. Qed.

Lemma totalChars_nonneg a : 0 <= GPTRouterProps.totalChars a.
Proof.
  unfold GPTRouterProps.totalChars.
  induction a as [|m a IH]; cbn [map]; [unfold sumZ; simpl; lia|].
  rewrite sumZ_cons.
  assert (0 <= strlen (content m)) by (unfold strlen; lia). lia.
Qed.

Lemma totalChars_zero a :
  GPTRouterProps.totalChars a = 0 <-> Forall (fun m => content m = "") a.
Proof.
  unfold GPTRouterProps.totalChars.
  induction a as [|m a IH]; cbn [map].
  - split; [constructor|reflexivity].
  - rewrite sumZ_cons.
    pose proof (totalChars_nonneg a) as Hn.
    unfold GPTRouterProps.totalChars in Hn.
    split.
    + intros H.
      assert (Hpos : 0 <= strlen (content m)) by (unfold strlen; lia).
      assert (Hm : strlen (content m) = 0) by lia.
      constructor.
      * unfold strlen in Hm. destruct (content m); [reflexivity|].
        simpl in Hm. lia.
      * apply IH. lia.
    + intros H. inversion H as [|? ? Hm Ha]; subst.
      rewrite Hm. apply IH in Ha. rewrite Ha. reflexivity.
Qed.

(** X14.  The token estimate of the TypeScript router grows with the
    request and is subadditive: joining two message lists estimates at
    least as much as either part and at most as much as both parts
    together.  It is 0 exactly when every message is empty. *)
Theorem estimateTokens_grows (a b : list Message) :
  estimateTokens a <= estimateTokens (a ++ b) /\
  estimateTokens b <= estimateTokens (a ++ b) /\
  estimateTokens (a ++ b) <= estimateTokens a + estimateTokens b /\
  (estimateTokens a = 0 <-> Forall (fun m => content m = "") a).
Proof.
  rewrite !GPTRouterProps.estimateTokens_totalChars, totalChars_app.
  pose proof (totalChars_nonneg a) as Ha.
  pose proof (totalChars_nonneg b) as Hb.
  rewrite <- totalChars_zero.
  unfold ceil_div4.
  set (x := GPTRouterProps.totalChars a) in *.
  set (y := GPTRouterProps.totalChars b) in *.
  pose proof (Z.div_mod (x + 3) 4 ltac:(lia)).
  pose proof (Z.mod_pos_bound (x + 3) 4 ltac:(lia)).
  pose proof (Z.div_mod (y + 3) 4 ltac:(lia)).
  pose proof (Z.mod_pos_bound (y + 3) 4 ltac:(lia)).
  pose proof (Z.div_mod (x + y + 3) 4 ltac:(lia)).
  pose proof (Z.mod_pos_bound (x + y + 3) 4 ltac:(lia)).
  repeat split; lia.
Qed.

End GPTRouterMore.

(** ** More on the multi-provider EdgeRouter *)

Module EdgeRouterMore.
Import EdgeRouter.

Definition names : list string :=
  ["cloudflare"; "openai"; "anthropic"; "local"; "groq"; "together"].

Lemma lookup_some_keys {V : Type} (k : string) (d : dict V) (v : V) :
  lookup k d = Some v -> In k (keys d).
Proof.
  intros H. destruct (in_dec string_dec k (keys d)) as [Hin|Hnin]; [exact Hin|].
  apply lookup_none_keys in Hnin. congruence.
Qed.



(** X16.  [route] always comes back, with a decision or with an error:
    moving an over-budget request to a cheaper provider cannot go on for
    ever, since each move goes to a strictly cheaper healthy provider:
    one call per registered provider, and one more, is always enough. *)
Theorem route_always_returns (now : Z) (r : Router) (request : JsRequest) :
  exists r' res, route now r request = Some (r', res).
Proof. apply EdgeRouterProps.route_returns. Qed.

(** X17.  [findCheaperAlternative] returns the provider it was given, or
    a healthy provider that is strictly cheaper and the cheapest of all
    healthy providers; it returns the provider it was given exactly when
    no healthy provider is strictly cheaper. *)
Theorem findCheaperAlternative_cheapest (r : Router) (current : string) :
  let alt := findCheaperAlternative r current in
  ((alt = current /\
    forall b, In b (getHealthyProviders r) ->
              (field cost r current <= field cost r b)%Q) \/
   (In alt (getHealthyProviders r) /\
    (field cost r alt < field cost r current)%Q /\
    forall b, In b (getHealthyProviders r) ->
              (field cost r alt <= field cost r b)%Q)).
Proof. apply EdgeRouterProps.alternative_cases. Qed.

Lemma strategy_on_no_provider r s strategyFn :
  strategies s = Some strategyFn ->
  getHealthyProviders r = [] ->
  strategyFn r = None.
Proof.
  unfold strategies. intros Hs He.
  repeat match type of Hs with
         | (if ?b then _ else _) = _ => destruct b
         end;
    try discriminate; injection Hs as <-;
    unfold routeToCheapest, routeToFastest, routeBalanced, routePrivacyFirst,
      routeReliability, routeToCheapest; cbv zeta; rewrite He; reflexivity.
Qed.

(** X18.  The sensitivity check comes before the strategy.  On a router
    with the six built-in providers and a strategy that is none of the
    five, a request that is not sensitive fails and leaves the router as
    it was: with [Unknown strategy] for a name that [Object.prototype]
    does not know either, and for the name of a member of
    [Object.prototype] with a [TypeError] or with [Unknown provider],
    after the member was called as if it were a strategy.  A sensitive
    request is still decided. *)
Theorem unknown_strategy_spares_sensitive
        (now : Z) (r : Router) (plain secret : list JsMessage) :
  keys (providers r) = names ->
  strategies (strategy r) = None ->
  containsSensitive plain = false ->
  containsSensitive secret = true ->
  route now r (mkJsRequest (MessageArray plain))
  = Some (r, Err (match object_prototype (strategy r) with
                  | None => JsError ("Unknown strategy: " ++ strategy r)
                  | Some Throws => JsTypeError
                  | Some (Returns provider) => unknown_provider provider
                  end)) /\
  exists r' d,
    route now r (mkJsRequest (MessageArray secret)) = Some (r', Ok d).
Proof.
  intros Hk Hs Hplain Hsecret. split.
  - unfold route. cbn [js_messages]. rewrite Hplain, Hs.
    destruct (object_prototype (strategy r)) as [[[name|]|]|] eqn:Eo;
      try reflexivity.
    assert (Hnone : lookup name (providers r) = None).
    { apply lookup_none_keys. rewrite Hk. unfold object_prototype in Eo.
      repeat match type of Eo with
             | (if ?b then _ else _) = _ => destruct b
             end;
        try discriminate; injection Eo as <-;
        unfold names; simpl; intuition discriminate. }
    cbn [enough_fuel routeToProvider]. now rewrite Hnone.
  - assert (Hl : exists p, lookup "local" (providers r) = Some p).
    { apply EdgeRouterProps.lookup_key. fold (keys (providers r)).
      rewrite Hk. unfold names. simpl. tauto. }
    destruct Hl as (p & Hp).
    unfold route. cbn [js_messages]. rewrite Hsecret.
    destruct (EdgeRouterProps.routeToProvider_decides
                (enough_fuel r) now r "local" p secret "sensitive_content"
                Hp (EdgeRouterProps.cheaper_bound r "local"))
      as (r' & d & Hr & _).
    eauto.
Qed.

Definition odd_router : Router :=
  new (mkConfig (Some "toString") None None []) 1000.

Lemma unknown_strategy_spares_sensitive_witness :
  route 1005 odd_router (EdgeRouterProps.ask "hello there")
  = Some (odd_router, Err (JsError "Unknown provider: [object Object]")) /\
  exists r' d,
    route 1005 odd_router (EdgeRouterProps.ask "my token") = Some (r', Ok d).
Proof.
  apply (unknown_strategy_spares_sensitive
           1005 odd_router
           [mkJsMessage "user" (CString "hello there")]
           [mkJsMessage "user" (CString "my token")]); reflexivity.
Defined.

(** *** What a call of [route] writes *)

(** The parts of the router a request never writes, and the alerts, which
    only grow. *)
Definition same_setup (r r' : Router) : Prop :=
  providers r' = providers r /\
  strategy r' = strategy r /\
  healthCheck r' = healthCheck r /\
  daily (budgetManager r') = daily (budgetManager r) /\
  monthly (budgetManager r') = monthly (budgetManager r) /\
  startTime (analytics r') = startTime (analytics r) /\
  exists extra,
    alerts (budgetManager r') = (alerts (budgetManager r) ++ extra)%list.

(** One request of cost [c] booked on provider [name]. *)
Definition booked (r r' : Router) (name : string) (c : Q) : Prop :=
  requests (analytics r')
  = set name (or_else (lookup name (requests (analytics r))) 0 + 1)
        (requests (analytics r)) /\
  costs (analytics r')
  = set name (or_else (lookup name (costs (analytics r))) 0 + c)%Q
        (costs (analytics r)) /\
  spent (budgetManager r')
  = set name (or_else (lookup name (spent (budgetManager r))) 0 + c)%Q
        (spent (budgetManager r)).

(** Nothing booked. *)
Definition unbooked (r r' : Router) : Prop :=
  requests (analytics r') = requests (analytics r) /\
  costs (analytics r') = costs (analytics r) /\
  spent (budgetManager r') = spent (budgetManager r).

Lemma same_setup_refl r : same_setup r r.
Proof.
  unfold same_setup. repeat split. exists []. now rewrite app_nil_r.
Qed.

Lemma same_setup_trans r1 r2 r3 :
  same_setup r1 r2 -> same_setup r2 r3 -> same_setup r1 r3.
Proof.
  unfold same_setup.
  intros (A1 & A2 & A3 & A4 & A5 & A6 & e1 & A7)
         (B1 & B2 & B3 & B4 & B5 & B6 & e2 & B7).
  repeat split; try congruence.
  exists (e1 ++ e2)%list. rewrite B7, A7. now rewrite app_assoc.
Qed.

Lemma checkBudget_effect now r name c :
  same_setup r (fst (checkBudget now r name c)) /\
  unbooked r (fst (checkBudget now r name c)).
Proof.
  unfold checkBudget. cbv zeta.
  match goal with |- context [if ?b then _ else _] => destruct b end;
    cbn [fst].
  - split; [|now repeat split].
    unfold same_setup. simpl. repeat split. eauto.
  - split; [apply same_setup_refl|now repeat split].
Qed.

Lemma trackRequest_effect r name c :
  same_setup r (trackRequest r name c) /\ booked r (trackRequest r name c) name c.
Proof.
  unfold trackRequest, same_setup, booked. simpl. repeat split.
  exists []. now rewrite app_nil_r.
Qed.

Lemma booked_after_unbooked r r1 r2 name c :
  unbooked r r1 -> booked r1 r2 name c -> booked r r2 name c.
Proof.
  unfold unbooked, booked.
  intros (A1 & A2 & A3) (B1 & B2 & B3).
  rewrite <- A1, <- A2, <- A3. auto.
Qed.

Lemma unbooked_trans r r1 r2 : unbooked r r1 -> unbooked r1 r2 -> unbooked r r2.
Proof.
  unfold unbooked. intros (A1 & A2 & A3) (B1 & B2 & B3).
  repeat split; congruence.
Qed.

(** The outcome of [routeToProvider] and what it wrote. *)
Definition outcome (r r' : Router) (name : string) (msgs : list JsMessage)
           (why : string) (res : result Routing) : Prop :=
  match res with
  | Ok d =>
      exists p,
        lookup (provider d) (providers r) = Some p /\
        r_cost d = (inject_Z (estimateTokens msgs) * cost p / 1000)%Q /\
        r_latency d = latency p /\
        ((provider d = name /\ reason d = why) \/
         (In (provider d) (EdgeRouterProps.cheaper r name) /\
          reason d = "budget_exceeded")) /\
        booked r r' (provider d) (r_cost d)
  | Err e =>
      e = unknown_provider (Some name) /\
      lookup name (providers r) = None /\
      r' = r
  end.

Lemma routeToProvider_effect fuel :
  forall now r name msgs why r' res,
    (List.length (EdgeRouterProps.cheaper r name) < fuel)%nat ->
    routeToProvider fuel now r (Some name) msgs why = Some (r', res) ->
    same_setup r r' /\ outcome r r' name msgs why res.
Proof.
  induction fuel as [|fuel IH]; intros now r name msgs why r' res Hfuel Hr;
    [discriminate|].
  cbn [routeToProvider] in Hr.
  destruct (lookup name (providers r)) as [p|] eqn:Hp.
  2:{ injection Hr as <- <-. split; [apply same_setup_refl|].
      now repeat split. }
  cbv zeta in Hr.
  match type of Hr with
  | context [checkBudget ?a ?b ?c ?d] =>
      destruct (checkBudget_effect a b c d) as [Hset Hunb];
      destruct (checkBudget a b c d) as [r1 fits]
  end.
  cbn [fst] in Hset, Hunb.
  assert (Hps : providers r1 = providers r) by apply Hset.
  assert (Hstay : forall d0,
             Some (trackRequest r1 name (r_cost d0), Ok d0) = Some (r', res) ->
             provider d0 = name -> reason d0 = why ->
             r_cost d0 = (inject_Z (estimateTokens msgs) * cost p / 1000)%Q ->
             r_latency d0 = latency p ->
             same_setup r r' /\ outcome r r' name msgs why res).
  { intros d0 Heq H1 H2 H3 H4. injection Heq as <- <-.
    destruct (trackRequest_effect r1 name (r_cost d0)) as [Hs2 Hb2].
    split; [now apply same_setup_trans with (r2 := r1)|].
    cbn [outcome]. exists p. rewrite H1.
    split; [exact Hp|]. split; [exact H3|]. split; [exact H4|].
    split; [now left|].
    now apply booked_after_unbooked with (r1 := r1). }
  destruct fits.
  - rewrite String.eqb_refl in Hr. cbn [negb] in Hr.
    refine (Hstay (mkRouting name why _ (latency p)) Hr _ _ _ _); reflexivity.
  - destruct (String.eqb (findCheaperAlternative r1 name) name) eqn:E;
      cbn [negb] in Hr;
      [refine (Hstay (mkRouting name why _ (latency p)) Hr _ _ _ _);
       reflexivity|].
    destruct (EdgeRouterProps.findCheaperAlternative_spec r1 name)
      as [Heq|Hin]; [apply String.eqb_neq in E; congruence|].
    rewrite (EdgeRouterProps.cheaper_same_providers r r1 name Hps) in Hin.
    set (alt := findCheaperAlternative r1 name) in *.
    assert (Hfuel' : (List.length (EdgeRouterProps.cheaper r1 alt) < fuel)%nat).
    { rewrite (EdgeRouterProps.cheaper_same_providers r r1 alt Hps).
      pose proof (EdgeRouterProps.cheaper_shrinks r name alt Hin). lia. }
    destruct (IH now r1 alt msgs "budget_exceeded" r' res Hfuel' Hr)
      as [Hs2 Hout].
    split; [now apply same_setup_trans with (r2 := r1)|].
    destruct res as [d|e]; cbn [outcome] in *.
    + destruct Hout as (q & Hq & Hc & Hl & Hwho & Hb).
      exists q. rewrite <- Hps. split; [exact Hq|]. split; [exact Hc|].
      split; [exact Hl|]. split.
      * right. destruct Hwho as [[H1 H2]|[H1 H2]]; split; try assumption.
        -- now rewrite H1.
        -- rewrite (EdgeRouterProps.cheaper_same_providers r r1 alt Hps) in H1.
           now apply EdgeRouterProps.cheaper_trans with (a := alt).
      * now apply booked_after_unbooked with (r1 := r1).
    + exfalso. destruct Hout as (_ & Hnone & _).
      destruct (EdgeRouterProps.healthy_is_provider r alt
                  (proj1 (EdgeRouterProps.cheaper_healthy _ _ _ Hin)))
        as (q & Hq).
      rewrite Hps in Hnone. congruence.
Qed.

(** X19.  When no provider is healthy, a request that is not sensitive
    fails with [Unknown provider: undefined] under every known strategy,
    and the router is left as it was; a sensitive request is decided for
    [local] all the same, with reason [sensitive_content], whatever the
    health of [local] and whatever the budget. *)
Theorem no_healthy_provider
        (now : Z) (r : Router) (plain secret : list JsMessage)
        (strategyFn : Router -> option string) (p : ProviderConfig) :
  getHealthyProviders r = [] ->
  strategies (strategy r) = Some strategyFn ->
  containsSensitive plain = false ->
  containsSensitive secret = true ->
  lookup "local" (providers r) = Some p ->
  route now r (mkJsRequest (MessageArray plain))
  = Some (r, Err (JsError "Unknown provider: undefined")) /\
  exists r',
    route now r (mkJsRequest (MessageArray secret))
    = Some (r', Ok (mkRouting "local" "sensitive_content"
                              (inject_Z (estimateTokens secret) * cost p / 1000)%Q
                              (latency p))).
Proof.
  intros He Hs Hplain Hsecret Hp. split.
  - unfold route. cbn [js_messages]. rewrite Hplain, Hs.
    now rewrite (strategy_on_no_provider r _ _ Hs He).
  - unfold route. cbn [js_messages]. rewrite Hsecret.
    destruct (EdgeRouterProps.routeToProvider_returns
                (enough_fuel r) now r "local" secret "sensitive_content"
                (EdgeRouterProps.cheaper_bound r "local")) as (r' & res & Hr).
    destruct (routeToProvider_effect _ _ _ _ _ _ _ _
                (EdgeRouterProps.cheaper_bound r "local") Hr) as [_ Hout].
    exists r'. rewrite Hr. do 2 f_equal.
    destruct res as [d|e]; cbn [outcome] in Hout.
    + destruct Hout as (q & Hq & Hc & Hl & Hwho & _).
      destruct Hwho as [[H1 H2]|[H1 _]].
      * rewrite H1, Hp in Hq. injection Hq as <-.
        destruct d as [dp dr dc dl]. simpl in *. now subst.
      * apply EdgeRouterProps.cheaper_healthy in H1.
        rewrite He in H1. destruct H1 as [[] _].
    + destruct Hout as (_ & Hnone & _). congruence.
Qed.

(** All providers down, as after failed health checks. *)
Definition dark_router : Router :=
  new (mkConfig (Some "fastest") None None
                (map (fun n => (n, mkOverrides None None None None (Some Unhealthy)))
                     names))
      1000.

Lemma no_healthy_provider_witness :
  route 1005 dark_router (EdgeRouterProps.ask "hello there")
  = Some (dark_router, Err (JsError "Unknown provider: undefined")) /\
  exists r',
    route 1005 dark_router (EdgeRouterProps.ask "my token")
    = Some (r', Ok (mkRouting "local" "sensitive_content"
                      (inject_Z (estimateTokens
                                   [mkJsMessage "user" (CString "my token")])
                       * cost (mkProvider 0 100 1.0 Local Unhealthy) / 1000)%Q
                      (latency (mkProvider 0 100 1.0 Local Unhealthy)))).
Proof.
  apply (no_healthy_provider
           1005 dark_router
           [mkJsMessage "user" (CString "hello there")]
           [mkJsMessage "user" (CString "my token")]
           routeToFastest
           (mkProvider 0 100 1.0 Local Unhealthy)); reflexivity.
Defined.

Lemma route_effect
        (now : Z) (r r' : Router) (request : JsRequest)
        (res : result Routing) :
  route now r request = Some (r', res) ->
  same_setup r r' /\
  match res with
  | Ok d =>
      exists msgs p,
        js_messages request = MessageArray msgs /\
        lookup (provider d) (providers r) = Some p /\
        r_cost d = (inject_Z (estimateTokens msgs) * cost p / 1000)%Q /\
        r_latency d = latency p /\
        booked r r' (provider d) (r_cost d)
  | Err _ => unbooked r r'
  end.
Proof.
  unfold route. intros Hr.
  assert (Hnone : forall e, Some (r, @Err Routing e) = Some (r', res) ->
                            same_setup r r' /\
                            match res with
                            | Ok d =>
                                exists msgs p,
                                  js_messages request = MessageArray msgs /\
                                  lookup (provider d) (providers r) = Some p /\
                                  r_cost d = (inject_Z (estimateTokens msgs)
                                              * cost p / 1000)%Q /\
                                  r_latency d = latency p /\
                                  booked r r' (provider d) (r_cost d)
                            | Err _ => unbooked r r'
                            end).
  { intros e He. injection He as <- <-.
    split; [apply same_setup_refl|now repeat split]. }
  assert (Hcall : forall name msgs why,
             js_messages request = MessageArray msgs ->
             routeToProvider (enough_fuel r) now r (Some name) msgs why
             = Some (r', res) ->
             same_setup r r' /\
             match res with
             | Ok d =>
                 exists msgs p,
                   js_messages request = MessageArray msgs /\
                   lookup (provider d) (providers r) = Some p /\
                   r_cost d = (inject_Z (estimateTokens msgs)
                               * cost p / 1000)%Q /\
                   r_latency d = latency p /\
                   booked r r' (provider d) (r_cost d)
             | Err _ => unbooked r r'
             end).
  { intros name msgs why Hm Hcall.
    destruct (routeToProvider_effect _ _ _ _ _ _ _ _
                (EdgeRouterProps.cheaper_bound r name) Hcall) as [Hs Hout].
    split; [exact Hs|].
    destruct res as [d|e]; cbn [outcome] in Hout.
    - destruct Hout as (q & Hq & Hc & Hl & _ & Hb).
      exists msgs, q. auto.
    - destruct Hout as (_ & _ & ->). now repeat split. }
  destruct (js_messages request) as [| |msgs] eqn:Hm;
    [now apply (Hnone _ Hr)|now apply (Hnone _ Hr)|].
  destruct (containsSensitive msgs).
  - now apply (Hcall "local" msgs "sensitive_content").
  - assert (Hany : forall first,
               routeToProvider (enough_fuel r) now r first msgs (strategy r)
               = Some (r', res) ->
               same_setup r r' /\
               match res with
               | Ok d =>
                   exists msgs p,
                     js_messages request = MessageArray msgs /\
                     lookup (provider d) (providers r) = Some p /\
                     r_cost d = (inject_Z (estimateTokens msgs)
                                 * cost p / 1000)%Q /\
                     r_latency d = latency p /\
                     booked r r' (provider d) (r_cost d)
               | Err _ => unbooked r r'
               end).
    { intros [name|] Hc.
      - rewrite Hm. now apply (Hcall name msgs (strategy r)).
      - cbn [enough_fuel routeToProvider] in Hc. rewrite Hm.
        now apply (Hnone _ Hc). }
    rewrite Hm in Hany.
    destruct (strategies (strategy r)) as [strategyFn|];
      [now apply (Hany (strategyFn r))|].
    destruct (object_prototype (strategy r)) as [[first|]|];
      [now apply (Hany first)|now apply (Hnone _ Hr)|now apply (Hnone _ Hr)].
Qed.

(** X20.  A call of [route] never writes the provider table, the
    strategy, the health records, the budget limits or the start time,
    and it only appends to the alerts.  A decision books one request and
    its cost on the provider decided for, in the analytics and in the
    spend table; the cost is the token estimate times that provider's cost
    over 1000 and the latency is that provider's.  A failure books
    nothing. *)
Theorem route_writes
        (now : Z) (r r' : Router) (request : JsRequest)
        (res : result Routing) :
  route now r request = Some (r', res) ->
  same_setup r r' /\
  match res with
  | Ok d =>
      exists msgs p,
        js_messages request = MessageArray msgs /\
        lookup (provider d) (providers r) = Some p /\
        r_cost d = (inject_Z (estimateTokens msgs) * cost p / 1000)%Q /\
        r_latency d = latency p /\
        booked r r' (provider d) (r_cost d)
  | Err _ => unbooked r r'
  end.
Proof. apply route_effect. Qed.

Lemma route_writes_witness :
  same_setup EdgeRouterProps.costly_local_router
    (trackRequest
       (fst (checkBudget 1005 EdgeRouterProps.costly_local_router "groq"
                         0.0000003))
       "groq" 0.0000003) /\
  exists msgs p,
    js_messages (EdgeRouterProps.ask "hello there") = MessageArray msgs /\
    lookup "groq" (providers EdgeRouterProps.costly_local_router) = Some p /\
    (0.0000003 = inject_Z (estimateTokens msgs) * cost p / 1000)%Q /\
    30%Q = latency p /\
    booked EdgeRouterProps.costly_local_router
      (trackRequest
         (fst (checkBudget 1005 EdgeRouterProps.costly_local_router "groq"
                           0.0000003))
         "groq" 0.0000003)
      "groq" 0.0000003.
Proof.
  apply (route_writes
           1005 EdgeRouterProps.costly_local_router
           (trackRequest
              (fst (checkBudget 1005 EdgeRouterProps.costly_local_router "groq"
                                0.0000003))
              "groq" 0.0000003)
           (EdgeRouterProps.ask "hello there")
           (Ok (mkRouting "groq" "cheapest" 0.0000003 30))).
  reflexivity.
Defined.

(** *** Lives of a router *)

Inductive Event : Type :=
| Routed (now : Z) (request : JsRequest)
| Probed (isHealthy : bool) (now : Z) (name : string).

Definition step (r : Router) (ev : Event) : Router :=
  match ev with
  | Routed now request =>
      match route now r request with
      | Some (r', _) => r'
      | None => r
      end
  | Probed isHealthy now name => checkProviderHealth isHealthy now r name
  end.

Definition run (events : list Event) (r : Router) : Router :=
  fold_left step events r.

(** The requests decided among the events. *)
Fixpoint decided (events : list Event) (r : Router) : Z :=
  match events with
  | [] => 0
  | ev :: events' =>
      (match ev with
       | Routed now request =>
           match route now r request with
           | Some (_, Ok _) => 1
           | _ => 0
           end
       | Probed _ _ _ => 0
       end) + decided events' (step r ev)
  end.

(** The cost booked for a provider in the analytics is the amount booked
    for it in the spend table; a provider without an entry counts for 0. *)
Definition books_agree (r : Router) : Prop :=
  forall name,
    or_else (lookup name (costs (analytics r))) 0%Q
    = or_else (lookup name (spent (budgetManager r))) 0%Q.

Lemma books_agree_set r name (c : Q) costs' spent' :
  books_agree r ->
  costs' = set name (or_else (lookup name (costs (analytics r))) 0 + c)%Q
               (costs (analytics r)) ->
  spent' = set name (or_else (lookup name (spent (budgetManager r))) 0 + c)%Q
               (spent (budgetManager r)) ->
  forall n, or_else (lookup n costs') 0%Q = or_else (lookup n spent') 0%Q.
Proof.
  intros H -> -> n.
  destruct (string_dec name n) as [<-|Hne].
  - rewrite !lookup_set_same. cbn [or_else]. now rewrite (H name).
  - rewrite !lookup_set_other by exact Hne. apply H.
Qed.

Lemma step_books r ev : books_agree r -> books_agree (step r ev).
Proof.
  intros H.
  destruct ev as [now request|isHealthy now name]; cbn [step].
  - destruct (route now r request) as [[r' res]|] eqn:Hr; [|exact H].
    destruct (route_effect now r r' request res Hr) as [_ Hout].
    destruct res as [d|e].
    + destruct Hout as (msgs & p & _ & _ & _ & _ & (_ & Hc & Hs)).
      unfold books_agree.
      now apply (books_agree_set r (provider d) (r_cost d)).
    + destruct Hout as (_ & Hc & Hs). unfold books_agree.
      now rewrite Hc, Hs.
  - unfold checkProviderHealth. cbv zeta.
    destruct (negb isHealthy);
      [match goal with |- context [if ?b then _ else _] => destruct b end|];
      exact H.
Qed.

Lemma step_requests r ev :
  sumZ (values (requests (analytics (step r ev))))
  = sumZ (values (requests (analytics r))) + decided [ev] r.
Proof.
  destruct ev as [now request|isHealthy now name]; cbn [step decided].
  - destruct (route now r request) as [[r' res]|] eqn:Hr; [|lia].
    destruct (route_effect now r r' request res Hr) as [_ Hout].
    destruct res as [d|e].
    + destruct Hout as (msgs & p & _ & _ & _ & _ & (Hn & _ & _)).
      rewrite Hn. unfold or_else. rewrite sumZ_set_add. lia.
    + destruct Hout as (Hn & _ & _). rewrite Hn. lia.
  - unfold checkProviderHealth. cbv zeta.
    destruct (negb isHealthy);
      [match goal with |- context [if ?b then _ else _] => destruct b end|];
      simpl; lia.
Qed.

Lemma run_books events :
  forall r, books_agree r -> books_agree (run events r).
Proof.
  induction events as [|ev events IH]; intros r H; simpl; [exact H|].
  apply IH. now apply step_books.
Qed.

Lemma run_requests events :
  forall r, sumZ (values (requests (analytics (run events r))))
            = sumZ (values (requests (analytics r))) + decided events r.
Proof.
  induction events as [|ev events IH]; intros r; [simpl; lia|].
  change (run (ev :: events) r) with (run events (step r ev)).
  rewrite IH, step_requests. cbn [decided]. lia.
Qed.

Lemma initial_spend_zero {V : Type} (ps : dict V) (name : string) :
  or_else (lookup name (map (fun e => (fst e, 0%Q)) ps)) 0%Q = 0%Q.
Proof.
  induction ps as [|[k v] ps IH]; [reflexivity|].
  cbn [map lookup fst]. destruct (String.eqb name k); [reflexivity|exact IH].
Qed.

(** X21.  Through the whole life of a router, whatever requests and
    probes come, the summary's total of requests is the number of requests
    decided, and the cost the summary reports for a provider is the
    amount the spend table of the budget holds for it (an absent entry
    counting for 0): both get the cost of each decision for that provider
    added, in the same order. *)
Theorem summary_totals
        (config : Config) (created : Z) (events : list Event) (now : Z)
        (name : string) :
  let r := run events (new config created) in
  let s := getAnalytics now r in
  totalRequests s = decided events (new config created) /\
  or_else (lookup name (costsByProvider s)) 0%Q
  = or_else (lookup name (spent (budgetManager r))) 0%Q.
Proof.
  cbv zeta. unfold getAnalytics. cbv zeta.
  cbn [totalRequests costsByProvider].
  split.
  - rewrite run_requests. reflexivity.
  - apply run_books. intros n. unfold new, initializeSpentTracking.
    cbn [analytics costs budgetManager spent lookup or_else].
    symmetry. apply initial_spend_zero.
Qed.

(** *** Health checks *)

(** X22.  A probe of one provider leaves every other provider alone:
    its status and its failure count stay as they were.  It does not
    write the strategy, the budget or the analytics, and it adds or
    removes no provider. *)
Theorem probe_touches_one_provider
        (isHealthy : bool) (now : Z) (r : Router) (name other : string) :
  name <> other ->
  let r' := checkProviderHealth isHealthy now r name in
  lookup other (providers r') = lookup other (providers r) /\
  lookup other (failures (healthCheck r'))
  = lookup other (failures (healthCheck r)) /\
  keys (providers r') = keys (providers r) /\
  strategy r' = strategy r /\
  budgetManager r' = budgetManager r /\
  analytics r' = analytics r.
Proof.
  intros Hne. cbv zeta. unfold checkProviderHealth. cbv zeta.
  assert (Hst : forall s, lookup other (set_status name s (providers r))
                          = lookup other (providers r)).
  { intros s. unfold set_status.
    destruct (lookup name (providers r)); [|reflexivity].
    now apply lookup_set_other. }
  assert (Hk : forall s, keys (set_status name s (providers r))
                         = keys (providers r)).
  { intros s. unfold set_status.
    destruct (lookup name (providers r)) as [p|] eqn:E; [|reflexivity].
    apply keys_set_present. now apply lookup_some_keys with (v := p). }
  destruct (negb isHealthy);
    [match goal with |- context [if ?b then _ else _] => destruct b end|];
    cbn [providers healthCheck failures strategy budgetManager analytics];
    rewrite ?Hst, ?Hk, ?(lookup_set_other name other) by exact Hne;
    repeat split.
Qed.

Lemma probe_touches_one_provider_witness :
  let r' := checkProviderHealth false 2000 EdgeRouterProps.cheapest_router
                                "openai" in
  lookup "groq" (providers r')
  = lookup "groq" (providers EdgeRouterProps.cheapest_router) /\
  lookup "groq" (failures (healthCheck r'))
  = lookup "groq" (failures (healthCheck EdgeRouterProps.cheapest_router)) /\
  keys (providers r') = keys (providers EdgeRouterProps.cheapest_router) /\
  strategy r' = strategy EdgeRouterProps.cheapest_router /\
  budgetManager r' = budgetManager EdgeRouterProps.cheapest_router /\
  analytics r' = analytics EdgeRouterProps.cheapest_router.
Proof.
  apply (probe_touches_one_provider
           false 2000 EdgeRouterProps.cheapest_router "openai" "groq").
  discriminate.
Defined.

Lemma probe_keeps_provider isHealthy now r name p :
  lookup name (providers r) = Some p ->
  exists p', lookup name (providers (checkProviderHealth isHealthy now r name))
             = Some p'.
Proof.
  intros Hp. destruct isHealthy.
  - destruct (EdgeRouterProps.successful_probe_recovers now r name p Hp)
      as [_ Hs].
    destruct (EdgeRouterProps.status_of_some _ _ _ Hs) as (p' & Hp' & _). eauto.
  - destruct (EdgeRouterProps.failed_probe_step now r name p Hp) as [_ Hs].
    match type of Hs with
    | _ = (if ?b then _ else _) => destruct b
    end;
      destruct (EdgeRouterProps.status_of_some _ _ _ Hs) as (p' & Hp' & _);
      eauto.
Qed.

Lemma probe_sequence_app l1 l2 r name :
  EdgeRouterProps.probe_sequence (l1 ++ l2) r name
  = EdgeRouterProps.probe_sequence l2 (EdgeRouterProps.probe_sequence l1 r name)
                                   name.
Proof. unfold EdgeRouterProps.probe_sequence. apply fold_left_app. Qed.

Lemma probe_sequence_threshold l r name :
  failureThreshold (healthCheck (EdgeRouterProps.probe_sequence l r name))
  = failureThreshold (healthCheck r).
Proof.
  revert r. induction l as [|b l IH]; intros r; [reflexivity|].
  unfold EdgeRouterProps.probe_sequence in *. cbn [fold_left].
  rewrite IH. apply EdgeRouterProps.probe_keeps_threshold.
Qed.

Lemma repeat_snoc {A : Type} (x : A) (k : nat) :
  repeat x (S k) = (repeat x k ++ [x])%list.
Proof.
  induction k as [|k IH]; simpl in *; [reflexivity|now f_equal].
Qed.

(** X23.  After [k] failed probes in a row on a healthy provider without
    recorded failures, the failure count is [k], and the provider is
    unhealthy exactly when [k] is greater than the failure threshold; one
    successful probe after them clears the count and makes the provider
    healthy. *)
Theorem failed_probes_in_a_row
        (r : Router) (name : string) (p : ProviderConfig) (k : nat) :
  lookup name (providers r) = Some p ->
  status p = Healthy ->
  EdgeRouterProps.count_of r name = 0 ->
  0 <= failureThreshold (healthCheck r) ->
  let failed := EdgeRouterProps.probe_sequence (repeat false k) r name in
  let recovered :=
    EdgeRouterProps.probe_sequence (repeat false k ++ [true]) r name in
  EdgeRouterProps.count_of failed name = Z.of_nat k /\
  EdgeRouterProps.status_of failed name
  = Some (if failureThreshold (healthCheck r) <? Z.of_nat k
          then Unhealthy else Healthy) /\
  EdgeRouterProps.count_of recovered name = 0 /\
  EdgeRouterProps.status_of recovered name = Some Healthy.
Proof.
  intros Hp Hs Hc Ht. cbv zeta.
  assert (Hfail :
            EdgeRouterProps.count_of
              (EdgeRouterProps.probe_sequence (repeat false k) r name) name
            = Z.of_nat k /\
            EdgeRouterProps.status_of
              (EdgeRouterProps.probe_sequence (repeat false k) r name) name
            = Some (if failureThreshold (healthCheck r) <? Z.of_nat k
                    then Unhealthy else Healthy)).
  { induction k as [|k [IHc IHs]].
    - cbn [repeat]. unfold EdgeRouterProps.probe_sequence. cbn [fold_left].
      split; [exact Hc|].
      unfold EdgeRouterProps.status_of. rewrite Hp. cbn [option_map].
      rewrite Hs.
      destruct (failureThreshold (healthCheck r) <? Z.of_nat 0) eqn:E;
        [|reflexivity].
      apply Z.ltb_lt in E. simpl in E. lia.
    - rewrite repeat_snoc, probe_sequence_app.
      set (rk := EdgeRouterProps.probe_sequence (repeat false k) r name) in *.
      destruct (EdgeRouterProps.status_of_some _ _ _ IHs) as (pk & Hpk & Hsk).
      destruct (EdgeRouterProps.failed_probe_step 2000 rk name pk Hpk)
        as [Hc1 Hs1].
      change (EdgeRouterProps.probe_sequence [false] rk name)
        with (checkProviderHealth false 2000 rk name).
      unfold rk in Hs1 at 2.
      rewrite probe_sequence_threshold in Hs1. fold rk in Hs1.
      rewrite Hc1, Hs1, IHc, Hsk.
      split; [lia|].
      destruct (failureThreshold (healthCheck r) <=? Z.of_nat k) eqn:E1;
        destruct (failureThreshold (healthCheck r) <? Z.of_nat k) eqn:E2;
        destruct (failureThreshold (healthCheck r) <? Z.of_nat (S k)) eqn:E3;
        try reflexivity;
        try apply Z.leb_le in E1; try apply Z.leb_gt in E1;
        try apply Z.ltb_lt in E2; try apply Z.ltb_ge in E2;
        try apply Z.ltb_lt in E3; try apply Z.ltb_ge in E3; lia. }
  destruct Hfail as [Hfc Hfs].
  split; [exact Hfc|]. split; [exact Hfs|].
  rewrite probe_sequence_app.
  destruct (EdgeRouterProps.status_of_some _ _ _ Hfs) as (pk & Hpk & _).
  change (EdgeRouterProps.probe_sequence
            [true] (EdgeRouterProps.probe_sequence (repeat false k) r name) name)
    with (checkProviderHealth
            true 2000 (EdgeRouterProps.probe_sequence (repeat false k) r name)
            name).
  now apply (EdgeRouterProps.successful_probe_recovers 2000 _ name pk).
Qed.

Lemma failed_probes_in_a_row_witness :
  let r := EdgeRouterProps.cheapest_router in
  let failed := EdgeRouterProps.probe_sequence (repeat false 5) r "groq" in
  let recovered :=
    EdgeRouterProps.probe_sequence (repeat false 5 ++ [true]) r "groq" in
  EdgeRouterProps.count_of failed "groq" = Z.of_nat 5 /\
  EdgeRouterProps.status_of failed "groq"
  = Some (if failureThreshold (healthCheck r) <? Z.of_nat 5
          then Unhealthy else Healthy) /\
  EdgeRouterProps.count_of recovered "groq" = 0 /\
  EdgeRouterProps.status_of recovered "groq" = Some Healthy.
Proof.
  apply (failed_probes_in_a_row
           EdgeRouterProps.cheapest_router "groq"
           (mkProvider 0.0001 30 0.95 Cloud Healthy) 5).
  - reflexivity.
  - reflexivity.
  - reflexivity.
  - vm_compute. discriminate.
Defined.

(** *** The token estimate *)

Lemma strlen_append (a b : string) : strlen (a ++ b) = strlen a + strlen b.
Proof.
  unfold strlen. induction a as [|c a IH]; cbn [append String.length]; [lia|].
  rewrite !Nat2Z.inj_succ. lia.
Qed.

Definition contentChars (msgs : list JsMessage) : Z :=
  sumZ (map (fun m => strlen (content_string (js_content m))) msgs).

Lemma join_space_length (l : list JsContent) :
  strlen (join_space l)
  = sumZ (map (fun c => strlen (content_string c)) l)
    + Z.max 0 (Z.of_nat (List.length l) - 1).
Proof.
  induction l as [|c l IH]; [reflexivity|].
  destruct l as [|c' l].
  - cbn [join_space map List.length]. rewrite sumZ_cons. unfold sumZ. simpl. lia.
  - change (join_space (c :: c' :: l))
      with (content_string c ++ " " ++ join_space (c' :: l)).
    rewrite !strlen_append, IH.
    cbn [map]. rewrite !sumZ_cons.
    change (strlen " ") with 1.
    cbn [List.length]. lia.
Qed.

(** X24.  The text whose length the multi-provider router estimates is
    the message contents joined by single spaces: a request of [n]
    messages counts the characters of its contents, an absent content
    counting for none, plus [n - 1] separators; the estimate is a quarter
    of that, rounded up. *)
Theorem estimateTokens_counts_separators (msgs : list JsMessage) :
  estimateTokens msgs
  = ceil_div4 (contentChars msgs + Z.max 0 (Z.of_nat (List.length msgs) - 1)).
Proof.
  unfold estimateTokens, contentChars. cbv zeta.
  rewrite join_space_length, map_map, length_map. reflexivity.
Qed.

End EdgeRouterMore.

(** ** What the detectors never miss *)

Module DetectorProps.

(** *** Matching, step by step *)

Lemma list_of_append (a b : string) :
  list_ascii_of_string (a ++ b)
  = (list_ascii_of_string a ++ list_ascii_of_string b)%list.
Proof.
  induction a as [|c a IH]; [reflexivity|].
  cbn [append list_ascii_of_string]. rewrite IH. reflexivity.
Qed.

(** The character before the position reached after [pre]. *)
Definition position_after (prev : option ascii) (pre : list ascii)
  : option ascii :=
  fold_left (fun _ c => Some c) pre prev.

Lemma search_found (i : bool) (r : regex) :
  forall pre prev s,
    matches_here i r (position_after prev pre) s = true ->
    search i r prev (pre ++ s) = true.
Proof.
  induction pre as [|c pre IH]; intros prev s H.
  - cbn [app position_after fold_left] in *.
    destruct s; cbn [search]; now rewrite H.
  - cbn [app search].
    destruct (matches_here i r prev (c :: pre ++ s)); [reflexivity|].
    apply IH. exact H.
Qed.

(** [r] matches between two positions, in one way only. *)
Definition steps (i : bool) (r : regex) (prev : option ascii) (s : list ascii)
           (prev' : option ascii) (s' : list ascii) : Prop :=
  ends i r prev s = [(prev', s')].

Lemma steps_seq i r1 r2 p s p1 s1 p2 s2 :
  steps i r1 p s p1 s1 -> steps i r2 p1 s1 p2 s2 ->
  steps i (Seq r1 r2) p s p2 s2.
Proof.
  unfold steps. intros H1 H2. cbn [ends]. rewrite H1. cbn [flat_map fst snd].
  rewrite H2. reflexivity.
Qed.

Lemma steps_lit i c x p s :
  lit_match i c x = true -> steps i (Lit c) p (x :: s) (Some x) s.
Proof. unfold steps. intros H. cbn [ends]. now rewrite H. Qed.

Lemma steps_cls i k x p s :
  cls_match i k x = true -> steps i (Cls k) p (x :: s) (Some x) s.
Proof. unfold steps. intros H. cbn [ends]. now rewrite H. Qed.

Lemma steps_bnd i p s :
  xorb (word_before p) (word_after s) = true -> steps i Bnd p s p s.
Proof. unfold steps. intros H. cbn [ends]. now rewrite H. Qed.

Lemma steps_matches i r p s p' s' :
  steps i r p s p' s' -> matches_here i r p s = true.
Proof. unfold steps, matches_here. now intros ->. Qed.

(** Two texts that differ by the case of their letters at most. *)
Definition same_letters (a b : string) : Prop :=
  Forall2 (fun c x => lit_match true c x = true)
          (list_ascii_of_string a) (list_ascii_of_string b).

Lemma lit_list_steps (w w' : list ascii) :
  Forall2 (fun c x => lit_match true c x = true) w w' ->
  forall p post, exists p', steps true (lit_list w) p (w' ++ post) p' post.
Proof.
  induction 1 as [|c x w w' Hc Hw IH]; intros p post.
  - exists p. reflexivity.
  - destruct w as [|c2 w].
    + inversion Hw; subst. exists (Some x). now apply steps_lit.
    + destruct (IH (Some x) post) as (p' & Hp').
      exists p'.
      change (lit_list (c :: c2 :: w)) with (Seq (Lit c) (lit_list (c2 :: w))).
      apply steps_seq with (p1 := Some x) (s1 := (w' ++ post)%list);
        [now apply steps_lit|exact Hp'].
Qed.

(** A keyword pattern [/kw/i] finds the keyword wherever it stands and
    however it is cased. *)
Lemma keyword_found (kw v pre post : string) :
  same_letters kw v ->
  test (mkPattern (lit kw) true) (pre ++ v ++ post) = true.
Proof.
  intros Hv. unfold test. cbn [icase Regex.body].
  rewrite !list_of_append. apply search_found.
  destruct (lit_list_steps _ _ Hv
              (position_after None (list_ascii_of_string pre))
              (list_ascii_of_string post)) as (p' & Hp').
  now apply steps_matches with (p' := p') (s' := list_ascii_of_string post).
Qed.

Lemma any_match_in (ps : list pattern) (p : pattern) (s : string) :
  In p ps -> test p s = true -> any_match ps s = true.
Proof.
  intros Hin Ht. unfold any_match. apply existsb_exists. eauto.
Qed.

Lemma existsb_middle {A : Type} (f : A -> bool) (before after : list A) (m : A) :
  f m = true -> existsb f (before ++ m :: after) = true.
Proof.
  intros H. rewrite existsb_app. cbn [existsb]. rewrite H.
  now rewrite orb_true_r.
Qed.

Ltac in_list := first [left; reflexivity | right; in_list].

(** X25.  The JavaScript detectors never miss their keywords: a request
    is sensitive as soon as one message holds [password], [secret],
    [token], [private] or [confidential], in any letter case and anywhere
    in its content, whatever the other messages are. *)
Theorem keywords_always_flagged
        (kw v pre post role : string) (before after : list JsMessage) :
  In kw ["password"; "secret"; "token"; "private"; "confidential"] ->
  same_letters kw v ->
  let m := mkJsMessage role (CString (pre ++ v ++ post)) in
  EdgeRouterV1.containsSensitive (before ++ m :: after) = true /\
  EdgeRouter.containsSensitive (before ++ m :: after) = true.
Proof.
  intros Hkw Hv. cbv zeta.
  pose proof (keyword_found kw v pre post Hv) as Ht.
  unfold EdgeRouterV1.containsSensitive, EdgeRouter.containsSensitive.
  split; apply existsb_middle; cbn [js_content content_string];
    apply any_match_in with (p := mkPattern (lit kw) true); try exact Ht;
    cbn [In] in Hkw;
    repeat (destruct Hkw as [<-|Hkw];
            [unfold EdgeRouterV1.patterns, EdgeRouter.patterns; in_list|]);
    contradiction.
Qed.

Lemma keywords_always_flagged_witness :
  let m := mkJsMessage "user" (CString ("my " ++ "PassWord" ++ " is x")) in
  EdgeRouterV1.containsSensitive ([] ++ m :: []) = true /\
  EdgeRouter.containsSensitive ([] ++ m :: []) = true.
Proof.
  apply (keywords_always_flagged "password" "PassWord" "my " " is x" "user" [] []).
  - left. reflexivity.
  - repeat constructor.
Defined.

Lemma alts_matches (i : bool) (rs : list regex) (r : regex)
      (p : option ascii) (s : list ascii) :
  In r rs -> matches_here i r p s = true -> matches_here i (alts rs) p s = true.
Proof.
  unfold matches_here.
  induction rs as [|a rs IH]; intros Hin Hm; [contradiction|].
  destruct rs as [|b rs].
  - destruct Hin as [->|[]]. exact Hm.
  - change (alts (a :: b :: rs)) with (Alt a (alts (b :: rs))).
    cbn [ends].
    destruct Hin as [->|Hin].
    + destruct (ends i r p s); [discriminate|reflexivity].
    + specialize (IH Hin Hm).
      destruct (ends i a p s); [exact IH|reflexivity].
Qed.

Lemma search_mono (i : bool) (r1 r2 : regex) :
  (forall p s, matches_here i r1 p s = true -> matches_here i r2 p s = true) ->
  forall p s, search i r1 p s = true -> search i r2 p s = true.
Proof.
  intros Hm p s. revert p.
  induction s as [|c s IH]; intros p; cbn [search].
  - destruct (matches_here i r1 p []) eqn:E; [|discriminate].
    now rewrite (Hm _ _ E).
  - destruct (matches_here i r1 p (c :: s)) eqn:E.
    + now rewrite (Hm _ _ E).
    + intros H. destruct (matches_here i r2 p (c :: s)); [reflexivity|].
      now apply IH.
Qed.

(** One of several keywords [/kw1|kw2|.../i]. *)
Lemma keyword_of_found (kws : list string) (kw v pre post : string) :
  In kw kws ->
  same_letters kw v ->
  test (mkPattern (alts (map lit kws)) true) (pre ++ v ++ post) = true.
Proof.
  intros Hin Hv. unfold test. cbn [icase Regex.body].
  rewrite !list_of_append. apply search_found.
  apply alts_matches with (r := lit kw); [now apply in_map|].
  destruct (lit_list_steps _ _ Hv
              (position_after None (list_ascii_of_string pre))
              (list_ascii_of_string post)) as (p' & Hp').
  now apply steps_matches with (p' := p') (s' := list_ascii_of_string post).
Qed.

Lemma alts_with_more (i : bool) (rs : list regex) (extra : regex)
      (p : option ascii) (s : list ascii) :
  rs <> [] ->
  matches_here i (alts rs) p s = true ->
  matches_here i (alts (rs ++ [extra])) p s = true.
Proof.
  unfold matches_here.
  induction rs as [|a rs IH]; intros Hne Hm; [congruence|].
  destruct rs as [|b rs].
  - cbn [app alts ends] in *.
    destruct (ends i a p s); [discriminate|reflexivity].
  - change (alts ((a :: b :: rs) ++ [extra]))
      with (Alt a (alts ((b :: rs) ++ [extra]))).
    change (alts (a :: b :: rs)) with (Alt a (alts (b :: rs))) in Hm.
    cbn [ends] in *.
    destruct (ends i a p s); [|reflexivity].
    apply IH; [discriminate|exact Hm].
Qed.

(** X26.  The TypeScript detector never misses its keywords: a request is
    sensitive as soon as one message holds [patient], [medical],
    [diagnosis], [prescription], [salary], [income] or [ssn], in any
    letter case and anywhere in its content.  The multi-provider router
    shares [medical] and [patient]. *)
Theorem typed_keywords_always_flagged
        (kw v pre post role : string)
        (before after : list Message) (jbefore jafter : list JsMessage) :
  In kw ["patient"; "medical"; "diagnosis"; "prescription";
         "salary"; "income"; "ssn"] ->
  same_letters kw v ->
  GPTRouter.detectSensitive
    (before ++ mkMessage role (pre ++ v ++ post) :: after) = true /\
  (In kw ["medical"; "patient"] ->
   EdgeRouter.containsSensitive
     (jbefore ++ mkJsMessage role (CString (pre ++ v ++ post)) :: jafter)
   = true).
Proof.
  intros Hkw Hv. split.
  - unfold GPTRouter.detectSensitive. apply existsb_middle. cbn [content].
    assert (Hcase : In kw ["patient"; "medical"; "diagnosis"; "prescription"]
                    \/ In kw ["salary"; "income"; "ssn"]).
    { cbn [In] in *. intuition. }
    destruct Hcase as [H4|H3].
    + apply any_match_in
        with (p := mkPattern (alts (map lit ["patient"; "medical"; "diagnosis";
                                             "prescription"])) true).
      * unfold GPTRouter.patterns. in_list.
      * exact (keyword_of_found ["patient"; "medical"; "diagnosis";
                                 "prescription"] kw v pre post H4 Hv).
    + apply any_match_in
        with (p := mkPattern
                     (alts (map lit ["salary"; "income"; "ssn"]
                            ++ [seqs [lit "social"; Opt (Cls is_dot);
                                      lit "security"]])) true).
      * unfold GPTRouter.patterns. in_list.
      * pose proof (keyword_of_found ["salary"; "income"; "ssn"]
                      kw v pre post H3 Hv) as Ht.
        unfold test in *. cbn [icase Regex.body] in *.
        revert Ht. apply search_mono.
        intros p0 s0. apply alts_with_more. discriminate.
  - intros Hshared.
    unfold EdgeRouter.containsSensitive. apply existsb_middle.
    cbn [js_content content_string].
    apply any_match_in with (p := mkPattern (lit kw) true);
      [|now apply keyword_found].
    cbn [In] in Hshared.
    repeat (destruct Hshared as [<-|Hshared];
            [unfold EdgeRouter.patterns; in_list|]);
    contradiction.
Qed.

Lemma typed_keywords_always_flagged_witness :
  GPTRouter.detectSensitive
    ([] ++ mkMessage "user" ("the " ++ "PATIENT" ++ " is fine") :: []) = true /\
  (In "patient" ["medical"; "patient"] ->
   EdgeRouter.containsSensitive
     ([] ++ mkJsMessage "user" (CString ("the " ++ "PATIENT" ++ " is fine")) :: [])
   = true).
Proof.
  apply (typed_keywords_always_flagged
           "patient" "PATIENT" "the " " is fine" "user" [] [] [] []).
  - left. reflexivity.
  - repeat constructor.
Defined.

Lemma patterns_included :
  incl EdgeRouterV1.patterns EdgeRouter.patterns.
Proof.
  intros p Hp. unfold EdgeRouterV1.patterns in Hp. cbn [In] in Hp.
  repeat (destruct Hp as [<-|Hp]; [unfold EdgeRouter.patterns; in_list|]).
  contradiction.
Qed.

(** X27.  The multi-provider router detects all that the two-provider
    router detects: a request the detector of [index.js] classes as
    sensitive is sensitive for the multi-provider detector too. *)
Theorem detector_grew (msgs : list JsMessage) :
  EdgeRouterV1.containsSensitive msgs = true ->
  EdgeRouter.containsSensitive msgs = true.
Proof.
  unfold EdgeRouterV1.containsSensitive, EdgeRouter.containsSensitive.
  rewrite !existsb_exists. intros (m & Hm & Hp).
  exists m. split; [exact Hm|].
  unfold any_match in *. rewrite existsb_exists in *.
  destruct Hp as (p & Hin & Ht).
  exists p. split; [now apply patterns_included|exact Ht].
Qed.

Lemma detector_grew_witness :
  EdgeRouter.containsSensitive [SensitivityProps.ssn_message] = true.
Proof.
  apply (detector_grew [SensitivityProps.ssn_message]). reflexivity.
Defined.

(** *** Social security numbers *)

Definition all_digits (l : list ascii) : Prop :=
  Forall (fun d => is_digit d = true) l.

(** The text [ddd-dd-dddd]. *)
Definition ssn_text (a b c : list ascii) : string :=
  string_of_list_ascii (a ++ "-"%char :: b ++ "-"%char :: c).

(** [pre] does not end inside a word, [post] does not start inside one. *)
Definition ends_outside_word (pre : string) : Prop :=
  word_before (position_after None (list_ascii_of_string pre)) = false.

Definition starts_outside_word (post : string) : Prop :=
  word_after (list_ascii_of_string post) = false.

Ltac walk Hprev Hpost :=
  lazymatch goal with
  | |- steps _ (Seq _ _) _ _ _ _ =>
      eapply steps_seq; [walk Hprev Hpost | walk Hprev Hpost]
  | |- steps _ (Cls _) _ _ _ _ =>
      apply steps_cls; cbn [cls_match]; assumption
  | |- steps _ (Lit _) _ _ _ _ =>
      apply steps_lit; reflexivity
  | |- steps _ Bnd _ _ _ _ =>
      apply steps_bnd; rewrite ?Hprev, ?Hpost;
      cbn [word_before word_after]; unfold is_word;
      repeat match goal with
             | H : is_digit ?x = true |- context [is_digit ?x] => rewrite H
             end;
      reflexivity
  end.

Lemma ssn_matches (a b c : list ascii) (prev : option ascii) (post : list ascii) :
  List.length a = 3%nat -> List.length b = 2%nat -> List.length c = 4%nat ->
  all_digits a -> all_digits b -> all_digits c ->
  word_before prev = false ->
  word_after post = false ->
  matches_here false (Regex.body ssn) prev
               (a ++ "-"%char :: b ++ "-"%char :: c ++ post) = true.
Proof.
  intros La Lb Lc Ha Hb Hc Hprev Hpost.
  destruct a as [|a1 [|a2 [|a3 [|]]]]; try discriminate.
  destruct b as [|b1 [|b2 [|]]]; try discriminate.
  destruct c as [|c1 [|c2 [|c3 [|c4 [|]]]]]; try discriminate.
  unfold all_digits in *.
  repeat match goal with
         | H : Forall _ (_ :: _) |- _ => inversion H; subst; clear H
         | H : Forall _ [] |- _ => clear H
         end.
  cbn [app].
  eapply steps_matches.
  unfold ssn. cbn [Regex.body seqs digits rep].
  walk Hprev Hpost.
Qed.

(** X28.  No detector misses a social security number: a request is
    sensitive for all three routers as soon as one message holds three
    digits, a hyphen, two digits, a hyphen and four digits, provided the
    number does not touch a letter, a digit or an underscore on either
    side. *)
Theorem ssn_always_flagged
        (a b c : list ascii) (pre post role : string)
        (before after : list Message) (jbefore jafter : list JsMessage) :
  List.length a = 3%nat -> List.length b = 2%nat -> List.length c = 4%nat ->
  all_digits a -> all_digits b -> all_digits c ->
  ends_outside_word pre ->
  starts_outside_word post ->
  let text := pre ++ ssn_text a b c ++ post in
  EdgeRouterV1.containsSensitive
    (jbefore ++ mkJsMessage role (CString text) :: jafter) = true /\
  EdgeRouter.containsSensitive
    (jbefore ++ mkJsMessage role (CString text) :: jafter) = true /\
  GPTRouter.detectSensitive (before ++ mkMessage role text :: after) = true.
Proof.
  intros La Lb Lc Ha Hb Hc Hpre Hpost. cbv zeta.
  assert (Ht : test ssn (pre ++ ssn_text a b c ++ post) = true).
  { unfold test, ssn_text. rewrite !list_of_append.
    rewrite list_ascii_of_string_of_list_ascii.
    apply search_found.
    replace ((a ++ "-"%char :: b ++ "-"%char :: c) ++ list_ascii_of_string post)%list
      with (a ++ "-"%char :: b ++ "-"%char :: c ++ list_ascii_of_string post)%list.
    - now apply ssn_matches.
    - rewrite <- !app_assoc. cbn [app]. rewrite <- !app_assoc. reflexivity. }
  unfold EdgeRouterV1.containsSensitive, EdgeRouter.containsSensitive,
    GPTRouter.detectSensitive.
  repeat split; apply existsb_middle; cbn [js_content content_string content];
    apply any_match_in with (p := ssn); try exact Ht.
  - unfold EdgeRouterV1.patterns. in_list.
  - unfold EdgeRouter.patterns. in_list.
  - unfold GPTRouter.patterns. in_list.
Qed.

Lemma ssn_always_flagged_witness :
  let text := "SSN: " ++ ssn_text ["1"; "2"; "3"]%char ["4"; "5"]%char
                                  ["6"; "7"; "8"; "9"]%char ++ "." in
  EdgeRouterV1.containsSensitive
    ([] ++ mkJsMessage "user" (CString text) :: []) = true /\
  EdgeRouter.containsSensitive
    ([] ++ mkJsMessage "user" (CString text) :: []) = true /\
  GPTRouter.detectSensitive ([] ++ mkMessage "user" text :: []) = true.
Proof.
  apply (ssn_always_flagged
           ["1"; "2"; "3"]%char ["4"; "5"]%char ["6"; "7"; "8"; "9"]%char
           "SSN: " "." "user" [] [] [] []);
    try reflexivity; repeat constructor.
Defined.

End DetectorProps.

(** ** The Express middlewares *)

Module MiddlewareProps.

Lemma some_error (f : JsMessage -> bool) (messages : list AnyElement)
      (e : error) :
  some_message f messages = Err e -> e = JsTypeError.
Proof.
  induction messages as [|[|m] messages IH]; cbn [some_message].
  - discriminate.
  - now intros [= <-].
  - destruct (f m); [discriminate|exact IH].
Qed.

(** *** The JavaScript routers *)

Lemma edge_route_returns
      (now : Z) (r : EdgeRouter.Router) (request : AnyValue) :
  exists r' res, EdgeRouter.Any.route now r request = Some (r', res).
Proof.
  destruct request as [| |[[| |messages] model]]; try (cbn; eauto; fail).
  destruct (AnyProps.split_elements messages)
    as [(msgs & ->)|(pre & post & ->)].
  - rewrite AnyProps.edge_route_objects. apply EdgeRouterProps.route_returns.
  - rewrite AnyProps.edge_route_null. eauto.
Qed.

(** What a call of [route] on any value writes: a decision is made for
    an array of message objects only, and books what the router on typed
    requests books; a failure books nothing. *)
Lemma edge_route_effect
      (now : Z) (r r' : EdgeRouter.Router) (request : AnyValue)
      (res : result EdgeRouter.Routing) :
  EdgeRouter.Any.route now r request = Some (r', res) ->
  EdgeRouterMore.same_setup r r' /\
  match res with
  | Ok d =>
      exists msgs model,
        request = Truthy (mkFields (Elements (elements_of msgs)) model) /\
        EdgeRouterMore.booked r r' (EdgeRouter.provider d)
                              (EdgeRouter.r_cost d)
  | Err _ => EdgeRouterMore.unbooked r r'
  end.
Proof.
  assert (Hfail : forall e,
             Some (r, @Err EdgeRouter.Routing e) = Some (r', res) ->
             EdgeRouterMore.same_setup r r' /\
             match res with
             | Ok d =>
                 exists msgs model,
                   request = Truthy (mkFields (Elements (elements_of msgs))
                                              model) /\
                   EdgeRouterMore.booked r r' (EdgeRouter.provider d)
                                         (EdgeRouter.r_cost d)
             | Err _ => EdgeRouterMore.unbooked r r'
             end).
  { intros e [= <- <-].
    split; [apply EdgeRouterMore.same_setup_refl|now repeat split]. }
  destruct request as [| |[[| |messages] model]];
    try (cbn; intros Hr; now apply (Hfail _ Hr)).
  destruct (AnyProps.split_elements messages)
    as [(msgs & ->)|(pre & post & ->)].
  - rewrite AnyProps.edge_route_objects. intros Hr.
    destruct (EdgeRouterMore.route_effect now r r' _ res Hr) as [Hs Hout].
    split; [exact Hs|]. destruct res as [d|e]; [|exact Hout].
    destruct Hout as (msgs' & p & _ & _ & _ & _ & Hb).
    now exists msgs, model.
  - rewrite AnyProps.edge_route_null. intros Hr. now apply (Hfail _ Hr).
Qed.

(** X29.  The middlewares of the JavaScript routers always answer, never
    with a 404 and never through [next], whatever the body is.  The
    multi-provider router answers [GET /dashboard] with the page of the
    current summary and is left as it was; of any other request it routes
    the body: a decision is sent as JSON, and only a body with an array
    of message objects gets one; a thrown error is sent as a 500 and
    books nothing, and it is a [TypeError] for a body that is [null] or
    [undefined] and the invalid-request error for a body without a
    message array; the provider table, the strategy and the budget limits
    are never written.  The two-provider router sends a decision exactly
    when the body holds an array on which its detector does not throw. *)
Theorem js_middlewares_answer
        (now : Z) (r : EdgeRouter.Router) (v1r : EdgeRouterV1.Router)
        (req : HttpRequest) :
  (exists r' resp,
     EdgeRouter.Any.middleware now r req = Some (r', resp) /\
     EdgeRouterMore.same_setup r r' /\
     match resp with
     | Html page =>
         r' = r /\ page = EdgeRouter.getAnalytics now r /\
         path req = Some "/dashboard" /\ method req = Some "GET"
     | Json d =>
         EdgeRouter.Any.route now r (body req) = Some (r', Ok d) /\
         exists msgs model,
           body req = Truthy (mkFields (Elements (elements_of msgs)) model) /\
           EdgeRouterMore.booked r r' (EdgeRouter.provider d)
                                 (EdgeRouter.r_cost d)
     | ErrorJson status e =>
         status = 500 /\
         EdgeRouter.Any.route now r (body req) = Some (r', Err e) /\
         EdgeRouterMore.unbooked r r' /\
         (body req = Nullish -> e = JsTypeError /\ r' = r) /\
         (AnyProps.no_messages (body req) -> e = InvalidRequest /\ r' = r)
     | NotFound | Next => False
     end) /\
  match EdgeRouterV1.Any.middleware v1r req with
  | Json d =>
      exists fields messages hasSensitive,
        body req = Truthy fields /\
        f_messages fields = Elements messages /\
        EdgeRouterV1.Any.containsSensitive messages = Ok hasSensitive /\
        d = (if (hasSensitive || EdgeRouterV1.preferLocal v1r)%bool
             then EdgeRouterV1.routeToLocal
             else EdgeRouterV1.routeToCloudflare)
  | ErrorJson status e =>
      status = 500 /\
      ((body req = Nullish /\ e = JsTypeError) \/
       (AnyProps.no_messages (body req) /\ e = InvalidRequest) \/
       (exists fields messages,
          body req = Truthy fields /\
          f_messages fields = Elements messages /\
          EdgeRouterV1.Any.containsSensitive messages = Err JsTypeError /\
          e = JsTypeError))
  | Html _ | NotFound | Next => False
  end.
Proof.
  split.
  - unfold EdgeRouter.Any.middleware.
    destruct (is_str "/dashboard" (path req) && is_str "GET" (method req))%bool
      eqn:Ed.
    + exists r, (Html (EdgeRouter.getAnalytics now r)).
      split; [reflexivity|]. split; [apply EdgeRouterMore.same_setup_refl|].
      apply andb_true_iff in Ed. destruct Ed as [Ep Em].
      unfold is_str in *.
      destruct (path req) as [pa|]; [|discriminate].
      destruct (method req) as [me|]; [|discriminate].
      apply String.eqb_eq in Ep, Em. subst. now repeat split.
    + destruct (edge_route_returns now r (body req)) as (r' & res & Hr).
      destruct (edge_route_effect now r r' (body req) res Hr) as [Hs Hout].
      rewrite Hr. destruct res as [d|e].
      * exists r', (Json d). split; [reflexivity|]. split; [exact Hs|].
        split; [reflexivity|exact Hout].
      * exists r', (ErrorJson 500 e). split; [reflexivity|].
        split; [exact Hs|]. split; [reflexivity|]. split; [reflexivity|].
        split; [exact Hout|]. split.
        -- intros Hb. rewrite Hb in Hr. cbn in Hr.
           injection Hr as <- <-. now split.
        -- intros [Hb|(fields & Hb & [Hm|Hm])]; rewrite Hb in Hr;
             cbn in Hr; try rewrite Hm in Hr; injection Hr as <- <-;
             now split.
  - unfold EdgeRouterV1.Any.middleware, EdgeRouterV1.Any.route.
    destruct (body req) as [| |fields] eqn:Hb.
    + split; [reflexivity|]. now left.
    + split; [reflexivity|]. right. left. split; [now left|reflexivity].
    + destruct (f_messages fields) as [| |messages] eqn:Hm.
      * split; [reflexivity|]. right. left. split; [|reflexivity].
        right. exists fields. split; [reflexivity|now left].
      * split; [reflexivity|]. right. left. split; [|reflexivity].
        right. exists fields. split; [reflexivity|now right].
      * destruct (EdgeRouterV1.Any.containsSensitive messages)
          as [hasSensitive|e] eqn:Hc.
        -- cbv zeta.
           destruct (hasSensitive || EdgeRouterV1.preferLocal v1r)%bool eqn:Eh;
             cbn; exists fields, messages, hasSensitive;
             rewrite Eh; repeat split; assumption.
        -- split; [reflexivity|]. right. right.
           pose proof (some_error _ _ _ Hc) as ->.
           exists fields, messages. repeat split; assumption.
Qed.

(** *** The TypeScript router *)








End MiddlewareProps.
